(** * SCTE-35 splice descriptors (threefive/descriptors.py)

    A shallow embedding of the descriptor decode / encode subsystem:
    the bit cursor pair [BitBin] / [NBin], the base class
    [SpliceDescriptor], the five variants and the UPID dispatch of the
    segmentation descriptor, followed by the properties of the
    specification that concern them. *)

From Stdlib Require Import ZArith List String Ascii Lia Bool QArith.
From Stdlib Require Import HexString DecimalString.
Import ListNotations.
Open Scope Z_scope.

Set Warnings "-register-all".

(** ** Outcomes of a call

    A Python call returns a value, raises, or (for the two loops whose
    termination is not structural) is cut off by the fuel of the model. *)

Inductive exn : Type :=
| BufferUnderrun      (* a read the bit cursor cannot serve *)
| IndexError          (* bites[1], self.components[a_c], ... *)
| KeyError            (* table20[k] on a missing key *)
| TypeError           (* an attribute that is still None used as an int *)
| UnicodeDecodeError. (* bytes.decode("utf-8") on a non-ASCII single byte *)

Inductive outcome (A : Type) : Type :=
| Ok (a : A)
| Raise (e : exn)
| OutOfFuel.

Arguments Ok {A} a.
Arguments Raise {A} e.
Arguments OutOfFuel {A}.

Definition bind {A B : Type} (m : outcome A) (k : A -> outcome B) : outcome B :=
  match m with
  | Ok a => k a
  | Raise e => Raise e
  | OutOfFuel => OutOfFuel
  end.

Notation "x <- m ;; k" := (bind m (fun x => k))
  (at level 61, m at next level, right associativity).
Notation "' p <- m ;; k" := (bind m (fun x => match x with p => k end))
  (at level 61, p pattern, m at next level, right associativity).

(** Reading an attribute that may still hold [None] where an integer,
    a list or a string is needed. *)
Definition the {A : Type} (o : option A) : outcome A :=
  match o with
  | Some a => Ok a
  | None => Raise TypeError
  end.

(** ** Bytes and integers

    [bytes] values are lists of integers in [0, 256). *)

Definition byte_ok (b : Z) : Prop := 0 <= b < 256.

(** int.from_bytes(bites, byteorder="big") *)
Definition int_from_bytes (bites : list Z) : Z :=
  fold_left (fun acc b => acc * 256 + b) bites 0.

(** int.to_bytes(v, n, byteorder="big"), on a value that fits *)
Fixpoint int_to_bytes (n : nat) (v : Z) : list Z :=
  match n with
  | O => []
  | S k => int_to_bytes k (v / 256) ++ [v mod 256]
  end.

(** s[a:b] on a str *)
Definition slice (a b : nat) (s : string) : string := substring a (b - a) s.

(** str(n) for an int *)
Definition str_of_int (n : Z) : string := NilZero.string_of_int (Z.to_int n).

(** ** The bit cursor, read side *)

Module BitBin.

(** Modelled from the spec: the class BitBin of the package bitn, which
    descriptors.py imports and which is not part of the sources.  The
    reader is a cursor over an immutable buffer; [idx] is the number of
    bits not yet consumed (the attribute [_set_segments] tests with
    [bitbin.idx >= 16], "if there are 16 more bits in bitbin"), so the
    position from the start of the buffer is [bitsize - idx].  A read of
    [n] bits fails with [BufferUnderrun] when fewer than [n] bits remain;
    a negative width, which no cursor can serve either, fails the same
    way.  [forward] only moves the cursor. *)
Record t : Type := mk { bitsize : Z; idx : Z; bits : Z }.

(** Modelled from the spec: a cursor at the start of [bites]. *)
Definition new (bites : list Z) : t :=
  let n := Z.shiftl (Z.of_nat (List.length bites)) 3 in
  mk n n (int_from_bytes bites).

(** Modelled from the spec: read_uint. *)
Definition asint (num_bits : Z) (b : t) : outcome (Z * t) :=
  if (num_bits <? 0) || (idx b <? num_bits) then Raise BufferUnderrun
  else
    let i := idx b - num_bits in
    Ok (Z.land (Z.shiftr (bits b) i) (Z.ones num_bits),
        mk (bitsize b) i (bits b)).

(** Modelled from the spec: read_flag. *)
Definition asflag (num_bits : Z) (b : t) : outcome (bool * t) :=
  '(v, b) <- asint num_bits b ;;
  Ok (negb (v =? 0), b).

(** Modelled from the spec: read_hex, the text Python's hex() gives. *)
Definition ashex (num_bits : Z) (b : t) : outcome (string * t) :=
  '(v, b) <- asint num_bits b ;;
  Ok (HexString.of_Z v, b).

(** Modelled from the spec: read_clock90k, ticks / 90000. *)
Definition as90k (num_bits : Z) (b : t) : outcome (Q * t) :=
  '(v, b) <- asint num_bits b ;;
  Ok ((v # 90000)%Q, b).

(** Modelled from the spec: skip, which only moves the cursor. *)
Definition forward (num_bits : Z) (b : t) : t :=
  mk (bitsize b) (idx b - num_bits) (bits b).

(** Modelled from the spec: read_decoded_string, the best-effort UTF-8
    decoding of the next bits.  The decoder [decode_utf8] is total: it
    replaces or drops what it cannot decode, which of the two is left
    open, so it stays a parameter. *)
Definition asdecodedhex (decode_utf8 : list Z -> string)
    (num_bits : Z) (b : t) : outcome (string * t) :=
  '(v, b) <- asint num_bits b ;;
  Ok (decode_utf8 (int_to_bytes (Z.to_nat (num_bits / 8)) v), b).

End BitBin.

(** ** The bit cursor, write side *)

Module NBin.

(** Modelled from the spec: the class NBin of the package bitn.  The
    writer mirrors the reader: it accumulates the bits written so far,
    most significant first, [idx] counting them; [forward] emits zero
    filler bits; [bites] is the accumulated buffer in whole bytes. *)
Record t : Type := mk { nbits : Z; idx : Z }.

(** Modelled from the spec: the empty writer. *)
Definition new : t := mk 0 0.

(** Modelled from the spec: write_uint. *)
Definition add_int (int_bits bit_len : Z) (n : t) : t :=
  mk (Z.lor (Z.shiftl (nbits n) bit_len) int_bits) (idx n + bit_len).

(** Modelled from the spec: write_hex, through int(hex_str, 16). *)
Definition add_hex (hex_str : string) (bit_len : Z) (n : t) : t :=
  add_int (HexString.to_Z hex_str) bit_len n.

(** Modelled from the spec: write_flag. *)
Definition add_flag (flg : bool) (n : t) : t :=
  add_int (if flg then 1 else 0) 1 n.

(** Modelled from the spec: skip on the write side, zero filler bits. *)
Definition forward (num : Z) (n : t) : t :=
  mk (Z.shiftl (nbits n) num) (idx n + num).

(** Modelled from the spec: the accumulated output byte buffer. *)
Definition bites (n : t) : list Z :=
  int_to_bytes (Z.to_nat (idx n / 8)) (nbits n).

End NBin.

(** ** Descriptors *)

(** What a call leaves on stderr through [to_stderr]. *)
Inductive stderr_line : Type :=
| IdentifierWarning                   (* Descriptors should have an identifier of CUEI *)
| DescriptorBytes (bites : list Z).   (* descriptor bytes {nbin.bites} *)

(** Modelled from the spec: i2b of threefive/tools.py followed by
    decode("utf-8") on the single byte it returns; a DTMF character is an
    ASCII character stored as an 8-bit code point, and a byte from 0x80
    on is not valid UTF-8 by itself. *)
Definition i2b_decode (v : Z) : outcome ascii :=
  if v <? 128 then Ok (ascii_of_N (Z.to_N v)) else Raise UnicodeDecodeError.

(** ord(c) on a str of length one *)
Definition ord (c : ascii) : Z := Z.of_N (N_of_ascii c).

(** l[i] on a list *)
Definition getitem {A : Type} (l : list A) (i : Z) : outcome A :=
  if i <? 0 then
    match nth_error l (Z.to_nat (Z.of_nat (List.length l) + i)) with
    | Some a => if Z.of_nat (List.length l) + i <? 0 then Raise IndexError else Ok a
    | None => Raise IndexError
    end
  else
    match nth_error l (Z.to_nat i) with
    | Some a => Ok a
    | None => Raise IndexError
    end.

(** *** Instances of the parameters, for the examples

    The decoder and the two tables are parameters of the development;
    the examples run it on the following instances. *)

(** Modelled from the spec: a best-effort decoder.  ASCII text decodes to
    itself; the bytes from 0x80 on are dropped. *)
Definition ascii_decoder (bs : list Z) : string :=
  string_of_list_ascii
    (map (fun b => ascii_of_N (Z.to_N b)) (filter (fun b => b <? 128) bs)).

(** Modelled from the spec: table20 of threefive/segmentation.py, the
    4-entry table of the device restrictions, with the SCTE-35 names of
    the four values as labels. *)
Definition table20_sample (k : Z) : option string :=
  match k with
  | 0 => Some "Restrict Group 0"%string
  | 1 => Some "Restrict Group 1"%string
  | 2 => Some "Restrict Group 2"%string
  | 3 => Some "No Restrictions"%string
  | _ => None
  end.

(** Modelled from the spec: table22 of threefive/segmentation.py, cut
    down to the entries the examples use: two of the labels the spec
    quotes and the four sub-segment-bearing codes. *)
Definition table22_sample (k : Z) : option string :=
  match k with
  | 0x10 => Some "Program Start"%string
  | 0x21 => Some "Chapter End"%string
  | 0x34 => Some "Provider Placement Opportunity Start"%string
  | 0x36 => Some "Distributor Placement Opportunity Start"%string
  | 0x38 => Some "Provider Overlay Placement Opportunity Start"%string
  | 0x3A => Some "Distributor Overlay Placement Opportunity Start"%string
  | _ => None
  end.

Section Descriptors.

Variable decode_utf8 : list Z -> string.

(** *** class SpliceDescriptor *)

Record SpliceDescriptor : Type := mkSpliceDescriptor {
  tag : option Z;
  descriptor_length : option Z;
  identifier : option string;
  bites : option (list Z)
}.

(** SpliceDescriptor.__init__ *)
Definition SpliceDescriptor_init (bites : option (list Z)) : outcome SpliceDescriptor :=
  match bites with
  | Some (b0 :: rest) =>
      match rest with
      | b1 :: payload => Ok (mkSpliceDescriptor (Some b0) (Some b1) None (Some payload))
      | [] => Raise IndexError
      end
  | _ => Ok (mkSpliceDescriptor None None None bites)
  end.

(** BitBin(self.bites) *)
Definition BitBin_of (self : SpliceDescriptor) : outcome BitBin.t :=
  bs <- the (bites self) ;;
  Ok (BitBin.new bs).

Definition encode_meta (self : SpliceDescriptor) (nbin : NBin.t) : outcome NBin.t :=
  t <- the (tag self) ;;
  let nbin := NBin.add_int t 8 nbin in
  l <- the (descriptor_length self) ;;
  Ok (NBin.add_int l 8 nbin).

Definition parse_id (self : SpliceDescriptor) (bitbin : BitBin.t)
  : outcome (SpliceDescriptor * BitBin.t * list stderr_line) :=
  '(s, bitbin) <- BitBin.asdecodedhex decode_utf8 32 bitbin ;;
  let self := mkSpliceDescriptor (tag self) (descriptor_length self) (Some s) (bites self) in
  Ok (self, bitbin, if String.eqb s "CUEI" then [] else [IdentifierWarning]).

Definition encode_id (self : SpliceDescriptor) (nbin : NBin.t)
  : SpliceDescriptor * NBin.t :=
  let self := mkSpliceDescriptor (tag self) (descriptor_length self)
                (Some "0x43554549"%string) (bites self) in
  (self, NBin.add_hex "0x43554549" 32 nbin).

(** SpliceDescriptor.encode: returns the writer *)
Definition SpliceDescriptor_encode (self : SpliceDescriptor)
  : outcome (NBin.t * SpliceDescriptor) :=
  let nbin := NBin.new in
  nbin <- encode_meta self nbin ;;
  let '(self, nbin) := encode_id self nbin in
  Ok (nbin, self).

(** *** class AvailDescriptor *)

Record AvailDescriptor : Type := mkAvailDescriptor {
  avail_base : SpliceDescriptor;
  avail_name : string;
  provider_avail_id : option Z
}.

Definition AvailDescriptor_init (bites : option (list Z)) : outcome AvailDescriptor :=
  base <- SpliceDescriptor_init bites ;;
  Ok (mkAvailDescriptor base "Avail Descriptor" None).

(** AvailDescriptor.encode: no return statement, so the call gives None;
    the writer is only shown on stderr. *)
Definition AvailDescriptor_encode (self : AvailDescriptor)
  : outcome (option NBin.t * AvailDescriptor * list stderr_line) :=
  '(nbin, base) <- SpliceDescriptor_encode (avail_base self) ;;
  let self := mkAvailDescriptor base (avail_name self) (provider_avail_id self) in
  v <- the (provider_avail_id self) ;;
  let nbin := NBin.add_int v 32 nbin in
  Ok (None, self, [DescriptorBytes (NBin.bites nbin)]).

Definition AvailDescriptor_decode (self : AvailDescriptor)
  : outcome (AvailDescriptor * list stderr_line) :=
  bitbin <- BitBin_of (avail_base self) ;;
  '(base, bitbin, e1) <- parse_id (avail_base self) bitbin ;;
  '(v, bitbin) <- BitBin.asint 32 bitbin ;;
  let self := mkAvailDescriptor base (avail_name self) (Some v) in
  '(_, self, e2) <- AvailDescriptor_encode self ;;
  Ok (self, e1 ++ e2).

(** *** class DtmfDescriptor *)

Record DtmfDescriptor : Type := mkDtmfDescriptor {
  dtmf_base : SpliceDescriptor;
  dtmf_name : string;
  preroll : option Z;
  dtmf_count : option Z;
  dtmf_chars : list ascii
}.

Definition DtmfDescriptor_init (bites : option (list Z)) : outcome DtmfDescriptor :=
  base <- SpliceDescriptor_init bites ;;
  Ok (mkDtmfDescriptor base "DTMF Descriptor" None None []).

(** while d_c: d_c -= 1; self.dtmf_chars.append(...) *)
Fixpoint Dtmf_decode_loop (d_c : nat) (bitbin : BitBin.t) (chars : list ascii)
  : outcome (list ascii * BitBin.t) :=
  match d_c with
  | O => Ok (chars, bitbin)
  | S d_c =>
      '(v, bitbin) <- BitBin.asint 8 bitbin ;;
      c <- i2b_decode v ;;
      Dtmf_decode_loop d_c bitbin (chars ++ [c])
  end.

(** while d_c < self.dtmf_count: ...; d_c += 1, run on the
    [dtmf_count - d_c] rounds that are left *)
Fixpoint Dtmf_encode_loop (rounds : nat) (d_c : Z) (chars : list ascii) (nbin : NBin.t)
  : outcome NBin.t :=
  match rounds with
  | O => Ok nbin
  | S rounds =>
      c <- getitem chars d_c ;;
      Dtmf_encode_loop rounds (d_c + 1) chars (NBin.add_int (ord c) 8 nbin)
  end.

Definition DtmfDescriptor_encode (self : DtmfDescriptor)
  : outcome (option NBin.t * DtmfDescriptor * list stderr_line) :=
  '(nbin, base) <- SpliceDescriptor_encode (dtmf_base self) ;;
  let self := mkDtmfDescriptor base (dtmf_name self) (preroll self)
                (dtmf_count self) (dtmf_chars self) in
  p <- the (preroll self) ;;
  let nbin := NBin.add_int p 8 nbin in
  let d_c := 0 in
  n <- the (dtmf_count self) ;;
  let nbin := NBin.add_int n 3 nbin in
  let nbin := NBin.forward 5 nbin in
  nbin <- Dtmf_encode_loop (Z.to_nat (n - d_c)) d_c (dtmf_chars self) nbin ;;
  Ok (None, self, [DescriptorBytes (NBin.bites nbin)]).

Definition DtmfDescriptor_decode (self : DtmfDescriptor)
  : outcome (DtmfDescriptor * list stderr_line) :=
  bitbin <- BitBin_of (dtmf_base self) ;;
  '(base, bitbin, e1) <- parse_id (dtmf_base self) bitbin ;;
  '(p, bitbin) <- BitBin.asint 8 bitbin ;;
  '(d_c, bitbin) <- BitBin.asint 3 bitbin ;;
  let bitbin := BitBin.forward 5 bitbin in
  '(chars, bitbin) <- Dtmf_decode_loop (Z.to_nat d_c) bitbin (dtmf_chars self) ;;
  let self := mkDtmfDescriptor base (dtmf_name self) (Some p) (Some d_c) chars in
  '(_, self, e2) <- DtmfDescriptor_encode self ;;
  Ok (self, e1 ++ e2).

(** *** class TimeDescriptor *)

Record TimeDescriptor : Type := mkTimeDescriptor {
  time_base : SpliceDescriptor;
  time_name : string;
  tai_seconds : option Z;
  tai_ns : option Z;
  utc_offset : option Z
}.

Definition TimeDescriptor_init (bites : option (list Z)) : outcome TimeDescriptor :=
  base <- SpliceDescriptor_init bites ;;
  Ok (mkTimeDescriptor base "Time Descriptor" None None None).

Definition TimeDescriptor_decode (self : TimeDescriptor)
  : outcome (TimeDescriptor * list stderr_line) :=
  bitbin <- BitBin_of (time_base self) ;;
  '(base, bitbin, e1) <- parse_id (time_base self) bitbin ;;
  '(s, bitbin) <- BitBin.asint 48 bitbin ;;
  '(ns, bitbin) <- BitBin.asint 32 bitbin ;;
  '(off, bitbin) <- BitBin.asint 16 bitbin ;;
  Ok (mkTimeDescriptor base (time_name self) (Some s) (Some ns) (Some off), e1).

Definition TimeDescriptor_encode (self : TimeDescriptor)
  : outcome (option NBin.t * TimeDescriptor * list stderr_line) :=
  '(nbin, base) <- SpliceDescriptor_encode (time_base self) ;;
  let self := mkTimeDescriptor base (time_name self) (tai_seconds self)
                (tai_ns self) (utc_offset self) in
  s <- the (tai_seconds self) ;;
  let nbin := NBin.add_int s 48 nbin in
  ns <- the (tai_ns self) ;;
  let nbin := NBin.add_int ns 32 nbin in
  off <- the (utc_offset self) ;;
  let nbin := NBin.add_int off 16 nbin in
  Ok (None, self, [DescriptorBytes (NBin.bites nbin)]).

(** *** class AudioDescriptor *)

(** The dict built for one audio component, with its five fixed keys. *)
Record audio_comp : Type := mkAudioComp {
  audio_component_tag : Z;
  ISO_code : Z;
  bit_stream_mode : Z;
  num_channels : Z;
  full_srvc_audio : bool
}.

Record AudioDescriptor : Type := mkAudioDescriptor {
  audio_base : SpliceDescriptor;
  audio_name : string;
  audio_components : list audio_comp;
  audio_count : option Z
}.

Definition AudioDescriptor_init (bites : option (list Z)) : outcome AudioDescriptor :=
  base <- SpliceDescriptor_init bites ;;
  Ok (mkAudioDescriptor base "Audio Descriptor" [] None).

(** while a_c: a_c -= 1; ...; self.components.append(comp) *)
Fixpoint Audio_decode_loop (a_c : nat) (bitbin : BitBin.t) (comps : list audio_comp)
  : outcome (list audio_comp * BitBin.t) :=
  match a_c with
  | O => Ok (comps, bitbin)
  | S a_c =>
      '(ct, bitbin) <- BitBin.asint 8 bitbin ;;
      '(iso, bitbin) <- BitBin.asint 24 bitbin ;;
      '(bsm, bitbin) <- BitBin.asint 3 bitbin ;;
      '(nch, bitbin) <- BitBin.asint 4 bitbin ;;
      '(fsa, bitbin) <- BitBin.asflag 1 bitbin ;;
      Audio_decode_loop a_c bitbin (comps ++ [mkAudioComp ct iso bsm nch fsa])
  end.

Definition AudioDescriptor_decode (self : AudioDescriptor)
  : outcome (AudioDescriptor * list stderr_line) :=
  bitbin <- BitBin_of (audio_base self) ;;
  '(base, bitbin, e1) <- parse_id (audio_base self) bitbin ;;
  '(a_c, bitbin) <- BitBin.asint 4 bitbin ;;
  let bitbin := BitBin.forward 4 bitbin in
  '(comps, bitbin) <- Audio_decode_loop (Z.to_nat a_c) bitbin (audio_components self) ;;
  Ok (mkAudioDescriptor base (audio_name self) comps (Some a_c), e1).

(** while a_c < self.audio_count: ... with [a_c] left as it is by the
    body; each round of the loop takes one unit of fuel. *)
Fixpoint Audio_encode_loop (fuel : nat) (a_c count : Z) (comps : list audio_comp)
    (nbin : NBin.t) : outcome NBin.t :=
  match fuel with
  | O => OutOfFuel
  | S fuel =>
      if a_c <? count then
        comp <- getitem comps a_c ;;
        let nbin := NBin.add_int (audio_component_tag comp) 8 nbin in
        let nbin := NBin.add_int (ISO_code comp) 24 nbin in
        let nbin := NBin.add_int (bit_stream_mode comp) 3 nbin in
        let nbin := NBin.add_int (num_channels comp) 4 nbin in
        let nbin := NBin.add_flag (full_srvc_audio comp) nbin in
        Audio_encode_loop fuel a_c count comps nbin
      else Ok nbin
  end.

Definition AudioDescriptor_encode (fuel : nat) (self : AudioDescriptor)
  : outcome (option NBin.t * AudioDescriptor * list stderr_line) :=
  '(nbin, base) <- SpliceDescriptor_encode (audio_base self) ;;
  let self := mkAudioDescriptor base (audio_name self) (audio_components self)
                (audio_count self) in
  n <- the (audio_count self) ;;
  let nbin := NBin.add_int n 4 nbin in
  let nbin := NBin.forward 4 nbin in
  let a_c := 0 in
  nbin <- Audio_encode_loop fuel a_c n (audio_components self) nbin ;;
  Ok (None, self, []).


(** *** class SegmentationDescriptor *)

(** The dict built for one component: component_tag and pts_offset. *)
Record seg_comp : Type := mkSegComp {
  seg_component_tag : Z;
  pts_offset : Q
}.

(** What a UPID decoder returns: a str, None ([_uri] on length 0), the
    dict of [_atsc], the dict of [_mpu], the list of [_mid]; [ULabelled l v]
    is the str f"{l}:{v}" for a dict or a list [v], whose text is kept
    symbolic. *)
Inductive upid_val : Type :=
| UStr (s : string)
| UNone
| UAtsc (TSID reserved end_of_day unique_for : Z) (content_id : string)
| UMpu (format_identifier private_data : Z)
| UList (upids : list upid_val)
| ULabelled (label : string) (v : upid_val).

(** f"{label}:{upid_id}" *)
Definition label_upid (label : string) (upid_id : upid_val) : upid_val :=
  match upid_id with
  | UStr s => UStr (label ++ ":" ++ s)
  | UNone => UStr (label ++ ":None")
  | v => ULabelled label v
  end.

Record SegmentationDescriptor : Type := mkSegmentationDescriptor {
  seg_base : SpliceDescriptor;
  seg_name : string;
  segmentation_event_id : option string;
  segmentation_event_cancel_indicator : option bool;
  component_count : option Z;
  seg_components : list seg_comp;
  program_segmentation_flag : option bool;
  segmentation_duration_flag : option bool;
  delivery_not_restricted_flag : option bool;
  web_delivery_allowed_flag : option bool;
  no_regional_blackout_flag : option bool;
  archive_allowed_flag : option bool;
  device_restrictions : option string;
  segmentation_duration : option Q;
  segmentation_message : option string;
  segmentation_upid_type : option Z;
  segmentation_upid_length : option Z;
  segmentation_upid : option upid_val;
  segmentation_type_id : option Z;
  segment_num : option Z;
  segments_expected : option Z;
  sub_segment_num : option Z;
  sub_segments_expected : option Z
}.

Definition SegmentationDescriptor_init (bites : option (list Z))
  : outcome SegmentationDescriptor :=
  base <- SpliceDescriptor_init bites ;;
  Ok (mkSegmentationDescriptor base "Segmentation Descriptor"
        None None None [] None None None None None None None None None
        None None None None None None None None).

(** the attributes of the base class, after parse_id or encode_id *)
Definition with_seg_base (base : SpliceDescriptor)
    (self : SegmentationDescriptor) : SegmentationDescriptor :=
  mkSegmentationDescriptor
    base (seg_name self) (segmentation_event_id self)
    (segmentation_event_cancel_indicator self) (component_count self)
    (seg_components self) (program_segmentation_flag self)
    (segmentation_duration_flag self) (delivery_not_restricted_flag self)
    (web_delivery_allowed_flag self) (no_regional_blackout_flag self)
    (archive_allowed_flag self) (device_restrictions self)
    (segmentation_duration self) (segmentation_message self)
    (segmentation_upid_type self) (segmentation_upid_length self)
    (segmentation_upid self) (segmentation_type_id self) (segment_num self)
    (segments_expected self) (sub_segment_num self)
    (sub_segments_expected self).

(** self.segmentation_event_id = ...; self.segmentation_event_cancel_indicator = ... *)
Definition with_event (eid : string) (cancel : bool)
    (self : SegmentationDescriptor) : SegmentationDescriptor :=
  mkSegmentationDescriptor
    (seg_base self) (seg_name self) (Some eid) (Some cancel)
    (component_count self) (seg_components self)
    (program_segmentation_flag self) (segmentation_duration_flag self)
    (delivery_not_restricted_flag self) (web_delivery_allowed_flag self)
    (no_regional_blackout_flag self) (archive_allowed_flag self)
    (device_restrictions self) (segmentation_duration self)
    (segmentation_message self) (segmentation_upid_type self)
    (segmentation_upid_length self) (segmentation_upid self)
    (segmentation_type_id self) (segment_num self) (segments_expected self)
    (sub_segment_num self) (sub_segments_expected self).

(** the three leading flags of _set_flags *)
Definition with_flags (psf : bool) (sdf : bool) (dnrf : bool)
    (self : SegmentationDescriptor) : SegmentationDescriptor :=
  mkSegmentationDescriptor
    (seg_base self) (seg_name self) (segmentation_event_id self)
    (segmentation_event_cancel_indicator self) (component_count self)
    (seg_components self) (Some psf) (Some sdf) (Some dnrf)
    (web_delivery_allowed_flag self) (no_regional_blackout_flag self)
    (archive_allowed_flag self) (device_restrictions self)
    (segmentation_duration self) (segmentation_message self)
    (segmentation_upid_type self) (segmentation_upid_length self)
    (segmentation_upid self) (segmentation_type_id self) (segment_num self)
    (segments_expected self) (sub_segment_num self)
    (sub_segments_expected self).

(** the delivery restrictions of _set_flags *)
Definition with_delivery (web : bool) (nrb : bool) (arch : bool) (dev : string)
    (self : SegmentationDescriptor) : SegmentationDescriptor :=
  mkSegmentationDescriptor
    (seg_base self) (seg_name self) (segmentation_event_id self)
    (segmentation_event_cancel_indicator self) (component_count self)
    (seg_components self) (program_segmentation_flag self)
    (segmentation_duration_flag self) (delivery_not_restricted_flag self)
    (Some web) (Some nrb) (Some arch) (Some dev) (segmentation_duration self)
    (segmentation_message self) (segmentation_upid_type self)
    (segmentation_upid_length self) (segmentation_upid self)
    (segmentation_type_id self) (segment_num self) (segments_expected self)
    (sub_segment_num self) (sub_segments_expected self).

(** self.component_count = ...; self.components.append(comp) ... *)
Definition with_components (c_c : Z) (comps : list seg_comp)
    (self : SegmentationDescriptor) : SegmentationDescriptor :=
  mkSegmentationDescriptor
    (seg_base self) (seg_name self) (segmentation_event_id self)
    (segmentation_event_cancel_indicator self) (Some c_c) comps
    (program_segmentation_flag self) (segmentation_duration_flag self)
    (delivery_not_restricted_flag self) (web_delivery_allowed_flag self)
    (no_regional_blackout_flag self) (archive_allowed_flag self)
    (device_restrictions self) (segmentation_duration self)
    (segmentation_message self) (segmentation_upid_type self)
    (segmentation_upid_length self) (segmentation_upid self)
    (segmentation_type_id self) (segment_num self) (segments_expected self)
    (sub_segment_num self) (sub_segments_expected self).

(** self.segmentation_duration = ... *)
Definition with_duration (d : Q)
    (self : SegmentationDescriptor) : SegmentationDescriptor :=
  mkSegmentationDescriptor
    (seg_base self) (seg_name self) (segmentation_event_id self)
    (segmentation_event_cancel_indicator self) (component_count self)
    (seg_components self) (program_segmentation_flag self)
    (segmentation_duration_flag self) (delivery_not_restricted_flag self)
    (web_delivery_allowed_flag self) (no_regional_blackout_flag self)
    (archive_allowed_flag self) (device_restrictions self) (Some d)
    (segmentation_message self) (segmentation_upid_type self)
    (segmentation_upid_length self) (segmentation_upid self)
    (segmentation_type_id self) (segment_num self) (segments_expected self)
    (sub_segment_num self) (sub_segments_expected self).

(** self.segmentation_upid_type, _length and segmentation_upid *)
Definition with_upid (ty : Z) (len : Z) (upid : upid_val)
    (self : SegmentationDescriptor) : SegmentationDescriptor :=
  mkSegmentationDescriptor
    (seg_base self) (seg_name self) (segmentation_event_id self)
    (segmentation_event_cancel_indicator self) (component_count self)
    (seg_components self) (program_segmentation_flag self)
    (segmentation_duration_flag self) (delivery_not_restricted_flag self)
    (web_delivery_allowed_flag self) (no_regional_blackout_flag self)
    (archive_allowed_flag self) (device_restrictions self)
    (segmentation_duration self) (segmentation_message self) (Some ty)
    (Some len) (Some upid) (segmentation_type_id self) (segment_num self)
    (segments_expected self) (sub_segment_num self)
    (sub_segments_expected self).

(** self.segmentation_type_id = ... *)
Definition with_type_id (tid : Z)
    (self : SegmentationDescriptor) : SegmentationDescriptor :=
  mkSegmentationDescriptor
    (seg_base self) (seg_name self) (segmentation_event_id self)
    (segmentation_event_cancel_indicator self) (component_count self)
    (seg_components self) (program_segmentation_flag self)
    (segmentation_duration_flag self) (delivery_not_restricted_flag self)
    (web_delivery_allowed_flag self) (no_regional_blackout_flag self)
    (archive_allowed_flag self) (device_restrictions self)
    (segmentation_duration self) (segmentation_message self)
    (segmentation_upid_type self) (segmentation_upid_length self)
    (segmentation_upid self) (Some tid) (segment_num self)
    (segments_expected self) (sub_segment_num self)
    (sub_segments_expected self).

(** self.segmentation_message = ... *)
Definition with_message (msg : string)
    (self : SegmentationDescriptor) : SegmentationDescriptor :=
  mkSegmentationDescriptor
    (seg_base self) (seg_name self) (segmentation_event_id self)
    (segmentation_event_cancel_indicator self) (component_count self)
    (seg_components self) (program_segmentation_flag self)
    (segmentation_duration_flag self) (delivery_not_restricted_flag self)
    (web_delivery_allowed_flag self) (no_regional_blackout_flag self)
    (archive_allowed_flag self) (device_restrictions self)
    (segmentation_duration self) (Some msg) (segmentation_upid_type self)
    (segmentation_upid_length self) (segmentation_upid self)
    (segmentation_type_id self) (segment_num self) (segments_expected self)
    (sub_segment_num self) (sub_segments_expected self).

(** self.segment_num = ...; self.segments_expected = ... *)
Definition with_segments (sn : Z) (se : Z)
    (self : SegmentationDescriptor) : SegmentationDescriptor :=
  mkSegmentationDescriptor
    (seg_base self) (seg_name self) (segmentation_event_id self)
    (segmentation_event_cancel_indicator self) (component_count self)
    (seg_components self) (program_segmentation_flag self)
    (segmentation_duration_flag self) (delivery_not_restricted_flag self)
    (web_delivery_allowed_flag self) (no_regional_blackout_flag self)
    (archive_allowed_flag self) (device_restrictions self)
    (segmentation_duration self) (segmentation_message self)
    (segmentation_upid_type self) (segmentation_upid_length self)
    (segmentation_upid self) (segmentation_type_id self) (Some sn) (Some se)
    (sub_segment_num self) (sub_segments_expected self).

(** self.sub_segment_num = ...; self.sub_segments_expected = ... *)
Definition with_sub_segments (ssn : Z) (sse : Z)
    (self : SegmentationDescriptor) : SegmentationDescriptor :=
  mkSegmentationDescriptor
    (seg_base self) (seg_name self) (segmentation_event_id self)
    (segmentation_event_cancel_indicator self) (component_count self)
    (seg_components self) (program_segmentation_flag self)
    (segmentation_duration_flag self) (delivery_not_restricted_flag self)
    (web_delivery_allowed_flag self) (no_regional_blackout_flag self)
    (archive_allowed_flag self) (device_restrictions self)
    (segmentation_duration self) (segmentation_message self)
    (segmentation_upid_type self) (segmentation_upid_length self)
    (segmentation_upid self) (segmentation_type_id self) (segment_num self)
    (segments_expected self) (Some ssn) (Some sse).

(** The two tables of threefive/segmentation.py, which is not part of the
    sources: [table20] gives the device restrictions their names,
    [table22] the known segmentation type ids theirs.  A dict lookup is a
    partial function. *)
Variable table20 : Z -> option string.
Variable table22 : Z -> option string.

(** "not flag" on an attribute that holds None, False or True *)
Definition is_set (flag : option bool) : bool :=
  match flag with
  | Some true => true
  | _ => false
  end.

(** while c_c: c_c -= 1; ...; self.components.append(comp) *)
Fixpoint set_components_loop (c_c : nat) (bitbin : BitBin.t) (comps : list seg_comp)
  : outcome (list seg_comp * BitBin.t) :=
  match c_c with
  | O => Ok (comps, bitbin)
  | S c_c =>
      '(ct, bitbin) <- BitBin.asint 8 bitbin ;;
      let bitbin := BitBin.forward 7 bitbin in
      '(pts, bitbin) <- BitBin.as90k 33 bitbin ;;
      set_components_loop c_c bitbin (comps ++ [mkSegComp ct pts])
  end.

Definition _set_components (self : SegmentationDescriptor) (bitbin : BitBin.t)
  : outcome (SegmentationDescriptor * BitBin.t) :=
  '(c_c, bitbin) <- BitBin.asint 8 bitbin ;;
  '(comps, bitbin) <- set_components_loop (Z.to_nat c_c) bitbin (seg_components self) ;;
  Ok (with_components c_c comps self, bitbin).

Definition _set_flags (self : SegmentationDescriptor) (bitbin : BitBin.t)
  : outcome (SegmentationDescriptor * BitBin.t) :=
  '(psf, bitbin) <- BitBin.asflag 1 bitbin ;;
  '(sdf, bitbin) <- BitBin.asflag 1 bitbin ;;
  '(dnrf, bitbin) <- BitBin.asflag 1 bitbin ;;
  let self := with_flags psf sdf dnrf self in
  if negb dnrf then
    '(web, bitbin) <- BitBin.asflag 1 bitbin ;;
    '(nrb, bitbin) <- BitBin.asflag 1 bitbin ;;
    '(arch, bitbin) <- BitBin.asflag 1 bitbin ;;
    '(k, bitbin) <- BitBin.asint 2 bitbin ;;
    match table20 k with
    | Some dev => Ok (with_delivery web nrb arch dev self, bitbin)
    | None => Raise KeyError
    end
  else
    Ok (self, BitBin.forward 5 bitbin).

(** **** The UPID decoders *)

Definition upid_decoder : Type := BitBin.t -> Z -> outcome (upid_val * BitBin.t).

Definition _air_id : upid_decoder := fun bitbin upid_length =>
  '(h, bitbin) <- BitBin.ashex (Z.shiftl upid_length 3) bitbin ;;
  Ok (UStr h, bitbin).

Definition _atsc : upid_decoder := fun bitbin upid_length =>
  '(tsid, bitbin) <- BitBin.asint 16 bitbin ;;
  '(res, bitbin) <- BitBin.asint 2 bitbin ;;
  '(eod, bitbin) <- BitBin.asint 5 bitbin ;;
  '(uf, bitbin) <- BitBin.asint 9 bitbin ;;
  '(cid, bitbin) <- BitBin.asdecodedhex decode_utf8 (Z.shiftl (upid_length - 4) 3) bitbin ;;
  Ok (UAtsc tsid res eod uf cid, bitbin).

Definition _isan : upid_decoder := fun bitbin upid_length =>
  let pre := "0000-0000-"%string in
  '(middle, bitbin) <- BitBin.ashex (Z.shiftl upid_length 3) bitbin ;;
  let post := "-0000-Z-0000-0000-6"%string in
  Ok (UStr (pre ++ slice 2 6 middle ++ post), bitbin).

Definition _mpu : upid_decoder := fun bitbin upid_length =>
  let b_c := Z.shiftl upid_length 3 in
  '(fid, bitbin) <- BitBin.asint 32 bitbin ;;
  '(pd, bitbin) <- BitBin.asint (b_c - 32) bitbin ;;
  Ok (UMpu fid pd, bitbin).

Definition _eidr : upid_decoder := fun bitbin upid_length =>
  '(pre, bitbin) <- BitBin.asint 16 bitbin ;;
  '(post, bitbin) <- BitBin.ashex 80 bitbin ;;
  Ok (UStr ("10." ++ str_of_int pre ++ "/" ++ slice 2 6 post ++ "-"
            ++ slice 6 10 post ++ "-" ++ slice 10 14 post ++ "-"
            ++ slice 14 18 post ++ "-T"), bitbin).

(** "".join(s.split("x", 1)): [s] without its first x *)
Fixpoint drop_first_x (s : string) : string :=
  match s with
  | EmptyString => EmptyString
  | String c r => if Ascii.eqb c "x" then r else String c (drop_first_x r)
  end.

(** [pre[i : i + n_u] for i in range(0, len(pre), n_u)], on the [rounds]
    slices that the range gives *)
Fixpoint chunks (rounds : nat) (i n_u : nat) (pre : string) : list string :=
  match rounds with
  | O => []
  | S rounds => slice i (i + n_u) pre :: chunks rounds (i + n_u) n_u pre
  end.

Definition _umid : upid_decoder := fun bitbin upid_length =>
  let n_u := 8%nat in
  '(h, bitbin) <- BitBin.ashex (Z.shiftl upid_length 3) bitbin ;;
  let pre := drop_first_x h in
  Ok (UStr (String.concat "."
              (chunks (Nat.div (String.length pre + n_u - 1) n_u) 0 n_u pre)), bitbin).

Definition _uri : upid_decoder := fun bitbin upid_length =>
  if 0 <? upid_length then
    '(s, bitbin) <- BitBin.asdecodedhex decode_utf8 (Z.shiftl upid_length 3) bitbin ;;
    Ok (UStr s, bitbin)
  else Ok (UNone, bitbin).

(** The dict upid_map of _set_segmentation_upid; [mid] stands for the
    bound method self._mid. *)
Definition upid_map (mid : upid_decoder) (upid_type : Z) : option (string * upid_decoder) :=
  match upid_type with
  | 0x02 => Some ("Deprecated"%string, _uri)
  | 0x03 => Some ("Ad ID"%string, _uri)
  | 0x04 => Some ("UMID"%string, _umid)
  | 0x05 => Some ("ISAN"%string, _isan)
  | 0x06 => Some ("ISAN"%string, _isan)
  | 0x07 => Some ("TID"%string, _uri)
  | 0x08 => Some ("AiringID"%string, _air_id)
  | 0x09 => Some ("ADI"%string, _uri)
  | 0x0A => Some ("EIDR"%string, _eidr)
  | 0x0B => Some ("ATSC"%string, _atsc)
  | 0x0C => Some ("MPU"%string, _mpu)
  | 0x0D => Some ("MID"%string, mid)
  | 0x0E => Some ("ADS Info"%string, _uri)
  | 0x0F => Some ("URI"%string, _uri)
  | _ => None
  end.

(** The body of _set_segmentation_upid, over the method self._mid. *)
Definition set_segmentation_upid_body (mid : upid_decoder)
    (bitbin : BitBin.t) (upid_type upid_length : Z) : outcome (upid_val * BitBin.t) :=
  let upid_id := UStr "" in
  match upid_map mid upid_type with
  | Some (label, decoder) =>
      '(upid_id, bitbin) <- decoder bitbin upid_length ;;
      if negb (upid_type =? 0x09) then Ok (label_upid label upid_id, bitbin)
      else Ok (upid_id, bitbin)
  | None => Ok (upid_id, bitbin)
  end.

(** The state of the loop of _mid: the list upids, the cursor and the
    counter b_c. *)
Definition mid_state : Type := (list upid_val * BitBin.t * Z)%type.

(** _mid over its loop: upids = []; b_c = upid_length << 3; while ...;
    return upids *)
Definition mid_body (loop : BitBin.t -> Z -> list upid_val -> outcome mid_state)
  : upid_decoder := fun bitbin upid_length =>
  let upids := [] in
  let b_c := Z.shiftl upid_length 3 in
  '(upids, bitbin, _) <- loop bitbin b_c upids ;;
  Ok (UList upids, bitbin).

(** while b_c: ... of _mid.  Neither the loop nor the recursion through
    _set_segmentation_upid is structural: a round, and a nested call,
    take one unit of fuel. *)
Fixpoint mid_loop (fuel : nat) (bitbin : BitBin.t) (b_c : Z) (upids : list upid_val)
    {struct fuel} : outcome mid_state :=
  match fuel with
  | O => OutOfFuel
  | S fuel =>
      if b_c =? 0 then Ok (upids, bitbin, b_c)
      else
        '(upid_type, bitbin) <- BitBin.asint 8 bitbin ;;
        let b_c := b_c - 8 in
        '(upid_length, bitbin) <- BitBin.asint 8 bitbin ;;
        let b_c := b_c - 8 in
        '(segmentation_upid, bitbin) <-
           set_segmentation_upid_body (mid_body (mid_loop fuel))
             bitbin upid_type upid_length ;;
        let b_c := b_c - Z.shiftl upid_length 3 in
        mid_loop fuel bitbin b_c (upids ++ [segmentation_upid])
  end.

Definition _mid (fuel : nat) : upid_decoder := mid_body (mid_loop fuel).

Definition _set_segmentation_upid (fuel : nat)
    (bitbin : BitBin.t) (upid_type upid_length : Z) : outcome (upid_val * BitBin.t) :=
  set_segmentation_upid_body (_mid fuel) bitbin upid_type upid_length.

(** Fuel that the loop of _mid cannot use up on the cursor [bitbin]: a
    round consumes at least 16 bits. *)
Definition mid_fuel (bitbin : BitBin.t) : nat := S (Z.to_nat (BitBin.idx bitbin)).

(** x in [0x34, 0x36, 0x38, 0x3A] *)
Definition in_list (x : option Z) (l : list Z) : bool :=
  match x with
  | Some v => existsb (Z.eqb v) l
  | None => false
  end.

Definition _set_segments (self : SegmentationDescriptor) (bitbin : BitBin.t)
  : outcome (SegmentationDescriptor * BitBin.t) :=
  '(sn, bitbin) <- BitBin.asint 8 bitbin ;;
  '(se, bitbin) <- BitBin.asint 8 bitbin ;;
  let self := with_segments sn se self in
  if in_list (segmentation_type_id self) [0x34; 0x36; 0x38; 0x3A] then
    if 16 <=? BitBin.idx bitbin then
      '(ssn, bitbin) <- BitBin.asint 8 bitbin ;;
      '(sse, bitbin) <- BitBin.asint 8 bitbin ;;
      Ok (with_sub_segments ssn sse self, bitbin)
    else
      Ok (with_sub_segments 0 0 self, bitbin)
  else Ok (self, bitbin).

Definition _set_segmentation (self : SegmentationDescriptor) (bitbin : BitBin.t)
  : outcome (SegmentationDescriptor * BitBin.t) :=
  '(self, bitbin) <-
     (if is_set (segmentation_duration_flag self) then
        '(d, bitbin) <- BitBin.as90k 40 bitbin ;;
        Ok (with_duration d self, bitbin)
      else Ok (self, bitbin)) ;;
  '(ty, bitbin) <- BitBin.asint 8 bitbin ;;
  '(len, bitbin) <- BitBin.asint 8 bitbin ;;
  '(upid, bitbin) <- _set_segmentation_upid (mid_fuel bitbin) bitbin ty len ;;
  let self := with_upid ty len upid self in
  '(tid, bitbin) <- BitBin.asint 8 bitbin ;;
  let self := with_type_id tid self in
  match table22 tid with
  | Some msg => _set_segments (with_message msg self) bitbin
  | None => Ok (self, bitbin)
  end.

(** The body of SegmentationDescriptor.decode, with the cursor it ends on. *)
Definition SegmentationDescriptor_decode_body (self : SegmentationDescriptor)
  : outcome (SegmentationDescriptor * BitBin.t * list stderr_line) :=
  bitbin <- BitBin_of (seg_base self) ;;
  '(base, bitbin, e1) <- parse_id (seg_base self) bitbin ;;
  let self := with_seg_base base self in
  '(eid, bitbin) <- BitBin.ashex 32 bitbin ;;
  '(cancel, bitbin) <- BitBin.asflag 1 bitbin ;;
  let self := with_event eid cancel self in
  let bitbin := BitBin.forward 7 bitbin in
  if negb cancel then
    '(self, bitbin) <- _set_flags self bitbin ;;
    '(self, bitbin) <-
       (if negb (is_set (program_segmentation_flag self))
        then _set_components self bitbin
        else Ok (self, bitbin)) ;;
    '(self, bitbin) <- _set_segmentation self bitbin ;;
    Ok (self, bitbin, e1)
  else Ok (self, bitbin, e1).

Definition SegmentationDescriptor_decode (self : SegmentationDescriptor)
  : outcome (SegmentationDescriptor * list stderr_line) :=
  '(self, _, e) <- SegmentationDescriptor_decode_body self ;;
  Ok (self, e).

(** SegmentationDescriptor has no encode of its own: the inherited one
    returns the writer. *)
Definition SegmentationDescriptor_encode (self : SegmentationDescriptor)
  : outcome (option NBin.t * SegmentationDescriptor * list stderr_line) :=
  '(nbin, base) <- SpliceDescriptor_encode (seg_base self) ;;
  Ok (Some nbin, with_seg_base base self, []).

(** *** The registry *)

Inductive descriptor_class : Type :=
| AvailDescriptor_class
| DtmfDescriptor_class
| SegmentationDescriptor_class
| TimeDescriptor_class
| AudioDescriptor_class.

(** An instance of one of the five classes. *)
Inductive descriptor : Type :=
| Avail (d : AvailDescriptor)
| Dtmf (d : DtmfDescriptor)
| Segmentation (d : SegmentationDescriptor)
| Time (d : TimeDescriptor)
| Audio (d : AudioDescriptor).

Definition descriptor_map (tag : Z) : option descriptor_class :=
  match tag with
  | 0 => Some AvailDescriptor_class
  | 1 => Some DtmfDescriptor_class
  | 2 => Some SegmentationDescriptor_class
  | 3 => Some TimeDescriptor_class
  | 4 => Some AudioDescriptor_class
  | _ => None
  end.

(** descriptor_map[tag](bites) *)
Definition construct (c : descriptor_class) (bites : list Z) : outcome descriptor :=
  match c with
  | AvailDescriptor_class => d <- AvailDescriptor_init (Some bites) ;; Ok (Avail d)
  | DtmfDescriptor_class => d <- DtmfDescriptor_init (Some bites) ;; Ok (Dtmf d)
  | SegmentationDescriptor_class =>
      d <- SegmentationDescriptor_init (Some bites) ;; Ok (Segmentation d)
  | TimeDescriptor_class => d <- TimeDescriptor_init (Some bites) ;; Ok (Time d)
  | AudioDescriptor_class => d <- AudioDescriptor_init (Some bites) ;; Ok (Audio d)
  end.

(** spliced.decode(), dispatched on the class of the instance *)
Definition decode (spliced : descriptor) : outcome (descriptor * list stderr_line) :=
  match spliced with
  | Avail d => '(d, e) <- AvailDescriptor_decode d ;; Ok (Avail d, e)
  | Dtmf d => '(d, e) <- DtmfDescriptor_decode d ;; Ok (Dtmf d, e)
  | Segmentation d => '(d, e) <- SegmentationDescriptor_decode d ;; Ok (Segmentation d, e)
  | Time d => '(d, e) <- TimeDescriptor_decode d ;; Ok (Time d, e)
  | Audio d => '(d, e) <- AudioDescriptor_decode d ;; Ok (Audio d, e)
  end.

(** What splice_descriptor returns: False, or the decoded instance. *)
Inductive spliced_result : Type :=
| PyFalse
| Spliced (d : descriptor).

Definition splice_descriptor (bites : list Z)
  : outcome (spliced_result * list stderr_line) :=
  tag <- getitem bites 0 ;;
  match descriptor_map tag with
  | None => Ok (PyFalse, [])
  | Some c =>
      spliced <- construct c bites ;;
      '(spliced, e) <- decode spliced ;;
      Ok (Spliced spliced, e)
  end.

(** *** Definitions used by the statements *)

(** The four sub-segment-bearing type ids of _set_segments. *)
Definition sub_segment_types : list Z := [0x34; 0x36; 0x38; 0x3A].

(** A call on the cursor [bitbin] that either returns with a cursor that
    has not moved back, or fails as a read fails. *)
Definition returns_or_underruns {A : Type} (bitbin : BitBin.t)
    (r : outcome (A * BitBin.t)) : Prop :=
  (exists v bitbin', r = Ok (v, bitbin') /\ BitBin.idx bitbin' <= BitBin.idx bitbin)
  \/ r = Raise BufferUnderrun.

(** The cursor over the buffer [pre ++ rest] once [pre] is consumed. *)
Definition cursor_at (pre rest : list Z) : BitBin.t :=
  BitBin.forward (8 * Z.of_nat (List.length pre)) (BitBin.new (pre ++ rest)).

(** What the dispatch gives for a URI entry (type 0x0F) of payload [p]:
    _uri returns None on length 0, the decoded text otherwise, and the
    dispatch prefixes the label. *)
Definition uri_entry (p : list Z) : upid_val :=
  match p with
  | [] => UStr "URI:None"
  | _ => UStr ("URI:" ++ decode_utf8 p)
  end.

(** The base attributes once encode_id has run: the identifier holds the
    str "0x43554549", the rest is as it was. *)
Definition encoded_base (base : SpliceDescriptor) : SpliceDescriptor :=
  mkSpliceDescriptor (tag base) (descriptor_length base)
    (Some "0x43554549"%string) (bites base).

(** *** Example descriptors *)

(** tag 0, length 8, "CUEI", provider_avail_id 1 *)
Definition avail_bytes : list Z :=
  [0; 8; 0x43; 0x55; 0x45; 0x49; 0; 0; 0; 1].

(** tag 0, length 0: a header without payload *)
Definition avail_header_only : list Z := [0; 0].

(** tag 3, length 16, "CUEI", tai_seconds 1, tai_ns 2, utc_offset 3 *)
Definition time_bytes : list Z :=
  [3; 16; 0x43; 0x55; 0x45; 0x49; 0; 0; 0; 0; 0; 1; 0; 0; 0; 2; 0; 3].

(** tag 4, length 10, "CUEI", audio_count 1 and its component *)
Definition audio_one_component : list Z :=
  [4; 10; 0x43; 0x55; 0x45; 0x49; 0x10; 7; 0x65; 0x6e; 0x67; 0x3F].

(** tag 2, "CUEI", event id 1, cancel indicator set *)
Definition seg_cancelled : list Z :=
  [2; 9; 0x43; 0x55; 0x45; 0x49; 0; 0; 0; 1; 0xFF].

(** tag 2, "CUEI", event id 1, not cancelled, program segmentation and
    delivery not restricted, an empty URI UPID, type id 0x10 (Program
    Start), segment 1 of 2 *)
Definition seg_program_start : list Z :=
  [2; 15; 0x43; 0x55; 0x45; 0x49; 0; 0; 0; 1; 0x7F; 0xBF; 0x0F; 0; 0x10; 1; 2].

(** the same with type id 0x34 and the sub-segment 3 of 4 *)
Definition seg_sub_segments : list Z :=
  [2; 17; 0x43; 0x55; 0x45; 0x49; 0; 0; 0; 1; 0x7F; 0xBF; 0x0F; 0; 0x34; 1; 2; 3; 4].

(** the flag byte 0x9F: program segmentation, no duration, delivery
    restricted with the three sub-flags set and device restrictions 3 *)
Definition seg_restricted : list Z :=
  [2; 15; 0x43; 0x55; 0x45; 0x49; 0; 0; 0; 1; 0x7F; 0x9F; 0x0F; 0; 0x10; 1; 2].

(** *** Wire formats

    The byte sequences of the well-formed Avail, Time and DTMF
    descriptors: tag, length, a 4-byte identifier and the fields, with the
    reserved bits at zero as the writer emits them. *)

Definition cuei : list Z := [0x43; 0x55; 0x45; 0x49].

Definition avail_wire (t l : Z) (id pid : list Z) : list Z :=
  t :: l :: id ++ pid.

Definition time_wire (t l : Z) (id secs ns off : list Z) : list Z :=
  t :: l :: id ++ secs ++ ns ++ off.

Definition dtmf_wire (t l : Z) (id : list Z) (pre_roll : Z) (chars : list Z) : list Z :=
  t :: l :: id ++ pre_roll :: Z.of_nat (List.length chars) * 32 :: chars.

(** A DTMF character: an ASCII code point. *)
Definition dtmf_char_ok (c : Z) : Prop := 0 <= c < 128.

(** The writer holds exactly the bytes [l]. *)
Definition written (n : NBin.t) (l : list Z) : Prop :=
  Forall byte_ok l /\
  NBin.nbits n = int_from_bytes l /\
  NBin.idx n = 8 * Z.of_nat (List.length l).

(** An audio component whose fields are within their widths. *)
Definition audio_comp_ok (c : audio_comp) : Prop :=
  0 <= audio_component_tag c < 2 ^ 8 /\
  0 <= ISO_code c < 2 ^ 24 /\
  0 <= bit_stream_mode c < 2 ^ 3 /\
  0 <= num_channels c < 2 ^ 4.

(** A segmentation component whose tag is a byte and whose pts_offset is a
    33-bit tick count over 90000. *)
Definition seg_comp_ok (c : seg_comp) : Prop :=
  0 <= seg_component_tag c < 2 ^ 8 /\
  exists ticks, 0 <= ticks < 2 ^ 33 /\ pts_offset c = (ticks # 90000)%Q.

(** The bytes of a sequence of nested URI entries: for each payload the
    type 0x0F, the length and the payload. *)
Fixpoint uri_entries_wire (ps : list (list Z)) : list Z :=
  match ps with
  | [] => []
  | p :: ps => 0x0F :: Z.of_nat (List.length p) :: p ++ uri_entries_wire ps
  end.

(** A payload that fits the 8-bit length of a nested entry. *)
Definition uri_payload_ok (p : list Z) : Prop :=
  Forall byte_ok p /\ Z.of_nat (List.length p) <= 255.

(** The URI-like types that carry a label, with their labels. *)
Definition labelled_uri_types : list (Z * string) :=
  [(0x02, "Deprecated"%string); (0x03, "Ad ID"%string); (0x07, "TID"%string);
   (0x0E, "ADS Info"%string); (0x0F, "URI"%string)].



(** ** Properties *)

(** *** The cursor *)

#[local] Arguments Z.shiftl : simpl never.
#[local] Set Default Proof Using "Type".

Lemma asint_inv (n : Z) (b b' : BitBin.t) (v : Z) :
  BitBin.asint n b = Ok (v, b') ->
  0 <= n <= BitBin.idx b /\ b' = BitBin.forward n b /\
  v = Z.land (Z.shiftr (BitBin.bits b) (BitBin.idx b - n)) (Z.ones n).
Proof.
  unfold BitBin.asint, BitBin.forward.
  destruct (n <? 0) eqn:Hn; simpl; [discriminate|].
  destruct (BitBin.idx b <? n) eqn:Hi; [discriminate|].
  intros H; inversion H; subst. repeat split; lia.
Qed.

Lemma asint_run (n : Z) (b : BitBin.t) :
  0 <= n <= BitBin.idx b ->
  BitBin.asint n b =
  Ok (Z.land (Z.shiftr (BitBin.bits b) (BitBin.idx b - n)) (Z.ones n),
      BitBin.forward n b).
Proof.
  intros H. unfold BitBin.asint, BitBin.forward.
  replace (n <? 0) with false by lia.
  replace (BitBin.idx b <? n) with false by lia. reflexivity.
Qed.

(** A read never runs out of fuel and fails in one way only. *)
Lemma asint_cases (n : Z) (b : BitBin.t) :
  (exists v, BitBin.asint n b = Ok (v, BitBin.forward n b) /\ 0 <= n <= BitBin.idx b)
  \/ BitBin.asint n b = Raise BufferUnderrun.
Proof.
  unfold BitBin.asint, BitBin.forward.
  destruct (n <? 0) eqn:Hn; simpl; [now right|].
  destruct (BitBin.idx b <? n) eqn:Hi; [now right|].
  left. eexists. split; [reflexivity|lia].
Qed.

Lemma asflag_inv (n : Z) (b b' : BitBin.t) (f : bool) :
  BitBin.asflag n b = Ok (f, b') ->
  0 <= n <= BitBin.idx b /\ b' = BitBin.forward n b.
Proof.
  unfold BitBin.asflag. destruct (BitBin.asint n b) as [[v b1]| |] eqn:E; simpl; try discriminate.
  intros H; inversion H; subst. apply asint_inv in E. destruct E as (? & ? & ?). auto.
Qed.

Lemma ashex_inv (n : Z) (b b' : BitBin.t) (h : string) :
  BitBin.ashex n b = Ok (h, b') ->
  0 <= n <= BitBin.idx b /\ b' = BitBin.forward n b.
Proof.
  unfold BitBin.ashex. destruct (BitBin.asint n b) as [[v b1]| |] eqn:E; simpl; try discriminate.
  intros H; inversion H; subst. apply asint_inv in E. destruct E as (? & ? & ?). auto.
Qed.

Lemma as90k_inv (n : Z) (b b' : BitBin.t) (q : Q) :
  BitBin.as90k n b = Ok (q, b') ->
  0 <= n <= BitBin.idx b /\ b' = BitBin.forward n b.
Proof.
  unfold BitBin.as90k. destruct (BitBin.asint n b) as [[v b1]| |] eqn:E; simpl; try discriminate.
  intros H; inversion H; subst. apply asint_inv in E. destruct E as (? & ? & ?). auto.
Qed.

Lemma asdecodedhex_inv (n : Z) (b b' : BitBin.t) (s : string) :
  BitBin.asdecodedhex decode_utf8 n b = Ok (s, b') ->
  0 <= n <= BitBin.idx b /\ b' = BitBin.forward n b.
Proof.
  unfold BitBin.asdecodedhex. destruct (BitBin.asint n b) as [[v b1]| |] eqn:E; simpl; try discriminate.
  intros H; inversion H; subst. apply asint_inv in E. destruct E as (? & ? & ?). auto.
Qed.

Lemma forward_idx (n : Z) (b : BitBin.t) :
  BitBin.idx (BitBin.forward n b) = BitBin.idx b - n.
Proof. reflexivity. Qed.

Lemma forward_bits (n : Z) (b : BitBin.t) :
  BitBin.bits (BitBin.forward n b) = BitBin.bits b.
Proof. reflexivity. Qed.

Lemma forward_bitsize (n : Z) (b : BitBin.t) :
  BitBin.bitsize (BitBin.forward n b) = BitBin.bitsize b.
Proof. reflexivity. Qed.

Lemma forward_forward (n m : Z) (b : BitBin.t) :
  BitBin.forward m (BitBin.forward n b) = BitBin.forward (n + m) b.
Proof. unfold BitBin.forward; simpl. f_equal. lia. Qed.

Lemma new_idx_bytes (payload : list Z) :
  BitBin.idx (BitBin.new payload) = 8 * Z.of_nat (List.length payload).
Proof. unfold BitBin.new; cbv zeta; cbn [BitBin.idx BitBin.bitsize]. rewrite Z.shiftl_mul_pow2 by lia. lia. Qed.

Lemma new_bitsize_bytes (payload : list Z) :
  BitBin.bitsize (BitBin.new payload) = 8 * Z.of_nat (List.length payload).
Proof. unfold BitBin.new; cbv zeta; cbn [BitBin.idx BitBin.bitsize]. rewrite Z.shiftl_mul_pow2 by lia. lia. Qed.

(** Conjunctions in the context, taken apart. *)
Ltac split_ands :=
  repeat match goal with H : _ /\ _ |- _ => destruct H end.

(** Splitting a successful [x <- m ;; k]. *)
Lemma bind_Ok {A B : Type} (m : outcome A) (k : A -> outcome B) (r : B) :
  bind m k = Ok r -> exists a, m = Ok a /\ k a = Ok r.
Proof. destruct m; simpl; try discriminate. eauto. Qed.

Ltac bind_inv H :=
  let a := fresh "a" in
  let E := fresh "E" in
  apply bind_Ok in H; destruct H as (a & E & H).

Lemma asint_inv_cursor (n : Z) (b b' : BitBin.t) (v : Z) :
  BitBin.asint n b = Ok (v, b') ->
  0 <= n <= BitBin.idx b /\ b' = BitBin.forward n b.
Proof. intros H. apply asint_inv in H. destruct H as (? & ? & ?). auto. Qed.

Lemma forward_0 (b : BitBin.t) : BitBin.forward 0 b = b.
Proof. destruct b. unfold BitBin.forward. simpl. f_equal. lia. Qed.

Ltac read_inv E :=
  first [ apply asflag_inv in E
        | apply ashex_inv in E
        | apply as90k_inv in E
        | apply asdecodedhex_inv in E
        | apply asint_inv_cursor in E ].




(** [bind_inv] with the names given. *)
Ltac bind_as H a E :=
  apply bind_Ok in H; destruct H as (a & E & H).

Lemma asint_fail (n : Z) (b : BitBin.t) :
  BitBin.idx b < n -> BitBin.asint n b = Raise BufferUnderrun.
Proof.
  intros H. unfold BitBin.asint.
  replace (BitBin.idx b <? n) with true by lia.
  rewrite orb_true_r. reflexivity.
Qed.

Lemma asint_range (n v : Z) (b b' : BitBin.t) :
  BitBin.asint n b = Ok (v, b') -> 0 <= v < 2 ^ n.
Proof.
  intros H. apply asint_inv in H. destruct H as (Hn & _ & ->).
  rewrite Z.land_ones by lia. apply Z.mod_pos_bound.
  apply Z.pow_pos_nonneg; lia.
Qed.

(** *** What each step of the segmentation decode leaves alone *)

Lemma set_flags_frame (self self' : SegmentationDescriptor) (bitbin bitbin' : BitBin.t) :
  _set_flags self bitbin = Ok (self', bitbin') ->
  seg_base self' = seg_base self /\
  seg_name self' = seg_name self /\
  segmentation_event_id self' = segmentation_event_id self /\
  segmentation_event_cancel_indicator self' = segmentation_event_cancel_indicator self /\
  component_count self' = component_count self /\
  seg_components self' = seg_components self /\
  segmentation_duration self' = segmentation_duration self /\
  segmentation_message self' = segmentation_message self /\
  segmentation_upid_type self' = segmentation_upid_type self /\
  segmentation_upid_length self' = segmentation_upid_length self /\
  segmentation_upid self' = segmentation_upid self /\
  segmentation_type_id self' = segmentation_type_id self /\
  segment_num self' = segment_num self /\
  segments_expected self' = segments_expected self /\
  sub_segment_num self' = sub_segment_num self /\
  sub_segments_expected self' = sub_segments_expected self.
Proof.
  unfold _set_flags. intros H.
  bind_inv H. destruct a as [psf b1].
  bind_inv H. destruct a as [sdf b2].
  bind_inv H. destruct a as [dnrf b3].
  destruct dnrf; simpl in H.
  - inversion H; subst. repeat split; reflexivity.
  - bind_inv H. destruct a as [web b4].
    bind_inv H. destruct a as [nrb b5].
    bind_inv H. destruct a as [arch b6].
    bind_inv H. destruct a as [k b7].
    destruct (table20 k); [|discriminate].
    inversion H; subst. repeat split; reflexivity.
Qed.

Lemma set_components_frame (self self' : SegmentationDescriptor) (bitbin bitbin' : BitBin.t) :
  _set_components self bitbin = Ok (self', bitbin') ->
  seg_base self' = seg_base self /\
  seg_name self' = seg_name self /\
  segmentation_event_id self' = segmentation_event_id self /\
  segmentation_event_cancel_indicator self' = segmentation_event_cancel_indicator self /\
  program_segmentation_flag self' = program_segmentation_flag self /\
  segmentation_duration_flag self' = segmentation_duration_flag self /\
  delivery_not_restricted_flag self' = delivery_not_restricted_flag self /\
  web_delivery_allowed_flag self' = web_delivery_allowed_flag self /\
  no_regional_blackout_flag self' = no_regional_blackout_flag self /\
  archive_allowed_flag self' = archive_allowed_flag self /\
  device_restrictions self' = device_restrictions self /\
  segmentation_duration self' = segmentation_duration self /\
  segmentation_message self' = segmentation_message self /\
  segmentation_upid_type self' = segmentation_upid_type self /\
  segmentation_upid_length self' = segmentation_upid_length self /\
  segmentation_upid self' = segmentation_upid self /\
  segmentation_type_id self' = segmentation_type_id self /\
  segment_num self' = segment_num self /\
  segments_expected self' = segments_expected self /\
  sub_segment_num self' = sub_segment_num self /\
  sub_segments_expected self' = sub_segments_expected self.
Proof.
  unfold _set_components. intros H.
  bind_inv H. destruct a as [c_c b1].
  bind_inv H. destruct a as [comps b2].
  inversion H; subst. repeat split; reflexivity.
Qed.

Lemma set_segments_frame (self self' : SegmentationDescriptor) (bitbin bitbin' : BitBin.t) :
  _set_segments self bitbin = Ok (self', bitbin') ->
  seg_base self' = seg_base self /\
  seg_name self' = seg_name self /\
  segmentation_event_id self' = segmentation_event_id self /\
  segmentation_event_cancel_indicator self' = segmentation_event_cancel_indicator self /\
  component_count self' = component_count self /\
  seg_components self' = seg_components self /\
  program_segmentation_flag self' = program_segmentation_flag self /\
  segmentation_duration_flag self' = segmentation_duration_flag self /\
  delivery_not_restricted_flag self' = delivery_not_restricted_flag self /\
  web_delivery_allowed_flag self' = web_delivery_allowed_flag self /\
  no_regional_blackout_flag self' = no_regional_blackout_flag self /\
  archive_allowed_flag self' = archive_allowed_flag self /\
  device_restrictions self' = device_restrictions self /\
  segmentation_duration self' = segmentation_duration self /\
  segmentation_message self' = segmentation_message self /\
  segmentation_upid_type self' = segmentation_upid_type self /\
  segmentation_upid_length self' = segmentation_upid_length self /\
  segmentation_upid self' = segmentation_upid self /\
  segmentation_type_id self' = segmentation_type_id self.
Proof.
  unfold _set_segments. intros H.
  bind_inv H. destruct a as [sn b1].
  bind_inv H. destruct a as [se b2].
  destruct (in_list _ _).
  - destruct (16 <=? BitBin.idx b2).
    + bind_inv H. destruct a as [ssn b3].
      bind_inv H. destruct a as [sse b4].
      inversion H; subst. repeat split; reflexivity.
    + inversion H; subst. repeat split; reflexivity.
  - inversion H; subst. repeat split; reflexivity.
Qed.

Lemma set_segmentation_frame (self self' : SegmentationDescriptor) (bitbin bitbin' : BitBin.t) :
  _set_segmentation self bitbin = Ok (self', bitbin') ->
  seg_base self' = seg_base self /\
  seg_name self' = seg_name self /\
  segmentation_event_id self' = segmentation_event_id self /\
  segmentation_event_cancel_indicator self' = segmentation_event_cancel_indicator self /\
  component_count self' = component_count self /\
  seg_components self' = seg_components self /\
  program_segmentation_flag self' = program_segmentation_flag self /\
  segmentation_duration_flag self' = segmentation_duration_flag self /\
  delivery_not_restricted_flag self' = delivery_not_restricted_flag self /\
  web_delivery_allowed_flag self' = web_delivery_allowed_flag self /\
  no_regional_blackout_flag self' = no_regional_blackout_flag self /\
  archive_allowed_flag self' = archive_allowed_flag self /\
  device_restrictions self' = device_restrictions self.
Proof.
  unfold _set_segmentation. intros H.
  bind_inv H. destruct a as [self1 b1].
  assert (F1 : seg_base self1 = seg_base self /\
  seg_name self1 = seg_name self /\
  segmentation_event_id self1 = segmentation_event_id self /\
  segmentation_event_cancel_indicator self1 = segmentation_event_cancel_indicator self /\
  component_count self1 = component_count self /\
  seg_components self1 = seg_components self /\
  program_segmentation_flag self1 = program_segmentation_flag self /\
  segmentation_duration_flag self1 = segmentation_duration_flag self /\
  delivery_not_restricted_flag self1 = delivery_not_restricted_flag self /\
  web_delivery_allowed_flag self1 = web_delivery_allowed_flag self /\
  no_regional_blackout_flag self1 = no_regional_blackout_flag self /\
  archive_allowed_flag self1 = archive_allowed_flag self /\
  device_restrictions self1 = device_restrictions self /\
  segmentation_message self1 = segmentation_message self /\
  segmentation_upid_type self1 = segmentation_upid_type self /\
  segmentation_upid_length self1 = segmentation_upid_length self /\
  segmentation_upid self1 = segmentation_upid self /\
  segmentation_type_id self1 = segmentation_type_id self /\
  segment_num self1 = segment_num self /\
  segments_expected self1 = segments_expected self /\
  sub_segment_num self1 = sub_segment_num self /\
  sub_segments_expected self1 = sub_segments_expected self).
  { destruct (is_set _).
    - bind_inv E. destruct a as [d b0]. inversion E; subst. repeat split; reflexivity.
    - inversion E; subst. repeat split; reflexivity. }
  clear E.
  bind_inv H. destruct a as [ty b2].
  bind_inv H. destruct a as [len b3].
  bind_inv H. destruct a as [upid b4].
  bind_inv H. destruct a as [tid b5].
  destruct (table22 tid).
  - apply set_segments_frame in H. simpl in H.
    repeat match goal with H : _ /\ _ |- _ => destruct H end.
    repeat split; congruence.
  - inversion H; subst. simpl.
    repeat match goal with H : _ /\ _ |- _ => destruct H end.
    repeat split; congruence.
Qed.

(** *** The cascade of SegmentationDescriptor.decode *)

(** The decode reads the identifier, the event id, the cancel bit and 7
    reserved bits, 72 bits in all, and goes on only when the cancel bit
    is clear. *)
Lemma decode_body_inv (self self' : SegmentationDescriptor) (bitbin : BitBin.t)
    (e : list stderr_line) :
  SegmentationDescriptor_decode_body self = Ok (self', bitbin, e) ->
  exists payload base eid cancel,
    bites (seg_base self) = Some payload /\
    72 <= BitBin.idx (BitBin.new payload) /\
    let self0 := with_event eid cancel (with_seg_base base self) in
    let b0 := BitBin.forward 72 (BitBin.new payload) in
    (cancel = true /\ self' = self0 /\ bitbin = b0) \/
    (cancel = false /\
     exists self1 b1 self2 b2,
       _set_flags self0 b0 = Ok (self1, b1) /\
       (if negb (is_set (program_segmentation_flag self1))
        then _set_components self1 b1 else Ok (self1, b1)) = Ok (self2, b2) /\
       _set_segmentation self2 b2 = Ok (self', bitbin)).
Proof.
  unfold SegmentationDescriptor_decode_body, BitBin_of, parse_id. intros H.
  bind_inv H. bind_inv E. destruct (bites (seg_base self)) as [payload|] eqn:Hb;
    [|discriminate]. inversion E0; subst a0; clear E0. inversion E; subst a; clear E.
  bind_inv H. destruct a as [[base b1] e1].
  bind_inv E. destruct a as [s b1']. inversion E; subst; clear E.
  bind_inv H. destruct a as [eid b2].
  bind_inv H. destruct a as [cancel b3].
  read_inv E0. read_inv E. read_inv E1.
  destruct E0 as (I1 & ->). destruct E as (I2 & ->). destruct E1 as (I3 & ->).
  rewrite !forward_idx in *.
  exists payload,
    (mkSpliceDescriptor (tag (seg_base self)) (descriptor_length (seg_base self))
       (Some s) (Some payload)), eid, cancel.
  split; [reflexivity|].
  split; [rewrite new_idx_bytes in *; lia|].
  rewrite !forward_forward in H. simpl in H.
  destruct cancel; simpl in H.
  - left. inversion H; subst. auto.
  - right. split; [reflexivity|].
    bind_inv H. destruct a as [self1 b4].
    bind_inv H. destruct a as [self2 b5].
    bind_inv H. destruct a as [self3 b6].
    inversion H; subst. exists self1, b4, self2, b5. auto.
Qed.

(** The cancel indicator that the decode leaves is the bit it read. *)
Lemma decode_body_cancel_false (self0 self1 self2 self' : SegmentationDescriptor)
    (b0 b1 b2 bitbin : BitBin.t) :
  _set_flags self0 b0 = Ok (self1, b1) ->
  (if negb (is_set (program_segmentation_flag self1))
   then _set_components self1 b1 else Ok (self1, b1)) = Ok (self2, b2) ->
  _set_segmentation self2 b2 = Ok (self', bitbin) ->
  segmentation_event_cancel_indicator self' = segmentation_event_cancel_indicator self0.
Proof.
  intros H1 H2 H3.
  apply set_flags_frame in H1. apply set_segmentation_frame in H3.
  assert (segmentation_event_cancel_indicator self2
          = segmentation_event_cancel_indicator self1).
  { destruct (negb _).
    - apply set_components_frame in H2. split_ands. assumption.
    - inversion H2; reflexivity. }
  split_ands. congruence.
Qed.

(** C5: when the cancel indicator decodes as true, the decode stops after
    the identifier, the 32-bit event id, the cancel bit and the 7 reserved
    bits (72 bits from the start of the payload), and every attribute of
    the later steps (the flags, the components, the duration, the UPID, the
    type id, the segment and sub-segment numbers) still holds the value
    __init__ gave it: None, or the empty list for the components. *)
Theorem C5_cancel_stops_decode (bites0 : option (list Z))
    (self self' : SegmentationDescriptor) (bitbin : BitBin.t) (e : list stderr_line) :
  SegmentationDescriptor_init bites0 = Ok self ->
  SegmentationDescriptor_decode_body self = Ok (self', bitbin, e) ->
  segmentation_event_cancel_indicator self' = Some true ->
  BitBin.idx bitbin = BitBin.bitsize bitbin - 72 /\
  program_segmentation_flag self' = None /\
  segmentation_duration_flag self' = None /\
  delivery_not_restricted_flag self' = None /\
  web_delivery_allowed_flag self' = None /\
  no_regional_blackout_flag self' = None /\
  archive_allowed_flag self' = None /\
  device_restrictions self' = None /\
  component_count self' = None /\
  seg_components self' = [] /\
  segmentation_duration self' = None /\
  segmentation_upid_type self' = None /\
  segmentation_upid_length self' = None /\
  segmentation_upid self' = None /\
  segmentation_type_id self' = None /\
  segmentation_message self' = None /\
  segment_num self' = None /\
  segments_expected self' = None /\
  sub_segment_num self' = None /\
  sub_segments_expected self' = None.
Proof.
  intros Hinit Hdec Hcancel.
  unfold SegmentationDescriptor_init in Hinit. bind_inv Hinit.
  inversion Hinit; subst self; clear Hinit.
  apply decode_body_inv in Hdec.
  destruct Hdec as (payload & base & eid & cancel & Hb & Hlen & Hcase).
  destruct Hcase as [(-> & -> & ->) | (-> & self1 & b1 & self2 & b2 & H1 & H2 & H3)].
  - simpl. repeat split; reflexivity.
  - rewrite (decode_body_cancel_false _ _ _ _ _ _ _ _ H1 H2 H3) in Hcancel.
    simpl in Hcancel. discriminate.
Qed.

(** C6: _set_flags reads the three leading flags; when
    delivery_not_restricted_flag is true it then consumes exactly 5
    reserved bits and leaves the three sub-flags and device_restrictions as
    they were; when the flag is false it reads three 1-bit flags and a
    2-bit code that it maps through table20.  After a decode that read the
    flag as true the four attributes are still None. *)
Theorem C6_delivery_flags :
  (forall self bitbin self' bitbin',
     _set_flags self bitbin = Ok (self', bitbin') ->
     exists dnrf, delivery_not_restricted_flag self' = Some dnrf /\
     3 <= BitBin.idx bitbin /\
     let b3 := BitBin.forward 3 bitbin in
     if dnrf then
       bitbin' = BitBin.forward 5 b3 /\
       web_delivery_allowed_flag self' = web_delivery_allowed_flag self /\
       no_regional_blackout_flag self' = no_regional_blackout_flag self /\
       archive_allowed_flag self' = archive_allowed_flag self /\
       device_restrictions self' = device_restrictions self
     else
       exists web nrb arch k dev b4 b5 b6,
         BitBin.asflag 1 b3 = Ok (web, b4) /\
         BitBin.asflag 1 b4 = Ok (nrb, b5) /\
         BitBin.asflag 1 b5 = Ok (arch, b6) /\
         BitBin.asint 2 b6 = Ok (k, bitbin') /\
         0 <= k < 4 /\ table20 k = Some dev /\
         web_delivery_allowed_flag self' = Some web /\
         no_regional_blackout_flag self' = Some nrb /\
         archive_allowed_flag self' = Some arch /\
         device_restrictions self' = Some dev) /\
  (forall bites0 self self' bitbin e,
     SegmentationDescriptor_init bites0 = Ok self ->
     SegmentationDescriptor_decode_body self = Ok (self', bitbin, e) ->
     delivery_not_restricted_flag self' = Some true ->
     web_delivery_allowed_flag self' = None /\
     no_regional_blackout_flag self' = None /\
     archive_allowed_flag self' = None /\
     device_restrictions self' = None).
Proof.
  split.
  - intros self bitbin self' bitbin'. unfold _set_flags. intros H.
    bind_inv H. destruct a as [psf b1].
    bind_inv H. destruct a as [sdf b2].
    bind_inv H. destruct a as [dnrf b3].
    read_inv E. read_inv E0. read_inv E1.
    destruct E as (I1 & ->). destruct E0 as (I2 & ->). destruct E1 as (I3 & ->).
    rewrite !forward_idx in *. rewrite !forward_forward in *. simpl in H.
    exists dnrf.
    destruct dnrf; simpl in H.
    + inversion H; subst. simpl. repeat split; try reflexivity; lia.
    + bind_inv H. destruct a as [web b4].
      bind_inv H. destruct a as [nrb b5].
      bind_inv H. destruct a as [arch b6].
      bind_inv H. destruct a as [k b7].
      destruct (table20 k) as [dev|] eqn:Hk; [|discriminate].
      inversion H; subst. split; [reflexivity|]. split; [lia|]. simpl.
      exists web, nrb, arch, k, dev, b4, b5, b6.
      repeat split; try assumption; try reflexivity.
      * apply asint_inv in E2. destruct E2 as (_ & _ & ->).
        apply Z.land_nonneg. right. unfold Z.ones. simpl. lia.
      * apply asint_inv in E2. destruct E2 as (_ & _ & ->).
        rewrite Z.land_ones by lia. apply Z.mod_pos_bound. reflexivity.
  - intros bites0 self self' bitbin e Hinit Hdec Hflag.
    unfold SegmentationDescriptor_init in Hinit. bind_inv Hinit.
    inversion Hinit; subst self; clear Hinit.
    apply decode_body_inv in Hdec.
    destruct Hdec as (payload & base & eid & cancel & Hb & Hlen & Hcase).
    destruct Hcase as [(-> & -> & ->) | (-> & self1 & b1 & self2 & b2 & H1 & H2 & H3)].
    + simpl in Hflag. discriminate.
    + assert (F3 := set_segmentation_frame _ _ _ _ H3).
      assert (F2 : delivery_not_restricted_flag self2 = delivery_not_restricted_flag self1 /\
                   web_delivery_allowed_flag self2 = web_delivery_allowed_flag self1 /\
                   no_regional_blackout_flag self2 = no_regional_blackout_flag self1 /\
                   archive_allowed_flag self2 = archive_allowed_flag self1 /\
                   device_restrictions self2 = device_restrictions self1).
      { destruct (negb _).
        - apply set_components_frame in H2. split_ands. repeat split; assumption.
        - inversion H2; subst. repeat split; reflexivity. }
      assert (Hf1 : delivery_not_restricted_flag self1 = Some true)
        by (split_ands; congruence).
      clear H2 H3.
      unfold _set_flags in H1.
      bind_inv H1. destruct a0 as [psf c1].
      bind_inv H1. destruct a0 as [sdf c2].
      bind_inv H1. destruct a0 as [dnrf c3].
      destruct dnrf; simpl in H1.
      * inversion H1; subst self1. simpl in *.
        repeat match goal with H : _ /\ _ |- _ => destruct H end.
        repeat split; congruence.
      * bind_inv H1. destruct a0 as [web b4].
        bind_inv H1. destruct a0 as [nrb b5].
        bind_inv H1. destruct a0 as [arch b6].
        bind_inv H1. destruct a0 as [k b7].
        destruct (table20 k); [|discriminate].
        inversion H1; subst self1. simpl in Hf1. discriminate.
Qed.

(** *** The segment and sub-segment numbers *)

Lemma set_segments_spec (self self' : SegmentationDescriptor) (bitbin bitbin' : BitBin.t) :
  _set_segments self bitbin = Ok (self', bitbin') ->
  exists sn se b1 at_point,
    BitBin.asint 8 bitbin = Ok (sn, b1) /\
    BitBin.asint 8 b1 = Ok (se, at_point) /\
    segment_num self' = Some sn /\ segments_expected self' = Some se /\
    if in_list (segmentation_type_id self) sub_segment_types then
      if 16 <=? BitBin.idx at_point then
        exists ssn sse b2,
          BitBin.asint 8 at_point = Ok (ssn, b2) /\
          BitBin.asint 8 b2 = Ok (sse, bitbin') /\
          sub_segment_num self' = Some ssn /\ sub_segments_expected self' = Some sse
      else
        sub_segment_num self' = Some 0 /\ sub_segments_expected self' = Some 0 /\
        bitbin' = at_point
    else
      sub_segment_num self' = sub_segment_num self /\
      sub_segments_expected self' = sub_segments_expected self /\
      bitbin' = at_point.
Proof.
  unfold _set_segments. intros H.
  bind_inv H. destruct a as [sn b1].
  bind_inv H. destruct a as [se b2].
  exists sn, se, b1, b2. split; [assumption|]. split; [assumption|].
  change (segmentation_type_id (with_segments sn se self))
    with (segmentation_type_id self) in H.
  fold sub_segment_types in H.
  destruct (in_list (segmentation_type_id self) sub_segment_types).
  - destruct (16 <=? BitBin.idx b2).
    + bind_inv H. destruct a as [ssn b3].
      bind_inv H. destruct a as [sse b4].
      inversion H; subst. repeat split.
      exists ssn, sse, b3. repeat split; assumption.
    + inversion H; subst. repeat split.
  - inversion H; subst. repeat split.
Qed.

(** C2, as the code has it: after a decode with the cancel indicator false
    and a type id that table22 knows, let [at_point] be the cursor once
    segment_num and segments_expected are read.  For a type id among 0x34,
    0x36, 0x38, 0x3A the two sub-segment attributes are read, 8 bits each,
    when at least 16 bits remain at that point, and are set to 0 when
    fewer remain; for any other type id they are not assigned and still
    hold None. *)
Theorem C2_sub_segments (bites0 : option (list Z))
    (self self' : SegmentationDescriptor) (bitbin : BitBin.t)
    (e : list stderr_line) (tid : Z) :
  SegmentationDescriptor_init bites0 = Ok self ->
  SegmentationDescriptor_decode_body self = Ok (self', bitbin, e) ->
  segmentation_event_cancel_indicator self' = Some false ->
  segmentation_type_id self' = Some tid ->
  table22 tid <> None ->
  exists sn se b0 b1 at_point,
    BitBin.asint 8 b0 = Ok (sn, b1) /\
    BitBin.asint 8 b1 = Ok (se, at_point) /\
    segment_num self' = Some sn /\ segments_expected self' = Some se /\
    if existsb (Z.eqb tid) sub_segment_types then
      if 16 <=? BitBin.idx at_point then
        exists ssn sse b2,
          BitBin.asint 8 at_point = Ok (ssn, b2) /\
          BitBin.asint 8 b2 = Ok (sse, bitbin) /\
          sub_segment_num self' = Some ssn /\ sub_segments_expected self' = Some sse
      else
        sub_segment_num self' = Some 0 /\ sub_segments_expected self' = Some 0 /\
        bitbin = at_point
    else
      sub_segment_num self' = None /\ sub_segments_expected self' = None /\
      bitbin = at_point.
Proof.
  intros Hinit Hdec Hcancel Htid Hknown.
  unfold SegmentationDescriptor_init in Hinit. bind_inv Hinit.
  inversion Hinit; subst self; clear Hinit.
  apply decode_body_inv in Hdec.
  destruct Hdec as (payload & base & eid & cancel & Hb & Hlen & Hcase).
  destruct Hcase as [(-> & -> & ->) | (-> & self1 & b1 & self2 & b2 & H1 & H2 & H3)].
  { simpl in Hcancel. discriminate. }
  assert (Hsub : sub_segment_num self2 = None /\ sub_segments_expected self2 = None).
  { apply set_flags_frame in H1. simpl in H1.
    destruct (negb _).
    - apply set_components_frame in H2. split_ands. split; congruence.
    - inversion H2; subst. split_ands. split; congruence. }
  clear H1 H2.
  unfold _set_segmentation in H3.
  bind_inv H3. destruct a0 as [self3 b3].
  assert (Hsub3 : sub_segment_num self3 = None /\ sub_segments_expected self3 = None).
  { destruct (is_set _).
    - bind_inv E0. destruct a0 as [d b']. inversion E0; subst. exact Hsub.
    - inversion E0; subst. exact Hsub. }
  clear E0.
  bind_inv H3. destruct a0 as [ty b4].
  bind_inv H3. destruct a0 as [len b5].
  bind_inv H3. destruct a0 as [upid b6].
  bind_inv H3. destruct a0 as [tid' b7].
  destruct (table22 tid') as [msg|] eqn:Hmsg.
  - assert (Hs := H3). apply set_segments_frame in Hs. simpl in Hs.
    assert (tid' = tid) by (split_ands; congruence). subst tid'.
    apply set_segments_spec in H3.
    destruct H3 as (sn & se & c1 & at_point & R1 & R2 & N1 & N2 & Hcases).
    exists sn, se, b7, c1, at_point. repeat (split; [assumption|]).
    change (in_list _ sub_segment_types)
      with (existsb (Z.eqb tid) sub_segment_types) in Hcases.
    destruct (existsb (Z.eqb tid) sub_segment_types); [exact Hcases|].
    destruct Hcases as (S1 & S2 & ->). simpl in S1, S2.
    split_ands. repeat split; congruence.
  - inversion H3; subst. simpl in Htid. congruence.
Qed.

(** *** What the UPID decoders consume *)















(** *** Termination of the loop of _mid *)

(** Peel one read off the head of the call in the goal. *)
Ltac read_or_fail :=
  unfold BitBin.ashex, BitBin.asdecodedhex, BitBin.asflag, BitBin.as90k;
  match goal with
  | |- returns_or_underruns _ (bind (bind (BitBin.asint ?n ?b) ?k1) ?k2) =>
      let v := fresh "v" in
      let I := fresh "I" in
      let E := fresh "E" in
      destruct (asint_cases n b) as [(v & E & I) | E]; rewrite E; simpl;
      [ | right; reflexivity ]
  | |- returns_or_underruns _ (bind (BitBin.asint ?n ?b) ?k) =>
      let v := fresh "v" in
      let I := fresh "I" in
      let E := fresh "E" in
      destruct (asint_cases n b) as [(v & E & I) | E]; rewrite E; simpl;
      [ | right; reflexivity ]
  end.

Ltac returned :=
  left; do 2 eexists; split; [reflexivity | rewrite ?forward_idx; lia].

Lemma air_id_returns (bitbin : BitBin.t) (len : Z) :
  returns_or_underruns bitbin (_air_id bitbin len).
Proof. unfold _air_id. read_or_fail. returned. Qed.

Lemma atsc_returns (bitbin : BitBin.t) (len : Z) :
  returns_or_underruns bitbin (_atsc bitbin len).
Proof. unfold _atsc. do 5 read_or_fail. returned. Qed.

Lemma isan_returns (bitbin : BitBin.t) (len : Z) :
  returns_or_underruns bitbin (_isan bitbin len).
Proof. unfold _isan. read_or_fail. returned. Qed.

Lemma mpu_returns (bitbin : BitBin.t) (len : Z) :
  returns_or_underruns bitbin (_mpu bitbin len).
Proof. unfold _mpu. do 2 read_or_fail. returned. Qed.

Lemma eidr_returns (bitbin : BitBin.t) (len : Z) :
  returns_or_underruns bitbin (_eidr bitbin len).
Proof. unfold _eidr. do 2 read_or_fail. returned. Qed.

Lemma umid_returns (bitbin : BitBin.t) (len : Z) :
  returns_or_underruns bitbin (_umid bitbin len).
Proof. unfold _umid. read_or_fail. returned. Qed.

Lemma uri_returns (bitbin : BitBin.t) (len : Z) :
  returns_or_underruns bitbin (_uri bitbin len).
Proof.
  unfold _uri. destruct (0 <? len).
  - read_or_fail. returned.
  - returned.
Qed.

Lemma dispatch_returns (mid : upid_decoder) (bitbin : BitBin.t) (ty len : Z) :
  (forall len', returns_or_underruns bitbin (mid bitbin len')) ->
  returns_or_underruns bitbin (set_segmentation_upid_body mid bitbin ty len).
Proof.
  intros Hmid. unfold set_segmentation_upid_body.
  destruct (upid_map mid ty) as [[label decoder]|] eqn:Hmap; [|returned].
  assert (Hdec : returns_or_underruns bitbin (decoder bitbin len)).
  { unfold upid_map in Hmap.
    destruct ty as [|p|p]; try discriminate.
    do 5 (try destruct p as [p|p|]; try discriminate);
      injection Hmap as _ <-;
      auto using air_id_returns, atsc_returns, isan_returns, mpu_returns,
        eidr_returns, umid_returns, uri_returns. }
  destruct Hdec as [(v & b' & -> & Hle) | ->]; simpl; [|right; reflexivity].
  destruct (negb (ty =? 9)); left; do 2 eexists; split; try reflexivity; assumption.
Qed.

Lemma mid_loop_S (fuel : nat) (bitbin : BitBin.t) (b_c : Z) (upids : list upid_val) :
  mid_loop (S fuel) bitbin b_c upids =
  if b_c =? 0 then Ok (upids, bitbin, b_c)
  else
    '(upid_type, bitbin) <- BitBin.asint 8 bitbin ;;
    let b_c := b_c - 8 in
    '(upid_length, bitbin) <- BitBin.asint 8 bitbin ;;
    let b_c := b_c - 8 in
    '(segmentation_upid, bitbin) <-
       set_segmentation_upid_body (mid_body (mid_loop fuel))
         bitbin upid_type upid_length ;;
    let b_c := b_c - Z.shiftl upid_length 3 in
    mid_loop fuel bitbin b_c (upids ++ [segmentation_upid]).
Proof. reflexivity. Qed.

(** With more fuel than the cursor has bits, the loop ends: on a counter
    that is exactly zero, or on a failed read. *)
Lemma mid_loop_ends (fuel : nat) :
  forall bitbin b_c upids,
    (Z.to_nat (BitBin.idx bitbin) < fuel)%nat ->
    (exists upids' bitbin',
        mid_loop fuel bitbin b_c upids = Ok (upids', bitbin', 0) /\
        BitBin.idx bitbin' <= BitBin.idx bitbin)
    \/ mid_loop fuel bitbin b_c upids = Raise BufferUnderrun.
Proof.
  induction fuel as [|fuel IH]; intros bitbin b_c upids Hfuel; [lia|].
  rewrite mid_loop_S.
  destruct (b_c =? 0) eqn:Hb.
  { apply Z.eqb_eq in Hb. subst. left. do 2 eexists. split; [reflexivity|lia]. }
  destruct (asint_cases 8 bitbin) as [(ty & E1 & I1) | E1]; rewrite E1; simpl;
    [|now right].
  destruct (asint_cases 8 (BitBin.forward 8 bitbin)) as [(len & E2 & I2) | E2];
    rewrite E2; simpl; [|now right].
  rewrite forward_idx in I2.
  set (b2 := BitBin.forward 8 (BitBin.forward 8 bitbin)).
  assert (Hb2 : BitBin.idx b2 = BitBin.idx bitbin - 16)
    by (unfold b2; rewrite !forward_idx; lia).
  assert (Hmid : forall len',
             returns_or_underruns b2 (mid_body (mid_loop fuel) b2 len')).
  { intros len'. unfold mid_body.
    destruct (IH b2 (Z.shiftl len' 3) []) as [(u & b' & E & Hle) | E];
      [lia | rewrite E; simpl; returned | rewrite E; simpl; now right]. }
  destruct (dispatch_returns (mid_body (mid_loop fuel)) b2 ty len Hmid)
    as [(v & b3 & E3 & Hle3) | E3]; rewrite E3; simpl; [|now right].
  destruct (IH b3 (b_c - 8 - 8 - Z.shiftl len 3) (upids ++ [v]))
    as [(u & b' & E & Hle) | E]; [lia | | now right].
  left. exists u, b'. split; [assumption|lia].
Qed.

(** A result reached with some fuel is the result with any more fuel. *)
Lemma mid_loop_fuel_mono (fuel : nat) :
  forall fuel' bitbin b_c upids,
    (fuel <= fuel')%nat ->
    mid_loop fuel bitbin b_c upids <> OutOfFuel ->
    mid_loop fuel' bitbin b_c upids = mid_loop fuel bitbin b_c upids.
Proof.
  induction fuel as [|fuel IH]; intros fuel' bitbin b_c upids Hle Hres.
  { simpl in Hres. congruence. }
  destruct fuel' as [|fuel']; [lia|].
  rewrite mid_loop_S in Hres. rewrite !mid_loop_S.
  destruct (b_c =? 0); [reflexivity|].
  destruct (BitBin.asint 8 bitbin) as [[ty b1]| |]; simpl in *; try reflexivity.
  destruct (BitBin.asint 8 b1) as [[len b2]| |]; simpl in *; try reflexivity.
  assert (Hd : set_segmentation_upid_body (mid_body (mid_loop fuel)) b2 ty len
               <> OutOfFuel ->
               set_segmentation_upid_body (mid_body (mid_loop fuel')) b2 ty len
               = set_segmentation_upid_body (mid_body (mid_loop fuel)) b2 ty len).
  { unfold set_segmentation_upid_body.
    assert (Hm : upid_map (mid_body (mid_loop fuel')) ty
                 = upid_map (mid_body (mid_loop fuel)) ty
                 \/ ty = 0x0D).
    { unfold upid_map. destruct ty as [|p|p]; auto.
      do 5 (try destruct p as [p|p|]; auto). }
    destruct Hm as [-> | ->]; [reflexivity|].
    simpl. unfold mid_body. intros Hne.
    rewrite IH; [reflexivity | lia |].
    intros Hout. rewrite Hout in Hne. simpl in Hne. congruence. }
  destruct (set_segmentation_upid_body (mid_body (mid_loop fuel)) b2 ty len)
    as [[v b3]| |] eqn:E3; simpl in *.
  - rewrite Hd by discriminate. simpl. apply IH; [lia | assumption].
  - rewrite Hd by discriminate. reflexivity.
  - congruence.
Qed.

(** C8: on every cursor, for every counter (a declared length, or a
    counter that a nested length has driven below zero) the loop of _mid
    terminates: one outcome is reached with all the fuel a finite buffer
    can need, and it is either the list of nested payloads with the
    counter at exactly zero, or the failure of a read with
    BufferUnderrun. *)
Theorem C8_mid_loop_terminates (bitbin : BitBin.t) (b_c : Z) (upids : list upid_val) :
  exists r : outcome mid_state,
    (forall fuel, (Z.to_nat (BitBin.idx bitbin) < fuel)%nat ->
                  mid_loop fuel bitbin b_c upids = r) /\
    ((exists upids' bitbin', r = Ok (upids', bitbin', 0)) \/
     r = Raise BufferUnderrun).
Proof.
  set (fuel0 := mid_fuel bitbin).
  assert (H0 : (Z.to_nat (BitBin.idx bitbin) < fuel0)%nat)
    by (unfold fuel0, mid_fuel; lia).
  exists (mid_loop fuel0 bitbin b_c upids). split.
  - intros fuel Hfuel. apply mid_loop_fuel_mono.
    + unfold fuel0, mid_fuel. lia.
    + destruct (mid_loop_ends fuel0 bitbin b_c upids H0)
        as [(u & b' & E & _) | E]; rewrite E; discriminate.
  - destruct (mid_loop_ends fuel0 bitbin b_c upids H0)
      as [(u & b' & E & _) | E]; rewrite E; [left; eauto | now right].
Qed.

(** *** Bytes under the cursor *)

Lemma fold_left_bytes (l : list Z) :
  forall acc,
    fold_left (fun a b => a * 256 + b) l acc
    = acc * 2 ^ (8 * Z.of_nat (List.length l))
      + fold_left (fun a b => a * 256 + b) l 0.
Proof.
  induction l as [|x l IH]; intros acc.
  - simpl. lia.
  - cbn [fold_left List.length]. rewrite (IH (acc * 256 + x)), (IH (0 * 256 + x)).
    replace (8 * Z.of_nat (S (List.length l)))
      with (8 + 8 * Z.of_nat (List.length l)) by lia.
    rewrite Z.pow_add_r by lia. change (2 ^ 8) with 256. ring.
Qed.

Lemma int_from_bytes_app (xs ys : list Z) :
  int_from_bytes (xs ++ ys)
  = int_from_bytes xs * 2 ^ (8 * Z.of_nat (List.length ys)) + int_from_bytes ys.
Proof.
  unfold int_from_bytes. rewrite fold_left_app. apply fold_left_bytes.
Qed.

Lemma int_from_bytes_cons (x : Z) (l : list Z) :
  int_from_bytes (x :: l)
  = x * 2 ^ (8 * Z.of_nat (List.length l)) + int_from_bytes l.
Proof. apply (int_from_bytes_app [x] l). Qed.

Lemma int_from_bytes_bound (l : list Z) :
  Forall byte_ok l ->
  0 <= int_from_bytes l < 2 ^ (8 * Z.of_nat (List.length l)).
Proof.
  induction 1 as [|x l Hx Hl IH].
  - cbn. lia.
  - rewrite int_from_bytes_cons. cbn [List.length].
    replace (8 * Z.of_nat (S (List.length l)))
      with (8 + 8 * Z.of_nat (List.length l)) by lia.
    rewrite Z.pow_add_r by lia. change (2 ^ 8) with 256.
    unfold byte_ok in Hx.
    assert (0 < 2 ^ (8 * Z.of_nat (List.length l))) by (apply Z.pow_pos_nonneg; lia).
    nia.
Qed.

(** int.to_bytes gives back the bytes int.from_bytes read. *)
Lemma int_to_bytes_from_bytes (l : list Z) :
  Forall byte_ok l ->
  int_to_bytes (List.length l) (int_from_bytes l) = l.
Proof.
  induction l as [|x l IH] using rev_ind; intros Hl; [reflexivity|].
  apply Forall_app in Hl. destruct Hl as [Hl Hx].
  inversion Hx as [|? ? Hx' _]; subst. unfold byte_ok in Hx'.
  rewrite length_app, Nat.add_comm. cbn [List.length Nat.add int_to_bytes].
  rewrite int_from_bytes_app. cbn [List.length].
  change (2 ^ (8 * Z.of_nat 1)) with 256.
  change (int_from_bytes [x]) with (0 * 256 + x). rewrite Z.mul_0_l, Z.add_0_l.
  rewrite Z.div_add_l by lia. rewrite Z.div_small by lia. rewrite Z.add_0_r.
  rewrite Z.add_comm, Z.mod_add by lia. rewrite Z.mod_small by lia.
  rewrite IH by assumption. reflexivity.
Qed.

Lemma cursor_at_idx (pre rest : list Z) :
  BitBin.idx (cursor_at pre rest) = 8 * Z.of_nat (List.length rest).
Proof.
  unfold cursor_at. rewrite forward_idx, new_idx_bytes, length_app. lia.
Qed.

Lemma cursor_at_bits (pre rest : list Z) :
  BitBin.bits (cursor_at pre rest) = int_from_bytes (pre ++ rest).
Proof. reflexivity. Qed.

Lemma cursor_at_forward (pre f post : list Z) :
  BitBin.forward (8 * Z.of_nat (List.length f)) (cursor_at pre (f ++ post))
  = cursor_at (pre ++ f) post.
Proof.
  unfold cursor_at. rewrite forward_forward, <- app_assoc, length_app.
  f_equal. lia.
Qed.

(** Reading the whole bytes [f] that lie under the cursor. *)
Lemma asint_bytes (pre f post : list Z) :
  Forall byte_ok (f ++ post) ->
  BitBin.asint (8 * Z.of_nat (List.length f)) (cursor_at pre (f ++ post))
  = Ok (int_from_bytes f, cursor_at (pre ++ f) post).
Proof.
  intros Hok. apply Forall_app in Hok. destruct Hok as [Hf Hpost].
  rewrite asint_run by (rewrite cursor_at_idx, length_app; lia).
  rewrite cursor_at_forward. f_equal. f_equal.
  rewrite cursor_at_bits, cursor_at_idx, length_app.
  replace (8 * Z.of_nat (List.length f + List.length post)
           - 8 * Z.of_nat (List.length f))
    with (8 * Z.of_nat (List.length post)) by lia.
  rewrite Z.shiftr_div_pow2 by lia. rewrite Z.land_ones by lia.
  rewrite !int_from_bytes_app, length_app.
  pose proof (int_from_bytes_bound f Hf) as Bf.
  pose proof (int_from_bytes_bound post Hpost) as Bp.
  set (P := 2 ^ (8 * Z.of_nat (List.length post))) in *.
  set (F := 2 ^ (8 * Z.of_nat (List.length f))) in *.
  assert (HP : 0 < P) by (apply Z.pow_pos_nonneg; lia).
  assert (HF : 0 < F) by (apply Z.pow_pos_nonneg; lia).
  replace (2 ^ (8 * Z.of_nat (List.length f + List.length post))) with (F * P)
    by (unfold F, P; rewrite <- Z.pow_add_r by lia; f_equal; lia).
  replace (int_from_bytes pre * (F * P) + (int_from_bytes f * P + int_from_bytes post))
    with ((int_from_bytes pre * F + int_from_bytes f) * P + int_from_bytes post)
    by ring.
  rewrite Z.div_add_l by lia. rewrite (Z.div_small (int_from_bytes post)) by lia.
  rewrite Z.add_0_r. rewrite Z.add_comm, Z.mod_add by lia.
  apply Z.mod_small. lia.
Qed.

Lemma asint_byte (pre post : list Z) (x : Z) :
  Forall byte_ok (x :: post) ->
  BitBin.asint 8 (cursor_at pre (x :: post)) = Ok (x, cursor_at (pre ++ [x]) post).
Proof.
  intros Hok. apply (asint_bytes pre [x] post) in Hok.
  cbn [List.length] in Hok. change (8 * Z.of_nat 1) with 8 in Hok.
  change (int_from_bytes [x]) with (0 * 256 + x) in Hok.
  rewrite Z.mul_0_l, Z.add_0_l in Hok. exact Hok.
Qed.

(** *** MID over nested URI entries *)

(** One round of the loop of _mid on a nested URI entry: two header bytes
    and the payload are consumed, the counter goes down by as much, and
    the entry is appended. *)
Lemma mid_round_uri (fuel : nat) (pre p rest : list Z) (b_c : Z) (upids : list upid_val) :
  Forall byte_ok (p ++ rest) ->
  Z.of_nat (List.length p) <= 255 ->
  b_c <> 0 ->
  mid_loop (S fuel)
    (cursor_at pre (0x0F :: Z.of_nat (List.length p) :: p ++ rest)) b_c upids
  = mid_loop fuel
      (cursor_at (pre ++ 0x0F :: Z.of_nat (List.length p) :: p) rest)
      (b_c - 16 - 8 * Z.of_nat (List.length p)) (upids ++ [uri_entry p]).
Proof.
  intros Hok Hlen Hb.
  assert (Hpos : p = [] \/ 0 < Z.of_nat (List.length p))
    by (destruct p; [now left | right; cbn [List.length]; lia]).
  assert (Hentry : uri_entry p
                   = if 0 <? Z.of_nat (List.length p)
                     then UStr ("URI:" ++ decode_utf8 p) else UStr "URI:None")
    by (destruct p; reflexivity).
  remember (Z.of_nat (List.length p)) as L eqn:HeqL.
  assert (HL : byte_ok L) by (unfold byte_ok; lia).
  rewrite mid_loop_S.
  replace (b_c =? 0) with false by lia.
  rewrite asint_byte by (repeat constructor; try assumption; unfold byte_ok; lia).
  cbn [bind].
  rewrite asint_byte by (constructor; assumption).
  cbn [bind].
  unfold set_segmentation_upid_body.
  change (upid_map (mid_body (mid_loop fuel)) 15) with (Some ("URI"%string, _uri)).
  cbv iota beta. unfold _uri.
  replace (b_c - 8 - 8 - Z.shiftl L 3) with (b_c - 16 - 8 * L)
    by (rewrite Z.shiftl_mul_pow2 by lia; lia).
  replace (pre ++ 15 :: L :: p) with (((pre ++ [15]) ++ [L]) ++ p)
    by (rewrite <- !app_assoc; reflexivity).
  rewrite Hentry.
  destruct Hpos as [-> | Hpos].
  - cbn [List.length] in HeqL. subst L. cbn. rewrite app_nil_r. reflexivity.
  - replace (0 <? L) with true by lia.
    unfold BitBin.asdecodedhex.
    replace (Z.shiftl L 3) with (8 * L) by (rewrite Z.shiftl_mul_pow2 by lia; lia).
    replace (Z.to_nat (8 * L / 8)) with (List.length p)
      by (rewrite Z.mul_comm, Z.div_mul by lia; lia).
    rewrite HeqL. rewrite asint_bytes by assumption.
    cbn [bind].
    rewrite int_to_bytes_from_bytes
      by (apply Forall_app in Hok; destruct Hok; assumption).
    reflexivity.
Qed.

(** C7: a MID of declared length L1 + L2 + 4 over two nested URI entries
    of lengths L1 and L2 consumes exactly L1 + L2 + 4 bytes (two header
    bytes per entry and the two payloads) and returns the list of the two
    decoded entries. *)
Theorem C7_mid_two_uris (fuel : nat) (pre p1 p2 post : list Z) :
  Forall byte_ok (p1 ++ p2 ++ post) ->
  Z.of_nat (List.length p1) <= 255 ->
  Z.of_nat (List.length p2) <= 255 ->
  (3 <= fuel)%nat ->
  let L1 := Z.of_nat (List.length p1) in
  let L2 := Z.of_nat (List.length p2) in
  let bitbin := cursor_at pre (0x0F :: L1 :: p1 ++ 0x0F :: L2 :: p2 ++ post) in
  _mid fuel bitbin (L1 + L2 + 4)
  = Ok (UList [uri_entry p1; uri_entry p2],
        BitBin.forward (8 * (L1 + L2 + 4)) bitbin).
Proof.
  intros Hok H1 H2 Hfuel L1 L2 bitbin. subst L1 L2 bitbin.
  destruct fuel as [|[|[|fuel]]]; try lia.
  apply Forall_app in Hok. destruct Hok as [Hp1 Hok2].
  unfold _mid, mid_body.
  rewrite mid_round_uri; try assumption.
  2:{ apply Forall_app. split; [assumption|].
      repeat constructor; try assumption; unfold byte_ok; lia. }
  2:{ rewrite Z.shiftl_mul_pow2 by lia. lia. }
  rewrite mid_round_uri; try assumption.
  2:{ rewrite Z.shiftl_mul_pow2 by lia. lia. }
  rewrite mid_loop_S.
  match goal with
  | |- context [?c =? 0] =>
      replace (c =? 0) with true by (rewrite Z.shiftl_mul_pow2 by lia; lia)
  end.
  cbn [bind app]. f_equal. f_equal.
  unfold cursor_at. rewrite forward_forward.
  f_equal.
  - rewrite !length_app. cbn [List.length]. lia.
  - f_equal. rewrite <- !app_assoc. cbn [app]. rewrite <- ?app_assoc. reflexivity.
Qed.

(** *** The registry *)

(** C9, as the code has it: on a slice whose first byte is a tag from 0 to
    4, splice_descriptor constructs the variant of that tag and runs its
    decode; it returns the populated instance when both succeed and fails
    as they fail otherwise.  On any other first byte it returns False
    without constructing or decoding anything. *)
Theorem C9_splice_descriptor_dispatch (rest : list Z) :
  splice_descriptor (0 :: rest)
  = (d0 <- AvailDescriptor_init (Some (0 :: rest)) ;;
     '(d, e) <- AvailDescriptor_decode d0 ;;
     Ok (Spliced (Avail d), e)) /\
  splice_descriptor (1 :: rest)
  = (d0 <- DtmfDescriptor_init (Some (1 :: rest)) ;;
     '(d, e) <- DtmfDescriptor_decode d0 ;;
     Ok (Spliced (Dtmf d), e)) /\
  splice_descriptor (2 :: rest)
  = (d0 <- SegmentationDescriptor_init (Some (2 :: rest)) ;;
     '(d, e) <- SegmentationDescriptor_decode d0 ;;
     Ok (Spliced (Segmentation d), e)) /\
  splice_descriptor (3 :: rest)
  = (d0 <- TimeDescriptor_init (Some (3 :: rest)) ;;
     '(d, e) <- TimeDescriptor_decode d0 ;;
     Ok (Spliced (Time d), e)) /\
  splice_descriptor (4 :: rest)
  = (d0 <- AudioDescriptor_init (Some (4 :: rest)) ;;
     '(d, e) <- AudioDescriptor_decode d0 ;;
     Ok (Spliced (Audio d), e)) /\
  (forall tag, ~ 0 <= tag <= 4 -> splice_descriptor (tag :: rest) = Ok (PyFalse, [])).
Proof.
  unfold splice_descriptor. cbn [getitem Z.ltb Z.compare nth_error Z.to_nat bind].
  repeat split.
  - cbn [descriptor_map construct].
    destruct (AvailDescriptor_init (Some (0 :: rest))) as [d0| |]; try reflexivity.
    cbn [bind decode].
    destruct (AvailDescriptor_decode d0) as [[d e]| |]; reflexivity.
  - cbn [descriptor_map construct].
    destruct (DtmfDescriptor_init (Some (1 :: rest))) as [d0| |]; try reflexivity.
    cbn [bind decode].
    destruct (DtmfDescriptor_decode d0) as [[d e]| |]; reflexivity.
  - cbn [descriptor_map construct].
    destruct (SegmentationDescriptor_init (Some (2 :: rest))) as [d0| |];
      try reflexivity.
    cbn [bind decode].
    destruct (SegmentationDescriptor_decode d0) as [[d e]| |]; reflexivity.
  - cbn [descriptor_map construct].
    destruct (TimeDescriptor_init (Some (3 :: rest))) as [d0| |]; try reflexivity.
    cbn [bind decode].
    destruct (TimeDescriptor_decode d0) as [[d e]| |]; reflexivity.
  - cbn [descriptor_map construct].
    destruct (AudioDescriptor_init (Some (4 :: rest))) as [d0| |]; try reflexivity.
    cbn [bind decode].
    destruct (AudioDescriptor_decode d0) as [[d e]| |]; reflexivity.
  - intros tag Htag.
    assert (Hmap : descriptor_map tag = None).
    { unfold descriptor_map. destruct tag as [|p|p]; try reflexivity; [lia|].
      do 3 (try destruct p as [p|p|]; try reflexivity; try lia). }
    rewrite Hmap. reflexivity.
Qed.

(** *** encode *)

(** The inherited encode reads the tag and the length, never the
    identifier, which it overwrites. *)
Lemma base_encode_inv (base base' : SpliceDescriptor) (nbin : NBin.t) :
  SpliceDescriptor_encode base = Ok (nbin, base') ->
  base' = encoded_base base /\
  exists t l, tag base = Some t /\ descriptor_length base = Some l /\
    nbin = NBin.add_hex "0x43554549" 32 (NBin.add_int l 8 (NBin.add_int t 8 NBin.new)).
Proof.
  unfold SpliceDescriptor_encode, encode_meta, encode_id, encoded_base.
  destruct (tag base) as [t|]; [|discriminate].
  destruct (descriptor_length base) as [l|]; [|discriminate].
  cbn [the bind]. intros H. injection H as <- <-.
  split; [reflexivity|]. exists t, l. auto.
Qed.

Lemma base_encode_run (base : SpliceDescriptor) (t l : Z) :
  tag base = Some t -> descriptor_length base = Some l ->
  SpliceDescriptor_encode base
  = Ok (NBin.add_hex "0x43554549" 32 (NBin.add_int l 8 (NBin.add_int t 8 NBin.new)),
        encoded_base base).
Proof.
  unfold SpliceDescriptor_encode, encode_meta, encode_id, encoded_base.
  intros -> ->. reflexivity.
Qed.

Lemma base_encode_again (base base' : SpliceDescriptor) (nbin : NBin.t) :
  SpliceDescriptor_encode base = Ok (nbin, base') ->
  SpliceDescriptor_encode base' = Ok (nbin, base').
Proof.
  intros H. apply base_encode_inv in H.
  destruct H as (-> & t & l & Ht & Hl & ->).
  apply (base_encode_run (encoded_base base) t l); assumption.
Qed.

(** A base object that __init__ built and on which the identifier could
    be read has its tag and its length. *)
Lemma init_parse_id_tag (bites0 : option (list Z)) (base base' : SpliceDescriptor)
    (bitbin bitbin' : BitBin.t) (e : list stderr_line) :
  SpliceDescriptor_init bites0 = Ok base ->
  BitBin_of base = Ok bitbin ->
  parse_id base bitbin = Ok (base', bitbin', e) ->
  exists t l, tag base' = Some t /\ descriptor_length base' = Some l.
Proof.
  unfold SpliceDescriptor_init, BitBin_of, parse_id. intros Hinit Hbb Hid.
  bind_inv Hid. destruct a as [s b]. injection Hid as <- <- <-.
  cbn [tag descriptor_length].
  destruct bites0 as [[|b0 [|b1 payload]]|]; try discriminate;
    injection Hinit as <-; cbn [bites the bind] in Hbb; try discriminate.
  - injection Hbb as <-. apply asdecodedhex_inv in E.
    rewrite new_idx_bytes in E. cbn [List.length] in E. lia.
  - cbn [tag descriptor_length]. eauto.
Qed.

(** The loop of AudioDescriptor.encode never leaves a round it has
    entered: the body does not touch a_c. *)
Lemma Audio_encode_loop_diverges (fuel : nat) :
  forall a_c count comps nbin comp,
    a_c < count ->
    getitem comps a_c = Ok comp ->
    Audio_encode_loop fuel a_c count comps nbin = OutOfFuel.
Proof.
  induction fuel as [|fuel IH]; intros a_c count comps nbin comp Hlt Hget.
  - reflexivity.
  - cbn [Audio_encode_loop]. replace (a_c <? count) with true by lia.
    rewrite Hget. cbn [bind]. eapply IH; eassumption.
Qed.

(** The loop of AudioDescriptor.decode appends one component per round. *)
Lemma Audio_decode_loop_length (a_c : nat) :
  forall bitbin comps comps' bitbin',
    Audio_decode_loop a_c bitbin comps = Ok (comps', bitbin') ->
    List.length comps' = (List.length comps + a_c)%nat.
Proof.
  induction a_c as [|a_c IH]; intros bitbin comps comps' bitbin' H.
  - cbn in H. injection H as <- _. lia.
  - cbn [Audio_decode_loop] in H.
    bind_inv H. destruct a as [ct b1]. bind_inv H. destruct a as [iso b2].
    bind_inv H. destruct a as [bsm b3]. bind_inv H. destruct a as [nch b4].
    bind_inv H. destruct a as [fsa b5].
    apply IH in H. rewrite H, length_app. cbn [List.length]. lia.
Qed.

(** The encode of a decoded audio descriptor that has a component never
    returns. *)
Lemma Audio_encode_never_returns (bites0 : option (list Z))
    (d0 d : AudioDescriptor) (e : list stderr_line) (n : Z) :
  AudioDescriptor_init bites0 = Ok d0 ->
  AudioDescriptor_decode d0 = Ok (d, e) ->
  audio_count d = Some n -> 1 <= n ->
  forall fuel, AudioDescriptor_encode fuel d = OutOfFuel.
Proof.
  intros Hinit H Hcount Hn fuel.
  unfold AudioDescriptor_init in Hinit. bind_inv Hinit. injection Hinit as <-.
  unfold AudioDescriptor_decode in H. cbn [audio_base audio_name audio_components] in H.
  bind_inv H. bind_inv H. destruct a1 as [[base b] e1].
  destruct (init_parse_id_tag _ _ _ _ _ _ E E0 E1) as (t & l & Ht & Hl).
  bind_inv H. destruct a1 as [a_c b1]. bind_inv H. destruct a1 as [comps b2].
  injection H as <- _. cbn [audio_count] in Hcount. injection Hcount as ->.
  apply Audio_decode_loop_length in E3. cbn [List.length] in E3.
  destruct comps as [|comp comps]; [cbn [List.length] in E3; lia|].
  unfold AudioDescriptor_encode.
  cbn [audio_base audio_name audio_components audio_count].
  rewrite (base_encode_run base t l Ht Hl). cbn [bind the].
  erewrite Audio_encode_loop_diverges; [reflexivity | lia | reflexivity].
Qed.

Lemma Audio_encode_loop_empty (fuel : nat) (comps : list audio_comp) (nbin : NBin.t) :
  Audio_encode_loop (S fuel) 0 0 comps nbin = Ok nbin.
Proof. reflexivity. Qed.

(** C4, as the code has it: when encode returns, every attribute of the
    descriptor is as it was except the identifier, which encode_id has
    overwritten with the str "0x43554549", whatever decode had read. *)
Theorem C4_encode_overwrites_identifier_only :
  (forall self r self' e,
     AvailDescriptor_encode self = Ok (r, self', e) ->
     self' = mkAvailDescriptor (encoded_base (avail_base self))
               (avail_name self) (provider_avail_id self)) /\
  (forall self r self' e,
     DtmfDescriptor_encode self = Ok (r, self', e) ->
     self' = mkDtmfDescriptor (encoded_base (dtmf_base self))
               (dtmf_name self) (preroll self) (dtmf_count self) (dtmf_chars self)) /\
  (forall self r self' e,
     TimeDescriptor_encode self = Ok (r, self', e) ->
     self' = mkTimeDescriptor (encoded_base (time_base self))
               (time_name self) (tai_seconds self) (tai_ns self) (utc_offset self)) /\
  (forall fuel self r self' e,
     AudioDescriptor_encode fuel self = Ok (r, self', e) ->
     self' = mkAudioDescriptor (encoded_base (audio_base self))
               (audio_name self) (audio_components self) (audio_count self)) /\
  (forall self r self' e,
     SegmentationDescriptor_encode self = Ok (r, self', e) ->
     self' = with_seg_base (encoded_base (seg_base self)) self).
Proof.
  repeat split.
  - intros self r self' e H. unfold AvailDescriptor_encode in H.
    bind_inv H. destruct a as [nbin base]. apply base_encode_inv in E.
    destruct E as (-> & _). bind_inv H. injection H as _ <- _. reflexivity.
  - intros self r self' e H. unfold DtmfDescriptor_encode in H.
    bind_inv H. destruct a as [nbin base]. apply base_encode_inv in E.
    destruct E as (-> & _). do 3 bind_inv H. injection H as _ <- _. reflexivity.
  - intros self r self' e H. unfold TimeDescriptor_encode in H.
    bind_inv H. destruct a as [nbin base]. apply base_encode_inv in E.
    destruct E as (-> & _). do 3 bind_inv H. injection H as _ <- _. reflexivity.
  - intros fuel self r self' e H. unfold AudioDescriptor_encode in H.
    bind_inv H. destruct a as [nbin base]. apply base_encode_inv in E.
    destruct E as (-> & _). do 2 bind_inv H. injection H as _ <- _. reflexivity.
  - intros self r self' e H. unfold SegmentationDescriptor_encode in H.
    bind_inv H. destruct a as [nbin base]. apply base_encode_inv in E.
    destruct E as (-> & _). injection H as _ <- _. reflexivity.
Qed.

(** A second encode of a descriptor gives what the first one gave. *)
Lemma Avail_encode_again (self self' : AvailDescriptor) (r : option NBin.t)
    (e : list stderr_line) :
  AvailDescriptor_encode self = Ok (r, self', e) ->
  AvailDescriptor_encode self' = Ok (r, self', e).
Proof.
  unfold AvailDescriptor_encode. intros H.
  bind_inv H. destruct a as [nbin base]. apply base_encode_again in E.
  bind_inv H. injection H as <- <- <-. cbn [avail_base avail_name provider_avail_id] in *.
  rewrite E. cbn [bind]. rewrite E0. reflexivity.
Qed.

Lemma Dtmf_encode_again (self self' : DtmfDescriptor) (r : option NBin.t)
    (e : list stderr_line) :
  DtmfDescriptor_encode self = Ok (r, self', e) ->
  DtmfDescriptor_encode self' = Ok (r, self', e).
Proof.
  unfold DtmfDescriptor_encode. intros H.
  bind_inv H. destruct a as [nbin base]. apply base_encode_again in E.
  do 3 bind_inv H. injection H as <- <- <-.
  cbn [dtmf_base dtmf_name preroll dtmf_count dtmf_chars] in *.
  rewrite E. cbn [bind]. rewrite E0. cbn [bind]. rewrite E1. cbn [bind].
  rewrite E2. reflexivity.
Qed.

(** The inherited encode returns, or raises TypeError on a tag or a
    length that is None. *)
Lemma base_encode_cases (self : SpliceDescriptor) :
  (exists nbin base, SpliceDescriptor_encode self = Ok (nbin, base)) \/
  SpliceDescriptor_encode self = Raise TypeError.
Proof.
  unfold SpliceDescriptor_encode, encode_meta, encode_id, the.
  destruct (tag self); [|right; reflexivity]. cbn [bind].
  destruct (descriptor_length self); [|right; reflexivity]. cbn [bind].
  left. eauto.
Qed.

(** C10, as the code has it: whenever the encode of an Avail, DTMF, Time
    or Audio descriptor returns, it returns None and not the writer; it
    does return on every Avail, DTMF and Time descriptor that decode has
    populated, and on a decoded Audio descriptor without components; the
    inherited SpliceDescriptor.encode, which the segmentation descriptor
    uses, returns the writer; on a descriptor one of whose fields is
    still None the encode of the four raises TypeError. *)
Theorem C10_variant_encode_returns_None :
  (forall self r self' e,
     AvailDescriptor_encode self = Ok (r, self', e) -> r = None) /\
  (forall self r self' e,
     DtmfDescriptor_encode self = Ok (r, self', e) -> r = None) /\
  (forall self r self' e,
     TimeDescriptor_encode self = Ok (r, self', e) -> r = None) /\
  (forall fuel self r self' e,
     AudioDescriptor_encode fuel self = Ok (r, self', e) -> r = None) /\
  (forall bites0 d0 d e,
     AvailDescriptor_init bites0 = Ok d0 ->
     AvailDescriptor_decode d0 = Ok (d, e) ->
     exists d' e', AvailDescriptor_encode d = Ok (None, d', e')) /\
  (forall bites0 d0 d e,
     DtmfDescriptor_init bites0 = Ok d0 ->
     DtmfDescriptor_decode d0 = Ok (d, e) ->
     exists d' e', DtmfDescriptor_encode d = Ok (None, d', e')) /\
  (forall bites0 d0 d e,
     TimeDescriptor_init bites0 = Ok d0 ->
     TimeDescriptor_decode d0 = Ok (d, e) ->
     exists d' e', TimeDescriptor_encode d = Ok (None, d', e')) /\
  (forall bites0 d0 d e fuel,
     AudioDescriptor_init bites0 = Ok d0 ->
     AudioDescriptor_decode d0 = Ok (d, e) ->
     audio_count d = Some 0 ->
     exists d', AudioDescriptor_encode (S fuel) d = Ok (None, d', [])) /\
  (forall self r self' e,
     SegmentationDescriptor_encode self = Ok (r, self', e) ->
     exists nbin, r = Some nbin /\
       SpliceDescriptor_encode (seg_base self) = Ok (nbin, seg_base self')) /\
  (forall self,
     provider_avail_id self = None ->
     AvailDescriptor_encode self = Raise TypeError) /\
  (forall self,
     preroll self = None \/ dtmf_count self = None ->
     DtmfDescriptor_encode self = Raise TypeError) /\
  (forall self,
     tai_seconds self = None \/ tai_ns self = None \/ utc_offset self = None ->
     TimeDescriptor_encode self = Raise TypeError) /\
  (forall fuel self,
     audio_count self = None ->
     AudioDescriptor_encode fuel self = Raise TypeError).
Proof.
  repeat split.
  - intros self r self' e H. unfold AvailDescriptor_encode in H.
    bind_inv H. destruct a as [nbin base]. bind_inv H. congruence.
  - intros self r self' e H. unfold DtmfDescriptor_encode in H.
    bind_inv H. destruct a as [nbin base]. do 3 bind_inv H. congruence.
  - intros self r self' e H. unfold TimeDescriptor_encode in H.
    bind_inv H. destruct a as [nbin base]. do 3 bind_inv H. congruence.
  - intros fuel self r self' e H. unfold AudioDescriptor_encode in H.
    bind_inv H. destruct a as [nbin base]. do 2 bind_inv H. congruence.
  - intros bites0 d0 d e _ H. unfold AvailDescriptor_decode in H.
    bind_inv H. bind_inv H. destruct a0 as [[base b] e1].
    bind_inv H. destruct a0 as [v b']. bind_inv H. destruct a0 as [[r self] e2].
    injection H as <- _.
    assert (r = None).
    { unfold AvailDescriptor_encode in E2. bind_inv E2.
      destruct a0 as [nbin base0]. bind_inv E2. congruence. }
    subst r. apply Avail_encode_again in E2. eauto.
  - intros bites0 d0 d e _ H. unfold DtmfDescriptor_decode in H.
    bind_inv H. bind_inv H. destruct a0 as [[base b] e1].
    bind_inv H. destruct a0 as [p b1]. bind_inv H. destruct a0 as [d_c b2].
    bind_inv H. destruct a0 as [chars b3]. bind_inv H. destruct a0 as [[r self] e2].
    injection H as <- _.
    assert (r = None).
    { unfold DtmfDescriptor_encode in E4. bind_inv E4.
      destruct a0 as [nbin base0]. do 3 bind_inv E4. congruence. }
    subst r. apply Dtmf_encode_again in E4. eauto.
  - intros bites0 d0 d e Hinit H. unfold TimeDescriptor_init in Hinit.
    bind_inv Hinit. injection Hinit as <-.
    unfold TimeDescriptor_decode in H. cbn [time_base time_name] in H.
    bind_inv H. bind_inv H. destruct a1 as [[base b] e1].
    destruct (init_parse_id_tag _ _ _ _ _ _ E E0 E1) as (t & l & Ht & Hl).
    bind_inv H. destruct a1 as [s b1]. bind_inv H. destruct a1 as [ns b2].
    bind_inv H. destruct a1 as [off b3]. injection H as <- _.
    unfold TimeDescriptor_encode. cbn [time_base time_name tai_seconds tai_ns utc_offset].
    rewrite (base_encode_run base t l Ht Hl). cbn [bind the]. eauto.
  - intros bites0 d0 d e fuel Hinit H Hcount. unfold AudioDescriptor_init in Hinit.
    bind_inv Hinit. injection Hinit as <-.
    unfold AudioDescriptor_decode in H. cbn [audio_base audio_name audio_components] in H.
    bind_inv H. bind_inv H. destruct a1 as [[base b] e1].
    destruct (init_parse_id_tag _ _ _ _ _ _ E E0 E1) as (t & l & Ht & Hl).
    bind_inv H. destruct a1 as [a_c b1]. bind_inv H. destruct a1 as [comps b2].
    injection H as <- _. cbn [audio_count] in Hcount. injection Hcount as ->.
    unfold AudioDescriptor_encode.
    cbn [audio_base audio_name audio_components audio_count].
    rewrite (base_encode_run base t l Ht Hl). cbn [bind the].
    rewrite Audio_encode_loop_empty. cbn [bind]. eauto.
  - intros self r self' e H. unfold SegmentationDescriptor_encode in H.
    bind_inv H. destruct a as [nbin base]. injection H as <- <- _.
    exists nbin. split; [reflexivity|]. exact E.
  - intros self Hnone. unfold AvailDescriptor_encode.
    destruct (base_encode_cases (avail_base self)) as [(nbin & base & E) | E];
      rewrite E; [|reflexivity].
    cbn [bind provider_avail_id]. rewrite Hnone. reflexivity.
  - intros self Hnone. unfold DtmfDescriptor_encode.
    destruct (base_encode_cases (dtmf_base self)) as [(nbin & base & E) | E];
      rewrite E; [|reflexivity].
    cbn [bind preroll dtmf_count dtmf_chars].
    destruct (preroll self); [|reflexivity]. cbn [the bind].
    destruct (dtmf_count self); [|reflexivity].
    destruct Hnone; discriminate.
  - intros self Hnone. unfold TimeDescriptor_encode.
    destruct (base_encode_cases (time_base self)) as [(nbin & base & E) | E];
      rewrite E; [|reflexivity].
    cbn [bind tai_seconds tai_ns utc_offset].
    destruct (tai_seconds self); [|reflexivity]. cbn [the bind].
    destruct (tai_ns self); [|reflexivity]. cbn [the bind].
    destruct (utc_offset self); [|reflexivity].
    destruct Hnone as [Hnone | [Hnone | Hnone]]; discriminate.
  - intros fuel self Hnone. unfold AudioDescriptor_encode.
    destruct (base_encode_cases (audio_base self)) as [(nbin & base & E) | E];
      rewrite E; [|reflexivity].
    cbn [bind audio_count]. rewrite Hnone. reflexivity.
Qed.

(** *** The writer *)

Lemma lor_shiftl_add (a v n : Z) :
  0 <= n -> 0 <= v < 2 ^ n ->
  Z.lor (Z.shiftl a n) v = a * 2 ^ n + v.
Proof.
  intros Hn Hv.
  rewrite <- Z.lxor_lor, <- Z.add_nocarry_lxor, Z.shiftl_mul_pow2; try lia.
  all: apply Z.bits_inj'; intros i Hi; rewrite Z.land_spec, Z.bits_0.
  all: destruct (Z.lt_ge_cases i n) as [Hlt|Hge].
  all: try (rewrite Z.shiftl_spec_low by lia; reflexivity).
  all: destruct (Z.eq_dec v 0) as [->|Hv0];
    [rewrite Z.bits_0; apply andb_false_r|].
  all: rewrite (Z.bits_above_log2 v i); [apply andb_false_r | lia |].
  all: apply Z.log2_lt_pow2; try lia.
  all: apply Z.lt_le_trans with (2 ^ n); [lia|].
  all: apply Z.pow_le_mono_r; lia.
Qed.

Lemma written_new : written NBin.new [].
Proof. repeat split. constructor. Qed.

(** Writing whole bytes appends them. *)
Lemma written_add_bytes (n : NBin.t) (l f : list Z) :
  written n l -> Forall byte_ok f ->
  written (NBin.add_int (int_from_bytes f) (8 * Z.of_nat (List.length f)) n) (l ++ f).
Proof.
  intros (Hl & Hn & Hi) Hf. unfold written, NBin.add_int. cbn [NBin.nbits NBin.idx].
  split; [apply Forall_app; auto|]. split.
  - rewrite lor_shiftl_add by (try apply int_from_bytes_bound; auto; lia).
    rewrite Hn, int_from_bytes_app. reflexivity.
  - rewrite Hi, length_app. lia.
Qed.

Lemma written_add_byte (n : NBin.t) (l : list Z) (x : Z) :
  written n l -> byte_ok x ->
  written (NBin.add_int x 8 n) (l ++ [x]).
Proof.
  intros Hw Hx.
  apply (written_add_bytes n l [x] Hw). constructor; [assumption|constructor].
Qed.

Lemma written_bites (n : NBin.t) (l : list Z) :
  written n l -> NBin.bites n = l.
Proof.
  intros (Hl & Hn & Hi). unfold NBin.bites. rewrite Hn, Hi.
  replace (Z.to_nat (8 * Z.of_nat (List.length l) / 8)) with (List.length l)
    by (rewrite Z.mul_comm, Z.div_mul by lia; lia).
  apply int_to_bytes_from_bytes. assumption.
Qed.

(** The writer that the inherited encode returns holds the tag, the
    length and "CUEI". *)
Lemma written_base (t l : Z) :
  byte_ok t -> byte_ok l ->
  written (NBin.add_hex "0x43554549" 32 (NBin.add_int l 8 (NBin.add_int t 8 NBin.new)))
    (t :: l :: cuei).
Proof.
  intros Ht Hl.
  pose proof (written_add_byte _ _ t written_new Ht) as H1.
  pose proof (written_add_byte _ _ l H1 Hl) as H2.
  apply (written_add_bytes _ _ cuei) in H2.
  - exact H2.
  - repeat constructor; unfold byte_ok; lia.
Qed.

(** *** Round trips *)

Lemma new_cursor_at (rest : list Z) : BitBin.new rest = cursor_at [] rest.
Proof. unfold cursor_at. cbn. symmetry. apply forward_0. Qed.

(** The identifier of a payload that opens with the four bytes [id]. *)
Lemma parse_id_bytes (base : SpliceDescriptor) (id rest : list Z) :
  List.length id = 4%nat -> Forall byte_ok (id ++ rest) ->
  parse_id base (BitBin.new (id ++ rest))
  = Ok (mkSpliceDescriptor (tag base) (descriptor_length base)
          (Some (decode_utf8 id)) (bites base),
        cursor_at id rest,
        if String.eqb (decode_utf8 id) "CUEI" then [] else [IdentifierWarning]).
Proof.
  intros Hlen Hok. unfold parse_id, BitBin.asdecodedhex.
  rewrite new_cursor_at.
  replace 32 with (8 * Z.of_nat (List.length id)) at 1 by (rewrite Hlen; reflexivity).
  rewrite asint_bytes by assumption. cbn [bind app].
  change (Z.to_nat (32 / 8)) with 4%nat. rewrite <- Hlen.
  rewrite int_to_bytes_from_bytes by (apply Forall_app in Hok; destruct Hok; assumption).
  reflexivity.
Qed.

(** X1, Avail: the decode of a well-formed descriptor shows on stderr, and a
    later encode shows again, the bytes it was given with the identifier
    replaced by "CUEI". *)
Lemma Avail_round_trip (t l : Z) (id pid : list Z) :
  byte_ok t -> byte_ok l ->
  List.length id = 4%nat -> List.length pid = 4%nat ->
  Forall byte_ok (id ++ pid) ->
  exists d0 d e,
    AvailDescriptor_init (Some (avail_wire t l id pid)) = Ok d0 /\
    AvailDescriptor_decode d0
    = Ok (d, e ++ [DescriptorBytes (avail_wire t l cuei pid)]) /\
    AvailDescriptor_encode d
    = Ok (None, d, [DescriptorBytes (avail_wire t l cuei pid)]).
Proof.
  intros Ht Hl Hid Hpid Hok.
  assert (Hpid_ok : Forall byte_ok pid) by (apply Forall_app in Hok; destruct Hok; assumption).
  assert (Hw : NBin.bites
                 (NBin.add_int (int_from_bytes pid) 32
                    (NBin.add_hex "0x43554549" 32
                       (NBin.add_int l 8 (NBin.add_int t 8 NBin.new))))
               = avail_wire t l cuei pid).
  { apply written_bites.
    replace 32 with (8 * Z.of_nat (List.length pid)) at 1 by (rewrite Hpid; reflexivity).
    apply (written_add_bytes _ (t :: l :: cuei) pid); [|assumption].
    apply written_base; assumption. }
  eexists. eexists.
  exists (if String.eqb (decode_utf8 id) "CUEI" then [] else [IdentifierWarning]).
  split; [reflexivity|].
  unfold AvailDescriptor_decode, BitBin_of.
  cbn [avail_base avail_name bites the bind].
  rewrite parse_id_bytes by assumption. cbn [bind].
  replace 32 with (8 * Z.of_nat (List.length pid)) at 1 by (rewrite Hpid; reflexivity).
  rewrite <- (app_nil_r pid) at 2.
  rewrite asint_bytes by (rewrite app_nil_r; assumption).
  cbn [bind]. unfold AvailDescriptor_encode.
  cbn [avail_base avail_name provider_avail_id SpliceDescriptor_encode encode_meta
       encode_id tag descriptor_length the bind bites].
  rewrite Hw. cbn [bind]. split; [reflexivity|].
  cbn [avail_base avail_name provider_avail_id SpliceDescriptor_encode encode_meta
       encode_id tag descriptor_length the bind bites].
  rewrite Hw. reflexivity.
Qed.

(** X2, Time: decode, then encode, shows the bytes given with the identifier
    replaced by "CUEI". *)
Lemma Time_round_trip (t l : Z) (id secs ns off : list Z) :
  byte_ok t -> byte_ok l ->
  List.length id = 4%nat -> List.length secs = 6%nat ->
  List.length ns = 4%nat -> List.length off = 2%nat ->
  Forall byte_ok (id ++ secs ++ ns ++ off) ->
  exists d0 d e d',
    TimeDescriptor_init (Some (time_wire t l id secs ns off)) = Ok d0 /\
    TimeDescriptor_decode d0 = Ok (d, e) /\
    TimeDescriptor_encode d
    = Ok (None, d', [DescriptorBytes (time_wire t l cuei secs ns off)]).
Proof.
  intros Ht Hl Hid Hsecs Hns Hoff Hok.
  assert (Hok' := Hok).
  apply Forall_app in Hok'. destruct Hok' as [Hid_ok Hok1].
  assert (Hok1' := Hok1).
  apply Forall_app in Hok1'. destruct Hok1' as [Hsecs_ok Hok2].
  assert (Hok2' := Hok2).
  apply Forall_app in Hok2'. destruct Hok2' as [Hns_ok Hoff_ok].
  assert (Hw : NBin.bites
                 (NBin.add_int (int_from_bytes off) 16
                    (NBin.add_int (int_from_bytes ns) 32
                       (NBin.add_int (int_from_bytes secs) 48
                          (NBin.add_hex "0x43554549" 32
                             (NBin.add_int l 8 (NBin.add_int t 8 NBin.new))))))
               = time_wire t l cuei secs ns off).
  { apply written_bites.
    replace 16 with (8 * Z.of_nat (List.length off)) by (rewrite Hoff; reflexivity).
    replace 32 with (8 * Z.of_nat (List.length ns)) at 1 by (rewrite Hns; reflexivity).
    replace 48 with (8 * Z.of_nat (List.length secs)) by (rewrite Hsecs; reflexivity).
    unfold time_wire.
    replace (t :: l :: cuei ++ secs ++ ns ++ off)
      with ((((t :: l :: cuei) ++ secs) ++ ns) ++ off)
      by (rewrite <- !app_assoc; reflexivity).
    repeat apply written_add_bytes; try assumption.
    apply written_base; assumption. }
  do 4 eexists.
  split; [reflexivity|].
  unfold TimeDescriptor_decode, BitBin_of.
  cbn [time_base time_name bites the bind].
  rewrite parse_id_bytes by assumption. cbn [bind].
  replace 48 with (8 * Z.of_nat (List.length secs)) by (rewrite Hsecs; reflexivity).
  rewrite asint_bytes by assumption. cbn [bind].
  replace 32 with (8 * Z.of_nat (List.length ns)) at 1 by (rewrite Hns; reflexivity).
  rewrite asint_bytes by assumption. cbn [bind].
  replace 16 with (8 * Z.of_nat (List.length off)) by (rewrite Hoff; reflexivity).
  rewrite <- (app_nil_r off) at 2.
  rewrite asint_bytes by (rewrite app_nil_r; assumption).
  cbn [bind]. split; [reflexivity|].
  unfold TimeDescriptor_encode.
  cbn [time_base time_name tai_seconds tai_ns utc_offset SpliceDescriptor_encode
       encode_meta encode_id tag descriptor_length the bind bites].
  rewrite Hw. reflexivity.
Qed.

(** *** The DTMF round trip *)

(** The [k] leading bits of the byte under the cursor. *)
Lemma asint_high_bits (pre post : list Z) (c k : Z) :
  Forall byte_ok (c :: post) -> 0 <= k <= 8 ->
  BitBin.asint k (cursor_at pre (c :: post))
  = Ok (c / 2 ^ (8 - k), BitBin.forward k (cursor_at pre (c :: post))).
Proof.
  intros Hok Hk. inversion Hok as [|? ? Hc Hpost]; subst. unfold byte_ok in Hc.
  rewrite asint_run by (rewrite cursor_at_idx; cbn [List.length]; lia).
  f_equal. f_equal.
  rewrite cursor_at_bits, cursor_at_idx. cbn [List.length].
  rewrite Z.shiftr_div_pow2 by lia. rewrite Z.land_ones by lia.
  rewrite int_from_bytes_app, int_from_bytes_cons.
  pose proof (int_from_bytes_bound post Hpost) as Bp.
  cbn [List.length].
  set (P := 2 ^ (8 * Z.of_nat (List.length post))) in *.
  assert (HP : 0 < P) by (apply Z.pow_pos_nonneg; lia).
  replace (2 ^ (8 * Z.of_nat (S (List.length post)))) with (256 * P)
    by (unfold P; replace (8 * Z.of_nat (S (List.length post)))
          with (8 + 8 * Z.of_nat (List.length post)) by lia;
        rewrite Z.pow_add_r by lia; reflexivity).
  replace (8 * Z.of_nat (S (List.length post)) - k)
    with ((8 - k) + 8 * Z.of_nat (List.length post)) by lia.
  rewrite Z.pow_add_r by lia. fold P.
  set (D := 2 ^ (8 - k)).
  assert (HD : 0 < D) by (apply Z.pow_pos_nonneg; lia).
  assert (HDk : D * 2 ^ k = 256).
  { unfold D. rewrite <- Z.pow_add_r by lia. replace (8 - k + k) with 8 by lia.
    reflexivity. }
  assert (H2k : 0 < 2 ^ k) by (apply Z.pow_pos_nonneg; lia).
  replace (int_from_bytes pre * (256 * P) + (c * P + int_from_bytes post))
    with ((int_from_bytes pre * 256 + c) * P + int_from_bytes post) by ring.
  rewrite (Z.mul_comm D P), <- Z.div_div by lia.
  rewrite Z.div_add_l by lia. rewrite (Z.div_small (int_from_bytes post)) by lia.
  rewrite Z.add_0_r.
  replace (int_from_bytes pre * 256 + c)
    with (c + (int_from_bytes pre * 2 ^ k) * D)
    by (rewrite <- HDk; ring).
  rewrite Z.div_add by lia.
  rewrite Z.mod_add by lia.
  apply Z.mod_small. split.
  - apply Z.div_pos; lia.
  - apply Z.div_lt_upper_bound; lia.
Qed.

Lemma cursor_at_forward_byte (pre post : list Z) (c k : Z) :
  BitBin.forward (8 - k) (BitBin.forward k (cursor_at pre (c :: post)))
  = cursor_at (pre ++ [c]) post.
Proof.
  rewrite forward_forward. replace (k + (8 - k)) with 8 by lia.
  apply (cursor_at_forward pre [c] post).
Qed.

Lemma ord_chr (c : Z) :
  dtmf_char_ok c -> ord (ascii_of_N (Z.to_N c)) = c.
Proof.
  unfold dtmf_char_ok, ord. intros Hc.
  rewrite N_ascii_embedding by lia. lia.
Qed.

Lemma Dtmf_decode_loop_bytes (chars : list Z) :
  forall pre post acc,
    Forall dtmf_char_ok chars -> Forall byte_ok post ->
    Dtmf_decode_loop (List.length chars) (cursor_at pre (chars ++ post)) acc
    = Ok (acc ++ map (fun c => ascii_of_N (Z.to_N c)) chars,
          cursor_at (pre ++ chars) post).
Proof.
  induction chars as [|c chars IH]; intros pre post acc Hc Hpost.
  - cbn. rewrite !app_nil_r. reflexivity.
  - inversion Hc as [|? ? Hc0 Hcs]; subst.
    assert (Hbytes : Forall byte_ok (chars ++ post)).
    { apply Forall_app. split; [|assumption].
      eapply Forall_impl; [|exact Hcs]. unfold dtmf_char_ok, byte_ok. intros; lia. }
    cbn [List.length Dtmf_decode_loop app].
    rewrite asint_byte
      by (constructor; [unfold dtmf_char_ok, byte_ok in *; lia | assumption]).
    cbn [bind]. unfold i2b_decode.
    replace (c <? 128) with true by (unfold dtmf_char_ok in Hc0; lia).
    cbn [bind]. rewrite IH by assumption.
    rewrite <- !app_assoc. reflexivity.
Qed.

Lemma getitem_app (done : list ascii) (c : ascii) (cs : list ascii) :
  getitem (done ++ c :: cs) (Z.of_nat (List.length done)) = Ok c.
Proof.
  unfold getitem.
  replace (Z.of_nat (List.length done) <? 0) with false
    by (symmetry; apply Z.ltb_ge; apply Nat2Z.is_nonneg).
  rewrite Nat2Z.id, nth_error_app2 by lia. rewrite Nat.sub_diag. reflexivity.
Qed.

Lemma Dtmf_encode_loop_bytes (cs : list Z) :
  forall done nbin l,
    Forall dtmf_char_ok cs -> written nbin l ->
    exists nbin',
      Dtmf_encode_loop (List.length cs) (Z.of_nat (List.length done))
        (done ++ map (fun c => ascii_of_N (Z.to_N c)) cs) nbin = Ok nbin' /\
      written nbin' (l ++ cs).
Proof.
  induction cs as [|c cs IH]; intros done nbin l Hc Hw.
  - exists nbin. cbn [map]. rewrite !app_nil_r. split; [reflexivity|assumption].
  - inversion Hc as [|? ? Hc0 Hcs]; subst.
    cbn [List.length Dtmf_encode_loop map].
    rewrite getitem_app. cbn [bind]. rewrite ord_chr by assumption.
    destruct (IH (done ++ [ascii_of_N (Z.to_N c)]) (NBin.add_int c 8 nbin) (l ++ [c]))
      as (nbin' & Hrun & Hw').
    + assumption.
    + apply written_add_byte; [assumption|].
      unfold dtmf_char_ok, byte_ok in *. lia.
    + exists nbin'. rewrite length_app, <- app_assoc in Hrun. cbn [List.length app] in Hrun.
      replace (Z.of_nat (List.length done) + 1)
        with (Z.of_nat (List.length done + 1)) by lia.
      rewrite <- app_assoc in Hw'. split; assumption.
Qed.

(** dtmf_count on 3 bits, then 5 zero bits: one byte. *)
Lemma written_count_byte (nbin : NBin.t) (l : list Z) (n : Z) :
  written nbin l -> 0 <= n < 8 ->
  written (NBin.forward 5 (NBin.add_int n 3 nbin)) (l ++ [n * 32]).
Proof.
  intros (Hl & Hn & Hi) Hrange. unfold written, NBin.forward, NBin.add_int.
  cbn [NBin.nbits NBin.idx].
  split; [apply Forall_app; split; [assumption|]; repeat constructor; unfold byte_ok; lia|].
  split.
  - rewrite lor_shiftl_add by (change (2 ^ 3) with 8; lia).
    rewrite Z.shiftl_mul_pow2 by lia. rewrite Hn, int_from_bytes_app.
    cbn [List.length]. change (int_from_bytes [n * 32]) with (0 * 256 + n * 32).
    change (2 ^ (8 * Z.of_nat 1)) with 256. change (2 ^ 3) with 8.
    change (2 ^ 5) with 32. ring.
  - rewrite Hi, length_app. cbn [List.length]. lia.
Qed.

(** X3, DTMF: the decode of a well-formed descriptor shows on stderr, and a
    later encode shows again, the bytes it was given with the identifier
    replaced by "CUEI". *)
Lemma Dtmf_round_trip (t l : Z) (id : list Z) (pre_roll : Z) (chars : list Z) :
  byte_ok t -> byte_ok l -> byte_ok pre_roll ->
  List.length id = 4%nat -> Forall byte_ok id ->
  (List.length chars <= 7)%nat -> Forall dtmf_char_ok chars ->
  exists d0 d e,
    DtmfDescriptor_init (Some (dtmf_wire t l id pre_roll chars)) = Ok d0 /\
    DtmfDescriptor_decode d0
    = Ok (d, e ++ [DescriptorBytes (dtmf_wire t l cuei pre_roll chars)]) /\
    DtmfDescriptor_encode d
    = Ok (None, d, [DescriptorBytes (dtmf_wire t l cuei pre_roll chars)]).
Proof.
  intros Ht Hl Hp Hid Hid_ok Hlen Hchars.
  set (n := Z.of_nat (List.length chars)).
  assert (Hn : 0 <= n < 8) by (unfold n; lia).
  assert (Hchars_ok : Forall byte_ok chars).
  { eapply Forall_impl; [|exact Hchars]. unfold dtmf_char_ok, byte_ok. intros; lia. }
  assert (Hrest : Forall byte_ok (pre_roll :: n * 32 :: chars)).
  { constructor; [assumption|]. constructor; [unfold byte_ok; lia | assumption]. }
  destruct (Dtmf_encode_loop_bytes chars []
              (NBin.forward 5
                 (NBin.add_int n 3
                    (NBin.add_int pre_roll 8
                       (NBin.add_hex "0x43554549" 32
                          (NBin.add_int l 8 (NBin.add_int t 8 NBin.new))))))
              (((t :: l :: cuei) ++ [pre_roll]) ++ [n * 32]))
    as (nbin' & Hloop & Hw); [assumption | |].
  { apply written_count_byte; [|assumption].
    apply written_add_byte; [|assumption]. apply written_base; assumption. }
  apply written_bites in Hw.
  replace ((((t :: l :: cuei) ++ [pre_roll]) ++ [n * 32]) ++ chars)
    with (dtmf_wire t l cuei pre_roll chars) in Hw
    by (unfold dtmf_wire; rewrite <- !app_assoc; reflexivity).
  cbn [List.length app] in Hloop. change (Z.of_nat 0) with 0 in Hloop.
  assert (Henc : forall idt,
             DtmfDescriptor_encode
               (mkDtmfDescriptor
                  (mkSpliceDescriptor (Some t) (Some l) idt
                     (Some (id ++ pre_roll :: n * 32 :: chars)))
                  "DTMF Descriptor" (Some pre_roll) (Some n)
                  (map (fun c => ascii_of_N (Z.to_N c)) chars))
             = Ok (None,
                   mkDtmfDescriptor
                     (mkSpliceDescriptor (Some t) (Some l) (Some "0x43554549"%string)
                        (Some (id ++ pre_roll :: n * 32 :: chars)))
                     "DTMF Descriptor" (Some pre_roll) (Some n)
                     (map (fun c => ascii_of_N (Z.to_N c)) chars),
                   [DescriptorBytes (dtmf_wire t l cuei pre_roll chars)])).
  { intros idt. unfold DtmfDescriptor_encode.
    cbn [dtmf_base dtmf_name preroll dtmf_count dtmf_chars SpliceDescriptor_encode
         encode_meta encode_id tag descriptor_length the bind bites].
    replace (Z.to_nat (n - 0)) with (List.length chars) by (unfold n; lia).
    rewrite Hloop. cbn [bind]. rewrite Hw. reflexivity. }
  eexists. eexists.
  exists (if String.eqb (decode_utf8 id) "CUEI" then [] else [IdentifierWarning]).
  split; [reflexivity|].
  unfold DtmfDescriptor_decode, BitBin_of.
  cbn [dtmf_base dtmf_name dtmf_chars bites the bind].
  fold n.
  rewrite parse_id_bytes
    by (try assumption; apply Forall_app; split; assumption).
  cbn [bind].
  rewrite asint_byte by assumption. cbn [bind].
  rewrite asint_high_bits
    by (try lia; inversion Hrest; assumption).
  cbn [bind]. change (2 ^ (8 - 3)) with 32.
  rewrite Z.div_mul by lia.
  change 5 with (8 - 3) at 1. rewrite cursor_at_forward_byte.
  replace (Z.to_nat n) with (List.length chars) by (unfold n; lia).
  rewrite <- (app_nil_r chars) at 2.
  rewrite Dtmf_decode_loop_bytes by (try assumption; constructor).
  cbn [bind app]. rewrite Henc. cbn [bind].
  split; [reflexivity|]. apply Henc.
Qed.

(** *** The fuel of the segmentation decode *)

(** With the fuel that _set_segmentation gives it, the UPID dispatch
    returns or fails as a read fails: the fuel is never what stops it. *)
Lemma set_segmentation_upid_returns (bitbin : BitBin.t) (ty len : Z) :
  returns_or_underruns bitbin
    (_set_segmentation_upid (mid_fuel bitbin) bitbin ty len).
Proof.
  unfold _set_segmentation_upid. apply dispatch_returns. intros len'.
  unfold _mid, mid_body.
  destruct (mid_loop_ends (mid_fuel bitbin) bitbin (Z.shiftl len' 3) [])
    as [(u & b' & E & Hle) | E].
  - unfold mid_fuel. lia.
  - rewrite E. cbn [bind]. left. exists (UList u), b'. split; [reflexivity|assumption].
  - rewrite E. right. reflexivity.
Qed.

Lemma bind_in_time {A B : Type} (m : outcome A) (k : A -> outcome B) :
  m <> OutOfFuel -> (forall a, k a <> OutOfFuel) -> bind m k <> OutOfFuel.
Proof. destruct m; simpl; auto; discriminate. Qed.

Lemma asint_in_time (n : Z) (b : BitBin.t) : BitBin.asint n b <> OutOfFuel.
Proof. destruct (asint_cases n b) as [(v & E & _) | E]; rewrite E; discriminate. Qed.

(** Solves [r <> OutOfFuel] for a call made of reads, tests and returns. *)
Ltac in_time :=
  repeat first
    [ discriminate
    | apply asint_in_time
    | apply bind_in_time; [ | intro ]
    | match goal with
      | |- context [match ?p with pair _ _ => _ end] => is_var p; destruct p
      | |- (if ?c then _ else _) <> OutOfFuel => destruct c
      | |- match ?o with Some _ => _ | None => _ end <> OutOfFuel => destruct o
      end ].

Lemma set_components_loop_in_time (c_c : nat) :
  forall bitbin comps, set_components_loop c_c bitbin comps <> OutOfFuel.
Proof.
  induction c_c as [|c_c IH]; intros bitbin comps; cbn [set_components_loop].
  - discriminate.
  - unfold BitBin.as90k. in_time. apply IH.
Qed.

(** The decode of a segmentation descriptor is never cut off by the
    fuel: it returns or raises. *)
Lemma decode_body_in_time (self : SegmentationDescriptor) :
  SegmentationDescriptor_decode_body self <> OutOfFuel.
Proof.
  unfold SegmentationDescriptor_decode_body, BitBin_of, parse_id, the,
    BitBin.asdecodedhex, BitBin.ashex, BitBin.asflag.
  apply bind_in_time; [in_time | intros bitbin].
  apply bind_in_time; [in_time | intros [[base b1] e1]].
  apply bind_in_time; [in_time | intros [eid b2]].
  apply bind_in_time; [in_time | intros [cancel b3]].
  destruct (negb cancel); [|discriminate].
  apply bind_in_time; [ | intros [self1 b4] ].
  { unfold _set_flags, BitBin.asflag. in_time. }
  apply bind_in_time; [ | intros [self2 b5] ].
  { destruct (negb _); [|discriminate].
    unfold _set_components. in_time. apply set_components_loop_in_time. }
  apply bind_in_time; [ | intros [self3 b6]; discriminate ].
  unfold _set_segmentation, BitBin.as90k.
  apply bind_in_time; [in_time | intros [self2' b5']].
  apply bind_in_time; [in_time | intros [ty b7]].
  apply bind_in_time; [in_time | intros [len b8]].
  apply bind_in_time; [ | intros [upid b9] ].
  { destruct (set_segmentation_upid_returns b8 ty len) as [(v & b' & E & _) | E];
      rewrite E; discriminate. }
  apply bind_in_time; [in_time | intros [tid b10]].
  destruct (table22 tid); [|discriminate].
  unfold _set_segments. in_time.
Qed.

(** ** Further properties of the descriptors *)

(** X4: an Avail descriptor decodes exactly when its payload has at least
    8 bytes (4 of identifier, 4 of provider_avail_id; what follows is
    ignored), a Time descriptor when it has at least 16; a shorter
    payload makes the decode fail with BufferUnderrun.  The fields read
    are within their widths and the tag and the length are the first two
    bytes of the slice. *)
Theorem X4_avail_time_decode_length :
  (forall t l payload d0,
     AvailDescriptor_init (Some (t :: l :: payload)) = Ok d0 ->
     ((8 <= List.length payload)%nat ->
      exists d e v,
        AvailDescriptor_decode d0 = Ok (d, e) /\
        provider_avail_id d = Some v /\ 0 <= v < 2 ^ 32 /\
        tag (avail_base d) = Some t /\ descriptor_length (avail_base d) = Some l) /\
     ((List.length payload < 8)%nat ->
      AvailDescriptor_decode d0 = Raise BufferUnderrun)) /\
  (forall t l payload d0,
     TimeDescriptor_init (Some (t :: l :: payload)) = Ok d0 ->
     ((16 <= List.length payload)%nat ->
      exists d e s ns off,
        TimeDescriptor_decode d0 = Ok (d, e) /\
        tai_seconds d = Some s /\ 0 <= s < 2 ^ 48 /\
        tai_ns d = Some ns /\ 0 <= ns < 2 ^ 32 /\
        utc_offset d = Some off /\ 0 <= off < 2 ^ 16 /\
        tag (time_base d) = Some t /\ descriptor_length (time_base d) = Some l) /\
     ((List.length payload < 16)%nat ->
      TimeDescriptor_decode d0 = Raise BufferUnderrun)).
Proof.
  split.
  - intros t l payload d0 Hinit. injection Hinit as <-.
    unfold AvailDescriptor_decode, BitBin_of, parse_id, BitBin.asdecodedhex.
    cbn [avail_base avail_name bites the bind]. split.
    + intros Hlen.
      destruct (BitBin.asint 32 (BitBin.new payload)) as [[v1 b1]| |] eqn:E1.
      2,3: rewrite asint_run in E1 by (rewrite new_idx_bytes; lia); discriminate.
      cbn [bind].
      destruct (BitBin.asint 32 b1) as [[v2 b2]| |] eqn:E2.
      2,3: apply asint_inv_cursor in E1; destruct E1 as (_ & ->);
        rewrite asint_run in E2 by (rewrite forward_idx, new_idx_bytes; lia);
        discriminate.
      cbn [bind]. unfold AvailDescriptor_encode.
      cbn [avail_base avail_name provider_avail_id SpliceDescriptor_encode
           encode_meta encode_id tag descriptor_length the bind bites].
      do 2 eexists. exists v2. split; [reflexivity|].
      cbn [provider_avail_id avail_base tag descriptor_length].
      repeat split; try reflexivity; apply (asint_range 32 v2 b1 b2 E2).
    + intros Hlen.
      destruct (BitBin.asint 32 (BitBin.new payload)) as [[v1 b1]| |] eqn:E1.
      * cbn [bind]. apply asint_inv_cursor in E1. destruct E1 as (_ & ->).
        rewrite asint_fail by (rewrite forward_idx, new_idx_bytes; lia).
        reflexivity.
      * destruct (asint_cases 32 (BitBin.new payload)) as [(v & E & _) | E];
          rewrite E in E1; [discriminate|]. injection E1 as <-. reflexivity.
      * exfalso. apply (asint_in_time 32 (BitBin.new payload)). assumption.
  - intros t l payload d0 Hinit. injection Hinit as <-.
    unfold TimeDescriptor_decode, BitBin_of, parse_id, BitBin.asdecodedhex.
    cbn [time_base time_name bites the bind]. split.
    + intros Hlen.
      rewrite asint_run by (rewrite new_idx_bytes; lia). cbn [bind].
      destruct (BitBin.asint 48 (BitBin.forward 32 (BitBin.new payload)))
        as [[s b1]| |] eqn:E1.
      2,3: rewrite asint_run in E1 by (rewrite forward_idx, new_idx_bytes; lia);
        discriminate.
      cbn [bind].
      assert (Hb1 := E1). apply asint_inv_cursor in Hb1. destruct Hb1 as (_ & Hb1).
      destruct (BitBin.asint 32 b1) as [[ns b2]| |] eqn:E2.
      2,3: subst b1;
        rewrite asint_run in E2 by (rewrite !forward_idx, new_idx_bytes; lia);
        discriminate.
      cbn [bind].
      assert (Hb2 := E2). apply asint_inv_cursor in Hb2. destruct Hb2 as (_ & Hb2).
      destruct (BitBin.asint 16 b2) as [[off b3]| |] eqn:E3.
      2,3: subst b2 b1;
        rewrite asint_run in E3 by (rewrite !forward_idx, new_idx_bytes; lia);
        discriminate.
      cbn [bind]. do 2 eexists. exists s, ns, off. split; [reflexivity|].
      cbn [tai_seconds tai_ns utc_offset time_base tag descriptor_length].
      pose proof (asint_range 48 s _ _ E1).
      pose proof (asint_range 32 ns _ _ E2).
      pose proof (asint_range 16 off _ _ E3).
      repeat split; try reflexivity; lia.
    + intros Hlen.
      destruct (asint_cases 32 (BitBin.new payload)) as [(v & E & _) | E];
        rewrite E; [|reflexivity].
      cbn [bind].
      destruct (asint_cases 48 (BitBin.forward 32 (BitBin.new payload)))
        as [(s & E1 & _) | E1]; rewrite E1; [|reflexivity].
      cbn [bind].
      destruct (asint_cases 32 (BitBin.forward 48 (BitBin.forward 32 (BitBin.new payload))))
        as [(ns & E2 & _) | E2]; rewrite E2; [|reflexivity].
      cbn [bind].
      rewrite asint_fail by (rewrite !forward_idx, new_idx_bytes; lia).
      reflexivity.
Qed.

(** X5: a slice with a known tag and no payload byte fails with
    BufferUnderrun on the read of the identifier, a slice of one byte
    with IndexError on the read of the length, and the empty slice with
    IndexError on the read of the tag: none of them yields a descriptor. *)
Theorem X5_short_slices (t l : Z) :
  0 <= t <= 4 ->
  splice_descriptor [t; l] = Raise BufferUnderrun /\
  splice_descriptor [t] = Raise IndexError /\
  splice_descriptor [] = Raise IndexError.
Proof.
  intros Ht.
  assert (Hcases : t = 0 \/ t = 1 \/ t = 2 \/ t = 3 \/ t = 4) by lia.
  destruct Hcases as [-> | [-> | [-> | [-> | ->]]]];
    (split; [reflexivity | split; reflexivity]).
Qed.

Lemma BitBin_of_inv (self : SpliceDescriptor) (bitbin : BitBin.t) :
  BitBin_of self = Ok bitbin ->
  exists payload, bites self = Some payload /\ bitbin = BitBin.new payload.
Proof.
  unfold BitBin_of, the. destruct (bites self) as [payload|]; [|discriminate].
  cbn [bind]. intros H. exists payload. split; [reflexivity | congruence].
Qed.

(** X6: the decode never fails on the identifier: it warns on stderr
    exactly when the text read differs from "CUEI".  After the decode of
    a Time, Audio or Segmentation descriptor the identifier attribute
    holds the text read, that is what the cursor's decoded read of 32
    bits gives at the start of the payload; after the decode of an Avail
    or DTMF descriptor, which ends with a call of encode, it holds
    "0x43554549". *)
Theorem X6_identifier_after_decode :
  (forall d0 d e,
     AvailDescriptor_decode d0 = Ok (d, e) ->
     identifier (avail_base d) = Some "0x43554549"%string) /\
  (forall d0 d e,
     DtmfDescriptor_decode d0 = Ok (d, e) ->
     identifier (dtmf_base d) = Some "0x43554549"%string) /\
  (forall d0 d e,
     TimeDescriptor_decode d0 = Ok (d, e) ->
     exists payload s bitbin',
       bites (time_base d0) = Some payload /\
       BitBin.asdecodedhex decode_utf8 32 (BitBin.new payload) = Ok (s, bitbin') /\
       identifier (time_base d) = Some s /\
       e = if String.eqb s "CUEI" then [] else [IdentifierWarning]) /\
  (forall d0 d e,
     AudioDescriptor_decode d0 = Ok (d, e) ->
     exists payload s bitbin',
       bites (audio_base d0) = Some payload /\
       BitBin.asdecodedhex decode_utf8 32 (BitBin.new payload) = Ok (s, bitbin') /\
       identifier (audio_base d) = Some s /\
       e = if String.eqb s "CUEI" then [] else [IdentifierWarning]) /\
  (forall d0 d e,
     SegmentationDescriptor_decode d0 = Ok (d, e) ->
     exists payload s bitbin',
       bites (seg_base d0) = Some payload /\
       BitBin.asdecodedhex decode_utf8 32 (BitBin.new payload) = Ok (s, bitbin') /\
       identifier (seg_base d) = Some s /\
       e = if String.eqb s "CUEI" then [] else [IdentifierWarning]).
Proof.
  repeat split.
  - intros d0 d e H. unfold AvailDescriptor_decode in H.
    bind_as H bb Ebb. bind_as H x Eid. destruct x as [[base b] e1].
    bind_as H x Ev. destruct x as [v b']. bind_as H x Eenc.
    destruct x as [[r self] e2]. injection H as <- _.
    unfold AvailDescriptor_encode in Eenc.
    bind_as Eenc x Ebase. destruct x as [nbin base0]. apply base_encode_inv in Ebase.
    destruct Ebase as (-> & _). bind_as Eenc x Ep. injection Eenc as _ <- _.
    reflexivity.
  - intros d0 d e H. unfold DtmfDescriptor_decode in H.
    bind_as H bb Ebb. bind_as H x Eid. destruct x as [[base b] e1].
    bind_as H x Ep. destruct x as [p b1]. bind_as H x Ec. destruct x as [d_c b2].
    bind_as H x El. destruct x as [chars b3]. bind_as H x Eenc.
    destruct x as [[r self] e2]. injection H as <- _.
    unfold DtmfDescriptor_encode in Eenc.
    bind_as Eenc x Ebase. destruct x as [nbin base0]. apply base_encode_inv in Ebase.
    destruct Ebase as (-> & _).
    bind_as Eenc x E1. bind_as Eenc y E2. bind_as Eenc z E3.
    injection Eenc as _ <- _. reflexivity.
  - intros d0 d e H. unfold TimeDescriptor_decode, parse_id in H.
    bind_as H bb Ebb. apply BitBin_of_inv in Ebb. destruct Ebb as (payload & Hp & ->).
    bind_as H x Eid. destruct x as [[base b] e1].
    bind_as Eid y Es. destruct y as [s b0]. injection Eid as <- _ <-.
    bind_as H x E1. destruct x as [x1 b1]. bind_as H x E2. destruct x as [x2 b2].
    bind_as H x E3. destruct x as [x3 b3]. injection H as <- <-.
    exists payload, s, b0. repeat split; assumption || reflexivity.
  - intros d0 d e H. unfold AudioDescriptor_decode, parse_id in H.
    bind_as H bb Ebb. apply BitBin_of_inv in Ebb. destruct Ebb as (payload & Hp & ->).
    bind_as H x Eid. destruct x as [[base b] e1].
    bind_as Eid y Es. destruct y as [s b0]. injection Eid as <- _ <-.
    bind_as H x E1. destruct x as [x1 b1]. bind_as H x E2. destruct x as [x2 b2].
    injection H as <- <-. exists payload, s, b0.
    repeat split; assumption || reflexivity.
  - intros d0 d e H. unfold SegmentationDescriptor_decode in H.
    bind_as H x Ebody. destruct x as [[self b] e0]. injection H as -> ->.
    unfold SegmentationDescriptor_decode_body, parse_id in Ebody.
    bind_as Ebody bb Ebb. apply BitBin_of_inv in Ebb. destruct Ebb as (payload & Hp & ->).
    bind_as Ebody x Eid. destruct x as [[base b0] e1].
    bind_as Eid y Es. destruct y as [s b1]. injection Eid as <- _ <-.
    bind_as Ebody x Eeid. destruct x as [eid b2].
    bind_as Ebody x Ec. destruct x as [cancel b3].
    exists payload, s, b1. split; [assumption|]. split; [assumption|].
    destruct cancel; cbn [negb] in Ebody.
    + injection Ebody as <- _ <-. split; reflexivity.
    + bind_as Ebody x E1. destruct x as [self1 c1].
      bind_as Ebody x E2. destruct x as [self2 c2].
      bind_as Ebody x E3. destruct x as [self3 c3].
      injection Ebody as <- _ <-. split; [|reflexivity].
      apply set_flags_frame in E1. apply set_segmentation_frame in E3.
      assert (seg_base self2 = seg_base self1).
      { destruct (negb _).
        - apply set_components_frame in E2. split_ands. assumption.
        - injection E2 as <- _. reflexivity. }
      split_ands. unfold with_event, with_seg_base in *. cbn [seg_base] in *.
      assert (Hbase : seg_base self3
                      = mkSpliceDescriptor (tag (seg_base d0))
                          (descriptor_length (seg_base d0)) (Some s)
                          (bites (seg_base d0))) by congruence.
      rewrite Hbase. reflexivity.
Qed.

(** *** DTMF and audio descriptors *)

Lemma Dtmf_decode_loop_bad (good : list Z) :
  forall n pre bad rest acc,
    Forall dtmf_char_ok good -> 128 <= bad < 256 -> Forall byte_ok rest ->
    (List.length good < n)%nat ->
    Dtmf_decode_loop n (cursor_at pre (good ++ bad :: rest)) acc
    = Raise UnicodeDecodeError.
Proof.
  induction good as [|c good IH]; intros n pre bad rest acc Hgood Hbad Hrest Hn.
  - destruct n as [|n]; [cbn in Hn; lia|].
    cbn [app Dtmf_decode_loop].
    rewrite asint_byte by (constructor; [unfold byte_ok; lia | assumption]).
    cbn [bind]. unfold i2b_decode. replace (bad <? 128) with false by lia.
    reflexivity.
  - destruct n as [|n]; [cbn in Hn; lia|].
    inversion Hgood as [|? ? Hc Hgood']; subst.
    cbn [app Dtmf_decode_loop].
    rewrite asint_byte.
    + cbn [bind]. unfold i2b_decode.
      replace (c <? 128) with true by (unfold dtmf_char_ok in Hc; lia).
      cbn [bind]. apply IH; try assumption. cbn [List.length] in Hn. lia.
    + constructor; [unfold dtmf_char_ok, byte_ok in *; lia|].
      apply Forall_app. split.
      * eapply Forall_impl; [|exact Hgood']. unfold dtmf_char_ok, byte_ok. intros; lia.
      * constructor; [unfold byte_ok; lia | assumption].
Qed.

(** X7: a DTMF descriptor one of whose characters is a byte from 0x80 on
    does not decode: the decode raises UnicodeDecodeError at that
    character. *)
Theorem X7_dtmf_non_ascii (t l : Z) (id : list Z) (pre_roll : Z)
    (good rest : list Z) (bad : Z) (d0 : DtmfDescriptor) :
  byte_ok pre_roll ->
  List.length id = 4%nat -> Forall byte_ok id ->
  Forall dtmf_char_ok good -> 128 <= bad < 256 -> Forall byte_ok rest ->
  (List.length (good ++ bad :: rest) <= 7)%nat ->
  DtmfDescriptor_init (Some (dtmf_wire t l id pre_roll (good ++ bad :: rest))) = Ok d0 ->
  DtmfDescriptor_decode d0 = Raise UnicodeDecodeError.
Proof.
  intros Hp Hid Hid_ok Hgood Hbad Hrest Hlen Hinit.
  unfold dtmf_wire in Hinit. injection Hinit as <-.
  set (chars := good ++ bad :: rest) in *.
  set (n := Z.of_nat (List.length chars)).
  assert (Hn : 0 <= n < 8) by (unfold n; lia).
  assert (Hchars : Forall byte_ok chars).
  { unfold chars. apply Forall_app. split.
    - eapply Forall_impl; [|exact Hgood]. unfold dtmf_char_ok, byte_ok. intros; lia.
    - constructor; [unfold byte_ok; lia | assumption]. }
  assert (Hrest' : Forall byte_ok (pre_roll :: n * 32 :: chars)).
  { constructor; [assumption|]. constructor; [unfold byte_ok; lia | assumption]. }
  unfold DtmfDescriptor_decode, BitBin_of.
  cbn [dtmf_base dtmf_name dtmf_chars bites the bind].
  fold n.
  rewrite parse_id_bytes
    by (try assumption; apply Forall_app; split; assumption).
  cbn [bind].
  rewrite asint_byte by assumption. cbn [bind].
  rewrite asint_high_bits by (try lia; inversion Hrest'; assumption).
  cbn [bind]. change (2 ^ (8 - 3)) with 32.
  rewrite Z.div_mul by lia.
  change 5 with (8 - 3) at 1. rewrite cursor_at_forward_byte.
  unfold chars.
  rewrite Dtmf_decode_loop_bad; try assumption; [reflexivity|].
  unfold n, chars. rewrite Nat2Z.id, length_app. cbn [List.length]. lia.
Qed.

Lemma Dtmf_decode_loop_inv (n : nat) :
  forall bitbin acc chars bitbin',
    Dtmf_decode_loop n bitbin acc = Ok (chars, bitbin') ->
    List.length chars = (List.length acc + n)%nat /\
    (Forall (fun c => ord c < 128) acc -> Forall (fun c => ord c < 128) chars).
Proof.
  induction n as [|n IH]; intros bitbin acc chars bitbin' H.
  - cbn in H. injection H as <- _. split; [lia | auto].
  - cbn [Dtmf_decode_loop] in H.
    bind_as H x Ev. destruct x as [v b1]. bind_as H c Ec.
    apply IH in H. destruct H as (Hlen & Hall).
    rewrite length_app in Hlen. cbn [List.length] in Hlen. split; [lia|].
    intros Hacc. apply Hall. apply Forall_app. split; [assumption|].
    constructor; [|constructor].
    unfold i2b_decode in Ec. destruct (v <? 128) eqn:Hv; [|discriminate].
    injection Ec as <-. apply asint_range in Ev.
    unfold ord. rewrite N_ascii_embedding by lia. lia.
Qed.

(** X8: after the decode of a freshly built DTMF descriptor, preroll is
    a byte, dtmf_count is at most 7, dtmf_chars holds exactly dtmf_count
    characters and each of them is ASCII. *)
Theorem X8_dtmf_decode_invariant (bites0 : option (list Z))
    (d0 d : DtmfDescriptor) (e : list stderr_line) :
  DtmfDescriptor_init bites0 = Ok d0 ->
  DtmfDescriptor_decode d0 = Ok (d, e) ->
  exists p n,
    preroll d = Some p /\ 0 <= p <= 255 /\
    dtmf_count d = Some n /\ 0 <= n <= 7 /\
    Z.of_nat (List.length (dtmf_chars d)) = n /\
    Forall (fun c => ord c < 128) (dtmf_chars d).
Proof.
  intros Hinit H. unfold DtmfDescriptor_init in Hinit.
  bind_as Hinit base0 Eb. injection Hinit as <-.
  unfold DtmfDescriptor_decode in H. cbn [dtmf_base dtmf_name dtmf_chars] in H.
  bind_as H bb Ebb. bind_as H x Eid. destruct x as [[base b] e1].
  bind_as H x Ep. destruct x as [p b1]. bind_as H x Ec. destruct x as [n b2].
  bind_as H x El. destruct x as [chars b3]. bind_as H x Eenc.
  destruct x as [[r self] e2]. injection H as <- _.
  unfold DtmfDescriptor_encode in Eenc.
  bind_as Eenc x Ebase. destruct x as [nbin base1].
  bind_as Eenc x E1. bind_as Eenc y E2. bind_as Eenc z E3.
  injection Eenc as _ <- _.
  cbn [preroll dtmf_count dtmf_chars].
  apply asint_range in Ep. apply asint_range in Ec.
  apply Dtmf_decode_loop_inv in El. destruct El as (Hlen & Hall).
  exists p, n. change (2 ^ 8) with 256 in Ep. change (2 ^ 3) with 8 in Ec.
  repeat split; try lia.
  - cbn [List.length] in Hlen. lia.
  - apply Hall. constructor.
Qed.

Lemma Audio_decode_loop_inv (n : nat) :
  forall bitbin acc comps bitbin',
    Audio_decode_loop n bitbin acc = Ok (comps, bitbin') ->
    bitbin' = BitBin.forward (40 * Z.of_nat n) bitbin /\
    (Forall audio_comp_ok acc -> Forall audio_comp_ok comps) /\
    exists new,
      comps = acc ++ new /\ List.length new = n /\
      forall acc2, Audio_decode_loop n bitbin acc2 = Ok (acc2 ++ new, bitbin').
Proof.
  induction n as [|n IH]; intros bitbin acc comps bitbin' H.
  - cbn in H. injection H as <- <-. split; [symmetry; apply forward_0|].
    split; [auto|]. exists []. rewrite app_nil_r. split; [reflexivity|].
    split; [reflexivity|]. intros acc2. cbn. rewrite app_nil_r. reflexivity.
  - cbn [Audio_decode_loop] in H.
    bind_as H x E1. destruct x as [ct b1]. bind_as H x E2. destruct x as [iso b2].
    bind_as H x E3. destruct x as [bsm b3]. bind_as H x E4. destruct x as [nch b4].
    bind_as H x E5. destruct x as [fsa b5].
    apply IH in H. destruct H as (Hb & Hall & new & Hcomps & Hlen & Hrun).
    pose proof (asint_range _ _ _ _ E1). pose proof (asint_range _ _ _ _ E2).
    pose proof (asint_range _ _ _ _ E3). pose proof (asint_range _ _ _ _ E4).
    assert (Hb5 : b5 = BitBin.forward 40 bitbin).
    { apply asint_inv_cursor in E1, E2, E3, E4. apply asflag_inv in E5.
      destruct E1 as (_ & ->), E2 as (_ & ->), E3 as (_ & ->), E4 as (_ & ->),
               E5 as (_ & ->).
      rewrite !forward_forward. reflexivity. }
    split; [|split].
    + rewrite Hb, Hb5, forward_forward. f_equal. lia.
    + intros Hacc. apply Hall. apply Forall_app. split; [assumption|].
      constructor; [|constructor]. unfold audio_comp_ok.
      cbn [audio_component_tag ISO_code bit_stream_mode num_channels]. auto.
    + exists (mkAudioComp ct iso bsm nch fsa :: new).
      split; [rewrite Hcomps, <- app_assoc; reflexivity|].
      split; [cbn [List.length]; lia|].
      intros acc2. cbn [Audio_decode_loop].
      rewrite E1. cbn [bind]. rewrite E2. cbn [bind]. rewrite E3. cbn [bind].
      rewrite E4. cbn [bind]. rewrite E5. cbn [bind].
      rewrite Hrun, <- app_assoc. reflexivity.
Qed.

(** X9: after the decode of a freshly built audio descriptor,
    audio_count is at most 15, components holds exactly audio_count
    entries, and the fields of each entry are within their widths (8, 24,
    3 and 4 bits). *)
Theorem X9_audio_decode_invariant (bites0 : option (list Z))
    (d0 d : AudioDescriptor) (e : list stderr_line) :
  AudioDescriptor_init bites0 = Ok d0 ->
  AudioDescriptor_decode d0 = Ok (d, e) ->
  exists n,
    audio_count d = Some n /\ 0 <= n <= 15 /\
    Z.of_nat (List.length (audio_components d)) = n /\
    Forall audio_comp_ok (audio_components d).
Proof.
  intros Hinit H. unfold AudioDescriptor_init in Hinit.
  bind_as Hinit base0 Eb. injection Hinit as <-.
  unfold AudioDescriptor_decode in H. cbn [audio_base audio_name audio_components] in H.
  bind_as H bb Ebb. bind_as H x Eid. destruct x as [[base b] e1].
  bind_as H x Ec. destruct x as [n b1]. bind_as H x El. destruct x as [comps b2].
  injection H as <- _. cbn [audio_count audio_components].
  apply asint_range in Ec. change (2 ^ 4) with 16 in Ec.
  apply Audio_decode_loop_inv in El.
  destruct El as (_ & Hall & new & -> & Hlen & _).
  exists n. cbn [app]. repeat split; try lia.
  apply Hall. constructor.
Qed.

(** X10: the decode does not reset the components: a second decode of an
    audio descriptor reads the same entries and appends them again, so
    that components holds them twice while audio_count is unchanged. *)
Theorem X10_audio_decode_twice (d0 d : AudioDescriptor) (e : list stderr_line) :
  AudioDescriptor_decode d0 = Ok (d, e) ->
  exists new,
    audio_components d = audio_components d0 ++ new /\
    AudioDescriptor_decode d
    = Ok (mkAudioDescriptor (audio_base d) (audio_name d)
            (audio_components d ++ new) (audio_count d), e).
Proof.
  intros H. unfold AudioDescriptor_decode, BitBin_of, parse_id in H.
  bind_as H bb Ebb. bind_as Ebb bs Ebs. injection Ebb as <-.
  bind_as H x Eid. destruct x as [[base b] e1].
  bind_as Eid y Es. destruct y as [s b0]. injection Eid as <- <- <-.
  bind_as H x Ec. destruct x as [n b1]. bind_as H x El. destruct x as [comps b2].
  injection H as <- <-.
  apply Audio_decode_loop_inv in El.
  destruct El as (_ & _ & new & -> & _ & Hrun).
  exists new. split; [reflexivity|].
  unfold AudioDescriptor_decode, BitBin_of, parse_id.
  cbn [audio_base audio_name audio_components audio_count bites tag descriptor_length].
  rewrite Ebs. cbn [bind]. rewrite Es. cbn [bind]. rewrite Ec. cbn [bind].
  rewrite Hrun. reflexivity.
Qed.

(** *** The steps of the segmentation decode *)

Lemma asflag_run (b : BitBin.t) :
  1 <= BitBin.idx b ->
  exists f, BitBin.asflag 1 b = Ok (f, BitBin.forward 1 b).
Proof.
  intros H. unfold BitBin.asflag. rewrite asint_run by lia. cbn [bind]. eauto.
Qed.

(** X11: _set_flags consumes exactly one byte on both of its paths and
    sets the three leading flags.  With 8 bits under the cursor and a
    table20 that knows the four 2-bit codes it always returns; with fewer
    than 3 bits it fails with BufferUnderrun; with a table20 that knows no
    code it returns only for delivery_not_restricted_flag true and raises
    KeyError otherwise. *)
Theorem X11_set_flags_one_byte :
  (forall self bitbin self' bitbin',
     _set_flags self bitbin = Ok (self', bitbin') ->
     bitbin' = BitBin.forward 8 bitbin /\
     exists p s r,
       program_segmentation_flag self' = Some p /\
       segmentation_duration_flag self' = Some s /\
       delivery_not_restricted_flag self' = Some r) /\
  (forall self bitbin,
     8 <= BitBin.idx bitbin ->
     (forall k, 0 <= k < 4 -> table20 k <> None) ->
     exists self', _set_flags self bitbin = Ok (self', BitBin.forward 8 bitbin)) /\
  (forall self bitbin,
     BitBin.idx bitbin < 3 -> _set_flags self bitbin = Raise BufferUnderrun) /\
  (forall self bitbin,
     8 <= BitBin.idx bitbin ->
     (forall k, table20 k = None) ->
     (exists self', _set_flags self bitbin = Ok (self', BitBin.forward 8 bitbin) /\
                    delivery_not_restricted_flag self' = Some true)
     \/ _set_flags self bitbin = Raise KeyError).
Proof.
  repeat split.
  - unfold _set_flags in H.
    bind_as H x E1. destruct x as [p b1]. bind_as H x E2. destruct x as [s b2].
    bind_as H x E3. destruct x as [r b3].
    apply asflag_inv in E1, E2, E3.
    destruct E1 as (_ & ->), E2 as (_ & ->), E3 as (_ & ->).
    destruct r; cbn [negb] in H.
    + injection H as _ <-. rewrite !forward_forward. reflexivity.
    + bind_as H x E4. destruct x as [w b4]. bind_as H x E5. destruct x as [n b5].
      bind_as H x E6. destruct x as [a b6]. bind_as H x E7. destruct x as [k b7].
      apply asflag_inv in E4, E5, E6. apply asint_inv_cursor in E7.
      destruct E4 as (_ & ->), E5 as (_ & ->), E6 as (_ & ->), E7 as (_ & ->).
      destruct (table20 k); [|discriminate]. injection H as _ <-.
      rewrite !forward_forward. reflexivity.
  - unfold _set_flags in H.
    bind_as H x E1. destruct x as [p b1]. bind_as H x E2. destruct x as [s b2].
    bind_as H x E3. destruct x as [r b3]. exists p, s, r.
    destruct r; cbn [negb] in H.
    + injection H as <- _. repeat split.
    + bind_as H x E4. destruct x as [w b4]. bind_as H x E5. destruct x as [n b5].
      bind_as H x E6. destruct x as [a b6]. bind_as H x E7. destruct x as [k b7].
      destruct (table20 k); [|discriminate]. injection H as <- _. repeat split.
  - intros self bitbin Hidx Htable. unfold _set_flags.
    destruct (asflag_run bitbin) as (p & ->); [lia|]. cbn [bind].
    destruct (asflag_run (BitBin.forward 1 bitbin)) as (s & ->);
      [rewrite forward_idx; lia|]. cbn [bind].
    destruct (asflag_run (BitBin.forward 1 (BitBin.forward 1 bitbin))) as (r & ->);
      [rewrite !forward_idx; lia|]. cbn [bind].
    rewrite !forward_forward. simpl Z.add.
    destruct r; cbn [negb].
    + eexists. rewrite ?forward_forward. reflexivity.
    + destruct (asflag_run (BitBin.forward 3 bitbin)) as (w & ->);
        [rewrite forward_idx; lia|]. cbn [bind].
      destruct (asflag_run (BitBin.forward 1 (BitBin.forward 3 bitbin))) as (n & ->);
        [rewrite !forward_idx; lia|]. cbn [bind].
      destruct (asflag_run
                  (BitBin.forward 1 (BitBin.forward 1 (BitBin.forward 3 bitbin))))
        as (a & ->); [rewrite !forward_idx; lia|]. cbn [bind].
      rewrite !forward_forward. simpl Z.add.
      destruct (BitBin.asint 2 (BitBin.forward 6 bitbin)) as [[k b7]| |] eqn:E7.
      2,3: rewrite asint_run in E7 by (rewrite forward_idx; lia); discriminate.
      cbn [bind]. pose proof (asint_range _ _ _ _ E7) as Hk.
      change (2 ^ 2) with 4 in Hk.
      apply asint_inv_cursor in E7. destruct E7 as (_ & ->).
      destruct (table20 k) eqn:Hdev; [|exfalso; apply (Htable k Hk); assumption].
      eexists. rewrite ?forward_forward. reflexivity.
  - intros self bitbin Hidx. unfold _set_flags, BitBin.asflag.
    destruct (asint_cases 1 bitbin) as [(v1 & E1 & _) | E1]; rewrite E1;
      [|reflexivity]. cbn [bind].
    destruct (asint_cases 1 (BitBin.forward 1 bitbin)) as [(v2 & E2 & _) | E2];
      rewrite E2; [|reflexivity]. cbn [bind].
    rewrite asint_fail by (rewrite !forward_idx; lia). reflexivity.
  - intros self bitbin Hidx Htable. unfold _set_flags.
    destruct (asflag_run bitbin) as (p & ->); [lia|]. cbn [bind].
    destruct (asflag_run (BitBin.forward 1 bitbin)) as (s & ->);
      [rewrite forward_idx; lia|]. cbn [bind].
    destruct (asflag_run (BitBin.forward 1 (BitBin.forward 1 bitbin))) as (r & ->);
      [rewrite !forward_idx; lia|]. cbn [bind].
    rewrite !forward_forward. simpl Z.add.
    destruct r; cbn [negb].
    + left. eexists. rewrite ?forward_forward. split; reflexivity.
    + right.
      destruct (asflag_run (BitBin.forward 3 bitbin)) as (w & ->);
        [rewrite forward_idx; lia|]. cbn [bind].
      destruct (asflag_run (BitBin.forward 1 (BitBin.forward 3 bitbin))) as (n & ->);
        [rewrite !forward_idx; lia|]. cbn [bind].
      destruct (asflag_run
                  (BitBin.forward 1 (BitBin.forward 1 (BitBin.forward 3 bitbin))))
        as (a & ->); [rewrite !forward_idx; lia|]. cbn [bind].
      rewrite asint_run by (rewrite !forward_idx; lia). cbn [bind].
      rewrite Htable. reflexivity.
Qed.

Lemma set_components_loop_inv (n : nat) :
  forall bitbin acc comps bitbin',
    set_components_loop n bitbin acc = Ok (comps, bitbin') ->
    bitbin' = BitBin.forward (48 * Z.of_nat n) bitbin /\
    exists new,
      comps = acc ++ new /\ List.length new = n /\ Forall seg_comp_ok new.
Proof.
  induction n as [|n IH]; intros bitbin acc comps bitbin' H.
  - cbn in H. injection H as <- <-. split; [symmetry; apply forward_0|].
    exists []. rewrite app_nil_r. repeat split. constructor.
  - cbn [set_components_loop] in H.
    bind_as H x E1. destruct x as [ct b1]. bind_as H x E2. destruct x as [pts b2].
    apply IH in H. destruct H as (Hb & new & Hcomps & Hlen & Hok).
    pose proof (asint_range _ _ _ _ E1) as Hct.
    apply asint_inv_cursor in E1. destruct E1 as (_ & ->).
    unfold BitBin.as90k in E2. bind_as E2 x E3. destruct x as [ticks b3].
    injection E2 as <- <-.
    pose proof (asint_range _ _ _ _ E3) as Hticks.
    apply asint_inv_cursor in E3. destruct E3 as (_ & ->).
    split.
    + rewrite Hb, !forward_forward. f_equal. lia.
    + exists (mkSegComp ct (ticks # 90000) :: new).
      split; [rewrite Hcomps, <- app_assoc; reflexivity|].
      split; [cbn [List.length]; lia|].
      constructor; [|assumption]. split; [exact Hct|]. exists ticks. auto.
Qed.

Lemma set_components_loop_run (n : nat) :
  forall bitbin acc,
    48 * Z.of_nat n <= BitBin.idx bitbin ->
    exists comps,
      set_components_loop n bitbin acc
      = Ok (comps, BitBin.forward (48 * Z.of_nat n) bitbin).
Proof.
  induction n as [|n IH]; intros bitbin acc Hidx.
  - exists acc. cbn. rewrite forward_0. reflexivity.
  - cbn [set_components_loop]. unfold BitBin.as90k.
    rewrite asint_run by lia. cbn [bind].
    rewrite asint_run by (rewrite !forward_idx; lia). cbn [bind].
    rewrite !forward_forward. simpl Z.add.
    match goal with
    | |- context [set_components_loop n ?b ?a] =>
        destruct (IH b a) as (comps & ->); [rewrite forward_idx; lia|]
    end.
    exists comps. rewrite forward_forward. do 2 f_equal. f_equal. lia.
Qed.

Lemma set_components_loop_short (n : nat) :
  forall bitbin acc,
    0 <= BitBin.idx bitbin < 48 * Z.of_nat n ->
    set_components_loop n bitbin acc = Raise BufferUnderrun.
Proof.
  induction n as [|n IH]; intros bitbin acc Hidx; [lia|].
  cbn [set_components_loop]. unfold BitBin.as90k.
  destruct (asint_cases 8 bitbin) as [(ct & E1 & I1) | E1]; rewrite E1;
    [|reflexivity]. cbn [bind].
  destruct (asint_cases 33 (BitBin.forward 7 (BitBin.forward 8 bitbin)))
    as [(t & E2 & I2) | E2]; rewrite E2; [|reflexivity]. cbn [bind].
  apply IH. rewrite !forward_idx in *. lia.
Qed.

(** X12: once _set_components has read the count c it reads c entries of
    6 bytes: it returns exactly when 48 * c bits remain, with
    component_count at c, c well-formed entries appended to components
    and the cursor 48 * c bits further; on fewer bits it fails with
    BufferUnderrun. *)
Theorem X12_set_components (self : SegmentationDescriptor)
    (bitbin b1 : BitBin.t) (c : Z) :
  BitBin.asint 8 bitbin = Ok (c, b1) ->
  (48 * c <= BitBin.idx b1 ->
   exists new,
     _set_components self bitbin
     = Ok (with_components c (seg_components self ++ new) self,
           BitBin.forward (48 * c) b1) /\
     Z.of_nat (List.length new) = c /\ Forall seg_comp_ok new) /\
  (BitBin.idx b1 < 48 * c -> _set_components self bitbin = Raise BufferUnderrun).
Proof.
  intros Hc. pose proof (asint_range _ _ _ _ Hc) as Hrange.
  unfold _set_components. rewrite Hc. cbn [bind]. split.
  - intros Hidx.
    destruct (set_components_loop_run (Z.to_nat c) b1 (seg_components self))
      as (comps & Hrun); [lia|].
    rewrite Hrun. cbn [bind].
    apply set_components_loop_inv in Hrun.
    destruct Hrun as (_ & new & -> & Hlen & Hok).
    exists new. replace (48 * Z.of_nat (Z.to_nat c)) with (48 * c) by lia.
    repeat split; [lia | assumption].
  - intros Hidx. apply asint_inv_cursor in Hc. destruct Hc as (Hc & ->).
    rewrite set_components_loop_short by (rewrite forward_idx in *; lia).
    reflexivity.
Qed.

(** *** The presence cascade of the segmentation decode *)

Lemma set_components_inv (self self' : SegmentationDescriptor)
    (bitbin bitbin' : BitBin.t) :
  _set_components self bitbin = Ok (self', bitbin') ->
  exists c new,
    self' = with_components c (seg_components self ++ new) self /\
    Z.of_nat (List.length new) = c /\ Forall seg_comp_ok new.
Proof.
  unfold _set_components. intros H.
  bind_as H x Ec. destruct x as [c b1]. bind_as H x El. destruct x as [comps b2].
  injection H as <- _. apply asint_range in Ec.
  apply set_components_loop_inv in El. destruct El as (_ & new & -> & Hlen & Hok).
  exists c, new. repeat split; [lia | assumption].
Qed.

Lemma set_segmentation_inv (self self' : SegmentationDescriptor)
    (bitbin bitbin' : BitBin.t) :
  _set_segmentation self bitbin = Ok (self', bitbin') ->
  (if is_set (segmentation_duration_flag self)
   then exists d, segmentation_duration self' = Some d
   else segmentation_duration self' = segmentation_duration self) /\
  exists ty len upid tid,
    segmentation_upid_type self' = Some ty /\ 0 <= ty < 256 /\
    segmentation_upid_length self' = Some len /\ 0 <= len < 256 /\
    segmentation_upid self' = Some upid /\
    segmentation_type_id self' = Some tid /\ 0 <= tid < 256 /\
    match table22 tid with
    | Some msg =>
        segmentation_message self' = Some msg /\
        exists sn se,
          segment_num self' = Some sn /\ 0 <= sn < 256 /\
          segments_expected self' = Some se /\ 0 <= se < 256
    | None =>
        segmentation_message self' = segmentation_message self /\
        segment_num self' = segment_num self /\
        segments_expected self' = segments_expected self /\
        sub_segment_num self' = sub_segment_num self /\
        sub_segments_expected self' = sub_segments_expected self
    end.
Proof.
  unfold _set_segmentation. intros H.
  bind_as H x Ed. destruct x as [self1 b1].
  assert (Hd : (if is_set (segmentation_duration_flag self)
                then exists d, segmentation_duration self1 = Some d
                else segmentation_duration self1 = segmentation_duration self) /\
               segmentation_message self1 = segmentation_message self /\
               segment_num self1 = segment_num self /\
               segments_expected self1 = segments_expected self /\
               sub_segment_num self1 = sub_segment_num self /\
               sub_segments_expected self1 = sub_segments_expected self).
  { destruct (is_set (segmentation_duration_flag self)).
    - bind_as Ed x E. destruct x as [d b0]. injection Ed as <- _.
      split; [exists d; reflexivity|]. repeat split.
    - injection Ed as <- _. repeat split. }
  clear Ed. destruct Hd as (Hd & Hm & Hsn & Hse & Hssn & Hsse).
  bind_as H x Ety. destruct x as [ty b2]. bind_as H x Elen. destruct x as [len b3].
  bind_as H x Eupid. destruct x as [upid b4]. bind_as H x Etid. destruct x as [tid b5].
  apply asint_range in Ety, Elen, Etid.
  change (2 ^ 8) with 256 in *.
  destruct (table22 tid) as [msg|] eqn:Hmsg.
  - assert (Hf := H). apply set_segments_frame in Hf.
    apply set_segments_spec in H.
    destruct H as (sn & se & c1 & c2 & R1 & R2 & N1 & N2 & _).
    apply asint_range in R1, R2. change (2 ^ 8) with 256 in *.
    unfold with_message, with_type_id, with_upid in Hf.
    cbn [segmentation_duration segmentation_upid_type segmentation_upid_length
         segmentation_upid segmentation_type_id segmentation_message] in Hf.
    split_ands. split.
    + destruct (is_set _); [destruct Hd as (d & Hd); exists d|]; congruence.
    + exists ty, len, upid, tid. rewrite Hmsg.
      repeat split; try assumption; try lia.
      exists sn, se. repeat split; try assumption; lia.
  - injection H as <- _.
    unfold with_type_id, with_upid.
    cbn [segmentation_duration segmentation_upid_type segmentation_upid_length
         segmentation_upid segmentation_type_id segmentation_message segment_num
         segments_expected sub_segment_num sub_segments_expected].
    split; [assumption|].
    exists ty, len, upid, tid. rewrite Hmsg. repeat split; try assumption; lia.
Qed.

(** The three steps that follow a clear cancel bit, on a fresh object. *)
Lemma decode_steps (bites0 : option (list Z)) (self self' : SegmentationDescriptor)
    (e : list stderr_line) :
  SegmentationDescriptor_init bites0 = Ok self ->
  SegmentationDescriptor_decode self = Ok (self', e) ->
  segmentation_event_cancel_indicator self' = Some false ->
  exists self0 b0 self1 b1 self2 b2 bitbin,
    seg_components self0 = [] /\ component_count self0 = None /\
    segmentation_duration self0 = None /\ segmentation_message self0 = None /\
    segment_num self0 = None /\ segments_expected self0 = None /\
    sub_segment_num self0 = None /\ sub_segments_expected self0 = None /\
    _set_flags self0 b0 = Ok (self1, b1) /\
    (if negb (is_set (program_segmentation_flag self1))
     then _set_components self1 b1 else Ok (self1, b1)) = Ok (self2, b2) /\
    _set_segmentation self2 b2 = Ok (self', bitbin).
Proof.
  intros Hinit Hdec Hcancel.
  unfold SegmentationDescriptor_init in Hinit. bind_as Hinit base0 Eb.
  injection Hinit as <-.
  unfold SegmentationDescriptor_decode in Hdec.
  bind_as Hdec x Ebody. destruct x as [[s bb] e0]. injection Hdec as -> ->.
  apply decode_body_inv in Ebody.
  destruct Ebody as (payload & base & eid & cancel & Hb & Hlen & Hcase).
  destruct Hcase as [(-> & -> & ->) | (-> & self1 & b1 & self2 & b2 & H1 & H2 & H3)].
  - cbn in Hcancel. discriminate.
  - do 7 eexists. repeat split; [..| exact H1 | exact H2 | exact H3]; reflexivity.
Qed.

(** X13: after the decode of a freshly built segmentation descriptor
    whose cancel bit is clear, the three leading flags are set; the
    components are read exactly when program_segmentation_flag is false
    (component_count then counts the well-formed entries of components,
    and is None with an empty list otherwise); segmentation_duration is
    set exactly when segmentation_duration_flag is true. *)
Theorem X13_flags_govern_presence (bites0 : option (list Z))
    (self self' : SegmentationDescriptor) (e : list stderr_line) :
  SegmentationDescriptor_init bites0 = Ok self ->
  SegmentationDescriptor_decode self = Ok (self', e) ->
  segmentation_event_cancel_indicator self' = Some false ->
  exists p s r,
    program_segmentation_flag self' = Some p /\
    segmentation_duration_flag self' = Some s /\
    delivery_not_restricted_flag self' = Some r /\
    (if p then component_count self' = None /\ seg_components self' = []
     else exists c, component_count self' = Some c /\
                    Z.of_nat (List.length (seg_components self')) = c /\
                    Forall seg_comp_ok (seg_components self')) /\
    (if s then exists d, segmentation_duration self' = Some d
     else segmentation_duration self' = None).
Proof.
  intros Hinit Hdec Hcancel.
  destruct (decode_steps _ _ _ _ Hinit Hdec Hcancel)
    as (self0 & b0 & self1 & b1 & self2 & b2 & bitbin & Hc0 & Hn0 & Hd0 & _ & _ & _
        & _ & _ & H1 & H2 & H3).
  assert (Hflags : exists p s r,
             program_segmentation_flag self1 = Some p /\
             segmentation_duration_flag self1 = Some s /\
             delivery_not_restricted_flag self1 = Some r).
  { unfold _set_flags in H1.
    bind_as H1 x E1. destruct x as [p c1]. bind_as H1 x E2. destruct x as [s c2].
    bind_as H1 x E3. destruct x as [r c3]. exists p, s, r.
    destruct r; cbn [negb] in H1.
    - injection H1 as <- _. repeat split.
    - bind_as H1 x E4. destruct x as [w c4]. bind_as H1 x E5. destruct x as [n c5].
      bind_as H1 x E6. destruct x as [a c6]. bind_as H1 x E7. destruct x as [k c7].
      destruct (table20 k); [|discriminate]. injection H1 as <- _. repeat split. }
  destruct Hflags as (p & s & r & Hp & Hs & Hr).
  apply set_flags_frame in H1.
  assert (F3 := set_segmentation_frame _ _ _ _ H3).
  apply set_segmentation_inv in H3. destruct H3 as (Hdur & _).
  exists p, s, r.
  rewrite Hp in H2. destruct p; cbn [is_set negb] in H2.
  - injection H2 as <- <-. split_ands.
    rewrite Hs in Hdur. cbn [is_set] in Hdur.
    split; [congruence|]. split; [congruence|]. split; [congruence|]. split.
    + split; congruence.
    + destruct s; [assumption | congruence].
  - assert (F2 := set_components_frame _ _ _ _ H2).
    apply set_components_inv in H2. destruct H2 as (c & new & -> & Hlen & Hok).
    split_ands.
    assert (Hs2 : segmentation_duration_flag
                    (with_components c (seg_components self1 ++ new) self1) = Some s)
      by congruence.
    rewrite Hs2 in Hdur. cbn [is_set] in Hdur.
    assert (Hcomps1 : seg_components self1 = []) by congruence.
    rewrite Hcomps1 in *. cbn [app] in *.
    unfold with_components in *.
    cbn [component_count seg_components segmentation_duration] in *.
    assert (Hnew : seg_components self' = new) by congruence.
    split; [congruence|]. split; [congruence|]. split; [congruence|]. split.
    + exists c. rewrite Hnew. repeat split; try assumption; congruence.
    + destruct s; [assumption | congruence].
Qed.

(** X14: after such a decode the UPID type, the UPID length and the type
    id are bytes and the UPID is set; segmentation_message is what
    table22 holds for the type id; segment_num and segments_expected are
    bytes when table22 knows the type id, and they and the two
    sub-segment attributes are None when it does not. *)
Theorem X14_type_id_governs_segments (bites0 : option (list Z))
    (self self' : SegmentationDescriptor) (e : list stderr_line) :
  SegmentationDescriptor_init bites0 = Ok self ->
  SegmentationDescriptor_decode self = Ok (self', e) ->
  segmentation_event_cancel_indicator self' = Some false ->
  exists ty len upid tid,
    segmentation_upid_type self' = Some ty /\ 0 <= ty < 256 /\
    segmentation_upid_length self' = Some len /\ 0 <= len < 256 /\
    segmentation_upid self' = Some upid /\
    segmentation_type_id self' = Some tid /\ 0 <= tid < 256 /\
    segmentation_message self' = table22 tid /\
    match table22 tid with
    | Some _ =>
        exists sn se,
          segment_num self' = Some sn /\ 0 <= sn < 256 /\
          segments_expected self' = Some se /\ 0 <= se < 256
    | None =>
        segment_num self' = None /\ segments_expected self' = None /\
        sub_segment_num self' = None /\ sub_segments_expected self' = None
    end.
Proof.
  intros Hinit Hdec Hcancel.
  destruct (decode_steps _ _ _ _ Hinit Hdec Hcancel)
    as (self0 & b0 & self1 & b1 & self2 & b2 & bitbin & _ & _ & _ & Hm0 & Hsn0 & Hse0
        & Hssn0 & Hsse0 & H1 & H2 & H3).
  apply set_flags_frame in H1.
  assert (F2 : segmentation_message self2 = segmentation_message self1 /\
               segment_num self2 = segment_num self1 /\
               segments_expected self2 = segments_expected self1 /\
               sub_segment_num self2 = sub_segment_num self1 /\
               sub_segments_expected self2 = sub_segments_expected self1).
  { destruct (negb _).
    - apply set_components_frame in H2. split_ands. repeat split; assumption.
    - injection H2 as <- _. repeat split. }
  apply set_segmentation_inv in H3.
  destruct H3 as (_ & ty & len & upid & tid & Hty & Rty & Hlen & Rlen & Hupid & Htid
                  & Rtid & Hcase).
  exists ty, len, upid, tid.
  do 7 (split; [assumption|]).
  destruct (table22 tid) as [msg|].
  - destruct Hcase as (Hmsg & sn & se & Hrest). split; [assumption|].
    exists sn, se. assumption.
  - split_ands. repeat split; congruence.
Qed.

(** *** MID, again *)

(** The counter of the loop of _mid only goes down: below zero it never
    reaches zero again. *)
Lemma mid_loop_negative (fuel : nat) :
  forall bitbin b_c upids r,
    b_c < 0 -> mid_loop fuel bitbin b_c upids <> Ok r.
Proof.
  induction fuel as [|fuel IH]; intros bitbin b_c upids r Hneg H.
  - discriminate.
  - rewrite mid_loop_S in H. replace (b_c =? 0) with false in H by lia.
    bind_as H x Ety. destruct x as [ty b1]. bind_as H x Elen. destruct x as [len b2].
    bind_as H x Eupid. destruct x as [v b3].
    apply asint_range in Elen. change (2 ^ 8) with 256 in Elen.
    apply IH in H; [assumption|].
    rewrite Z.shiftl_mul_pow2 by lia. lia.
Qed.

(** X15: a MID whose counter is below zero, because a nested entry
    declared more than was left of the MID's own length, or is between 1
    and 15, less than the two header bytes of an entry, never returns:
    the loop goes on reading entries until a read fails with
    BufferUnderrun.  In particular no MID of declared length 1 decodes. *)
Theorem X15_mid_overrun_fails :
  (forall fuel bitbin b_c upids,
     (Z.to_nat (BitBin.idx bitbin) < fuel)%nat ->
     b_c < 0 \/ 0 < b_c < 16 ->
     mid_loop fuel bitbin b_c upids = Raise BufferUnderrun) /\
  (forall fuel bitbin,
     (Z.to_nat (BitBin.idx bitbin) < fuel)%nat ->
     _mid fuel bitbin 1 = Raise BufferUnderrun).
Proof.
  assert (Hloop : forall fuel bitbin b_c upids,
             (Z.to_nat (BitBin.idx bitbin) < fuel)%nat ->
             b_c < 0 \/ 0 < b_c < 16 ->
             mid_loop fuel bitbin b_c upids = Raise BufferUnderrun).
  { intros fuel bitbin b_c upids Hfuel Hc.
    destruct (mid_loop_ends fuel bitbin b_c upids Hfuel) as [(u & b' & E & _) | E];
      [|assumption].
    exfalso. destruct Hc as [Hneg | Hsmall].
    - exact (mid_loop_negative fuel bitbin b_c upids _ Hneg E).
    - destruct fuel as [|fuel]; [discriminate|].
      rewrite mid_loop_S in E. replace (b_c =? 0) with false in E by lia.
      bind_as E x Ety. destruct x as [ty b1]. bind_as E x Elen. destruct x as [len b2].
      bind_as E x Eupid. destruct x as [v b3].
      apply asint_range in Elen. change (2 ^ 8) with 256 in Elen.
      apply mid_loop_negative in E; [assumption|].
      rewrite Z.shiftl_mul_pow2 by lia. lia. }
  split; [exact Hloop|].
  intros fuel bitbin Hfuel. unfold _mid, mid_body.
  rewrite Hloop; [reflexivity | assumption |].
  right. rewrite Z.shiftl_mul_pow2 by lia. lia.
Qed.

Lemma uri_entries_wire_ok (ps : list (list Z)) :
  Forall uri_payload_ok ps -> Forall byte_ok (uri_entries_wire ps).
Proof.
  induction 1 as [|p ps (Hp & Hlen) Hps IH]; [constructor|].
  cbn [uri_entries_wire].
  constructor; [unfold byte_ok; lia|].
  constructor; [unfold byte_ok; lia|].
  apply Forall_app. split; assumption.
Qed.

Lemma mid_loop_uri_entries (ps : list (list Z)) :
  forall fuel pre post upids,
    Forall uri_payload_ok ps -> Forall byte_ok post ->
    (List.length ps < fuel)%nat ->
    mid_loop fuel (cursor_at pre (uri_entries_wire ps ++ post))
      (8 * Z.of_nat (List.length (uri_entries_wire ps))) upids
    = Ok (upids ++ map uri_entry ps, cursor_at (pre ++ uri_entries_wire ps) post, 0).
Proof.
  induction ps as [|p ps IH]; intros fuel pre post upids Hps Hpost Hfuel.
  - destruct fuel as [|fuel]; [cbn in Hfuel; lia|].
    cbn. rewrite !app_nil_r. reflexivity.
  - destruct fuel as [|fuel]; [cbn in Hfuel; lia|].
    inversion Hps as [|? ? (Hp & Hlen) Hps']; subst.
    assert (Hwire : uri_entries_wire (p :: ps) ++ post
                    = 0x0F :: Z.of_nat (List.length p)
                        :: p ++ (uri_entries_wire ps ++ post))
      by (cbn [uri_entries_wire app]; rewrite <- app_assoc; reflexivity).
    assert (Hlength : 8 * Z.of_nat (List.length (uri_entries_wire (p :: ps)))
                      - 16 - 8 * Z.of_nat (List.length p)
                      = 8 * Z.of_nat (List.length (uri_entries_wire ps)))
      by (cbn [uri_entries_wire List.length]; rewrite length_app; lia).
    assert (Hpre : (pre ++ 0x0F :: Z.of_nat (List.length p) :: p)
                     ++ uri_entries_wire ps
                   = pre ++ uri_entries_wire (p :: ps))
      by (cbn [uri_entries_wire]; rewrite <- app_assoc; reflexivity).
    rewrite Hwire, mid_round_uri.
    + rewrite Hlength.
      rewrite IH by (try assumption; cbn [List.length] in Hfuel; lia).
      rewrite Hpre, <- app_assoc. reflexivity.
    + apply Forall_app. split; [assumption|].
      apply Forall_app. split; [apply uri_entries_wire_ok|]; assumption.
    + assumption.
    + cbn [uri_entries_wire List.length]. lia.
Qed.

(** X16: a MID over any number of nested URI entries, declared with the
    length of their bytes, returns the list of the decoded entries in
    order and leaves the cursor right after them: two header bytes and
    the payload are consumed for each entry. *)
Theorem X16_mid_uri_entries (ps : list (list Z)) (fuel : nat) (pre post : list Z) :
  Forall uri_payload_ok ps -> Forall byte_ok post ->
  (List.length ps < fuel)%nat ->
  _mid fuel (cursor_at pre (uri_entries_wire ps ++ post))
    (Z.of_nat (List.length (uri_entries_wire ps)))
  = Ok (UList (map uri_entry ps), cursor_at (pre ++ uri_entries_wire ps) post).
Proof.
  intros Hps Hpost Hfuel. unfold _mid, mid_body.
  replace (Z.shiftl (Z.of_nat (List.length (uri_entries_wire ps))) 3)
    with (8 * Z.of_nat (List.length (uri_entries_wire ps)))
    by (rewrite Z.shiftl_mul_pow2 by lia; lia).
  rewrite mid_loop_uri_entries by assumption. reflexivity.
Qed.

(** *** encode, again *)

(** X17: encode is idempotent on the descriptor: when it returns, a
    second call on the resulting object returns the same value, leaves
    the object as it is and shows the same line on stderr. *)
Theorem X17_encode_idempotent :
  (forall self r self' e,
     AvailDescriptor_encode self = Ok (r, self', e) ->
     AvailDescriptor_encode self' = Ok (r, self', e)) /\
  (forall self r self' e,
     DtmfDescriptor_encode self = Ok (r, self', e) ->
     DtmfDescriptor_encode self' = Ok (r, self', e)) /\
  (forall self r self' e,
     TimeDescriptor_encode self = Ok (r, self', e) ->
     TimeDescriptor_encode self' = Ok (r, self', e)) /\
  (forall fuel self r self' e,
     AudioDescriptor_encode fuel self = Ok (r, self', e) ->
     AudioDescriptor_encode fuel self' = Ok (r, self', e)) /\
  (forall self r self' e,
     SegmentationDescriptor_encode self = Ok (r, self', e) ->
     SegmentationDescriptor_encode self' = Ok (r, self', e)).
Proof.
  repeat split.
  - intros self r self' e. apply Avail_encode_again.
  - intros self r self' e. apply Dtmf_encode_again.
  - intros self r self' e H. unfold TimeDescriptor_encode in *.
    bind_as H x Eb. destruct x as [nbin base]. apply base_encode_again in Eb.
    bind_as H s E1. bind_as H ns E2. bind_as H off E3. injection H as <- <- <-.
    cbn [time_base time_name tai_seconds tai_ns utc_offset] in *.
    rewrite Eb. cbn [bind]. rewrite E1. cbn [bind]. rewrite E2. cbn [bind].
    rewrite E3. reflexivity.
  - intros fuel self r self' e H. unfold AudioDescriptor_encode in *.
    bind_as H x Eb. destruct x as [nbin base]. apply base_encode_again in Eb.
    bind_as H n E1. bind_as H nb E2. injection H as <- <- <-.
    cbn [audio_base audio_name audio_components audio_count] in *.
    rewrite Eb. cbn [bind]. rewrite E1. cbn [bind]. rewrite E2. reflexivity.
  - intros self r self' e H. unfold SegmentationDescriptor_encode in *.
    bind_as H x Eb. destruct x as [nbin base]. apply base_encode_again in Eb.
    injection H as <- <- <-. cbn [seg_base with_seg_base].
    rewrite Eb. reflexivity.
Qed.

(** *** Empty UPIDs *)

(** X18: on a declared length of 0 the dispatch consumes nothing for the
    URI-like types and for MID.  The URI-like decoder returns None there,
    which the dispatch formats with the label, so that an empty
    Deprecated, Ad ID, TID, ADS Info or URI UPID reads "<label>:None"; an
    empty ADI, whose label is left out, is None itself; an empty MID is
    the empty list.  The other types are not covered: EIDR, ATSC and MPU
    read their fixed fields whatever the length. *)
Theorem X18_empty_upid (fuel : nat) (bitbin : BitBin.t) :
  (forall ty label,
     In (ty, label) labelled_uri_types ->
     _set_segmentation_upid fuel bitbin ty 0 = Ok (UStr (label ++ ":None"), bitbin)) /\
  _set_segmentation_upid fuel bitbin 0x09 0 = Ok (UNone, bitbin) /\
  _set_segmentation_upid (S fuel) bitbin 0x0D 0
  = Ok (ULabelled "MID" (UList []), bitbin).
Proof.
  repeat split.
  intros ty label Hin. unfold labelled_uri_types in Hin. cbn [In] in Hin.
  repeat (destruct Hin as [Heq | Hin]; [injection Heq as <- <-; reflexivity|]).
  contradiction.
Qed.

(** *** Structured UPIDs *)

(** X19: through the dispatch, an ATSC UPID (type 0x0B) is the labelled
    record of its four numeric fields and its content id, and an MPU UPID
    (type 0x0C) the labelled record of its two: each field fits the width
    it is read with, 16, 2, 5 and 9 bits for ATSC, 32 bits and the rest
    of the declared length for MPU. *)
Theorem X19_atsc_mpu_fields (fuel : nat) (bitbin b' : BitBin.t) (len : Z) (v : upid_val) :
  (_set_segmentation_upid fuel bitbin 0x0B len = Ok (v, b') ->
   exists tsid res eod uf cid,
     v = ULabelled "ATSC" (UAtsc tsid res eod uf cid) /\
     0 <= tsid < 65536 /\ 0 <= res < 4 /\ 0 <= eod < 32 /\ 0 <= uf < 512) /\
  (_set_segmentation_upid fuel bitbin 0x0C len = Ok (v, b') ->
   exists fid pd,
     v = ULabelled "MPU" (UMpu fid pd) /\
     0 <= fid < 2 ^ 32 /\ 0 <= pd < 2 ^ (8 * len - 32) /\ 4 <= len).
Proof.
  split; intros H; unfold _set_segmentation_upid, set_segmentation_upid_body in H;
    cbn [upid_map] in H.
  - bind_as H x E. destruct x as [u b1]. cbn [Z.eqb Pos.eqb negb] in H.
    injection H as <- <-.
    unfold _atsc, BitBin.asdecodedhex in E.
    bind_as E x E1. destruct x as [tsid c1]. bind_as E x E2. destruct x as [res c2].
    bind_as E x E3. destruct x as [eod c3]. bind_as E x E4. destruct x as [uf c4].
    bind_as E x E5. destruct x as [cid c5]. bind_as E5 y E6. destruct y as [w c6].
    injection E5 as <- <-. injection E as <- <-.
    apply asint_range in E1, E2, E3, E4.
    exists tsid, res, eod, uf, (decode_utf8 (int_to_bytes (Z.to_nat (Z.shiftl (len - 4) 3 / 8)) w)).
    split; [reflexivity|].
    change (2 ^ 16) with 65536 in E1. change (2 ^ 2) with 4 in E2.
    change (2 ^ 5) with 32 in E3. change (2 ^ 9) with 512 in E4.
    split_ands; lia.
  - bind_as H x E. destruct x as [u b1]. cbn [Z.eqb Pos.eqb negb] in H.
    injection H as <- <-.
    unfold _mpu in E.
    bind_as E x E1. destruct x as [fid c1]. bind_as E x E2. destruct x as [pd c2].
    injection E as <- <-.
    assert (Hw : 0 <= Z.shiftl len 3 - 32).
    { unfold BitBin.asint in E2.
      destruct (Z.shiftl len 3 - 32 <? 0) eqn:Hneg; [discriminate | lia]. }
    apply asint_range in E1, E2.
    rewrite Z.shiftl_mul_pow2 in E2, Hw by lia. change (2 ^ 3) with 8 in E2, Hw.
    exists fid, pd. split; [reflexivity|].
    replace (8 * len - 32) with (len * 8 - 32) by lia.
    repeat split; lia.
Qed.

Lemma substring_nil (i m : nat) : substring i m EmptyString = EmptyString.
Proof. destruct i, m; reflexivity. Qed.

Lemma substring_app (s : string) :
  forall i a b,
    (substring i a s ++ substring (i + a) b s)%string = substring i (a + b) s.
Proof.
  induction s as [|c s IH]; intros i a b.
  - rewrite !substring_nil. reflexivity.
  - destruct i as [|i].
    + destruct a as [|a].
      * reflexivity.
      * cbn [substring Nat.add String.append]. f_equal. apply (IH 0%nat a b).
    + cbn [substring Nat.add]. apply IH.
Qed.

Lemma substring_length_le (s : string) :
  forall i m, (String.length (substring i m s) <= m)%nat.
Proof.
  induction s as [|c s IH]; intros i m.
  - rewrite substring_nil. cbn. lia.
  - destruct i as [|i].
    + destruct m as [|m]; cbn [substring String.length]; [lia|].
      specialize (IH 0%nat m). lia.
    + cbn [substring]. apply IH.
Qed.

Lemma substring_all (s : string) :
  forall m, (String.length s <= m)%nat -> substring 0 m s = s.
Proof.
  induction s as [|c s IH]; intros m Hm.
  - apply substring_nil.
  - destruct m as [|m]; cbn [String.length] in Hm; [lia|].
    cbn [substring]. f_equal. apply IH. lia.
Qed.

Lemma substring_past (s : string) :
  forall i m, (String.length s <= i)%nat -> substring i m s = EmptyString.
Proof.
  induction s as [|c s IH]; intros i m Hi.
  - apply substring_nil.
  - destruct i as [|i]; cbn [String.length] in Hi; [lia|].
    cbn [substring]. apply IH. lia.
Qed.

Lemma substring_zero (s : string) : forall i, substring i 0 s = EmptyString.
Proof.
  induction s as [|c s IH]; intros i; [apply substring_nil|].
  destruct i; [reflexivity | apply IH].
Qed.

Lemma append_empty_r (s : string) : (s ++ "")%string = s.
Proof. induction s as [|c s IH]; cbn; [reflexivity | f_equal; exact IH]. Qed.

(** The slices of the list comprehension of _umid, put end to end, are
    the text from the first index on. *)
Lemma chunks_concat (pre : string) (n_u : nat) (rounds : nat) :
  forall i,
    String.concat "" (chunks rounds i n_u pre) = substring i (rounds * n_u) pre.
Proof.
  induction rounds as [|rounds IH]; intros i.
  - cbn [chunks String.concat Nat.mul]. symmetry. apply substring_zero.
  - cbn [chunks]. unfold slice.
    replace (i + n_u - i)%nat with n_u by lia.
    replace (S rounds * n_u)%nat with (n_u + rounds * n_u)%nat by lia.
    rewrite <- substring_app, <- IH.
    destruct rounds; cbn [chunks String.concat].
    + symmetry. apply append_empty_r.
    + reflexivity.
Qed.

Lemma chunks_length (pre : string) (n_u : nat) (rounds : nat) :
  forall i, Forall (fun c => (String.length c <= n_u)%nat) (chunks rounds i n_u pre).
Proof.
  induction rounds as [|rounds IH]; intros i; cbn [chunks]; constructor.
  - unfold slice. replace (i + n_u - i)%nat with n_u by lia.
    apply substring_length_le.
  - apply IH.
Qed.

(** X21: _umid splits the text of the hex read, without the x of its 0x
    prefix, into groups of at most 8 characters joined by dots; no
    character is lost or repeated, and since only the x is taken out, the
    0 of the prefix stays as the first character of the first group. *)
Theorem X21_umid_groups (bitbin b' : BitBin.t) (len : Z) (v : upid_val) :
  _umid bitbin len = Ok (v, b') ->
  exists h groups digits,
    BitBin.ashex (Z.shiftl len 3) bitbin = Ok (h, b') /\
    v = UStr (String.concat "." groups) /\
    String.concat "" groups = drop_first_x h /\
    Forall (fun g => (String.length g <= 8)%nat) groups /\
    h = String "0" (String "x" digits) /\
    drop_first_x h = String "0" digits.
Proof.
  intros H. unfold _umid in H.
  bind_as H x E. destruct x as [h b1]. injection H as <- <-.
  assert (Hh : exists digits, h = String "0" (String "x" digits)).
  { unfold BitBin.ashex in E. bind_as E y E1. destruct y as [w c1].
    injection E as <- <-. apply asint_range in E1.
    destruct w as [|p|p]; [exists "0"%string; reflexivity | | lia].
    eexists. reflexivity. }
  destruct Hh as (digits & Hh).
  exists h, (chunks (Nat.div (String.length (drop_first_x h) + 8 - 1) 8) 0 8
               (drop_first_x h)), digits.
  split; [exact E|]. split; [reflexivity|].
  split.
  { rewrite chunks_concat. apply substring_all.
    pose proof (Nat.div_mod_eq (String.length (drop_first_x h) + 8 - 1) 8) as Hd.
    pose proof (Nat.mod_upper_bound (String.length (drop_first_x h) + 8 - 1) 8) as Hm.
    lia. }
  split; [apply chunks_length|].
  split; [assumption|].
  rewrite Hh. reflexivity.
Qed.

(** *** Termination of the decode *)

Lemma Dtmf_decode_loop_in_time (d_c : nat) :
  forall bitbin chars, Dtmf_decode_loop d_c bitbin chars <> OutOfFuel.
Proof.
  induction d_c as [|d_c IH]; intros bitbin chars; cbn [Dtmf_decode_loop].
  - discriminate.
  - unfold i2b_decode. in_time. apply IH.
Qed.

Lemma getitem_in_time {A : Type} (l : list A) (i : Z) : getitem l i <> OutOfFuel.
Proof.
  unfold getitem. destruct (i <? 0).
  - destruct (nth_error _ _); [destruct (_ <? 0)|]; discriminate.
  - destruct (nth_error _ _); discriminate.
Qed.

Lemma Dtmf_encode_loop_in_time (rounds : nat) :
  forall d_c chars nbin, Dtmf_encode_loop rounds d_c chars nbin <> OutOfFuel.
Proof.
  induction rounds as [|rounds IH]; intros d_c chars nbin; cbn [Dtmf_encode_loop].
  - discriminate.
  - apply bind_in_time; [apply getitem_in_time | intros c; apply IH].
Qed.

Lemma Audio_decode_loop_in_time (a_c : nat) :
  forall bitbin comps, Audio_decode_loop a_c bitbin comps <> OutOfFuel.
Proof.
  induction a_c as [|a_c IH]; intros bitbin comps; cbn [Audio_decode_loop].
  - discriminate.
  - unfold BitBin.asflag. in_time. apply IH.
Qed.

Lemma base_encode_in_time (self : SpliceDescriptor) :
  SpliceDescriptor_encode self <> OutOfFuel.
Proof.
  unfold SpliceDescriptor_encode, encode_meta, encode_id, the.
  destruct (tag self); [|discriminate]. cbn [bind].
  destruct (descriptor_length self); discriminate.
Qed.

(** X20: splice_descriptor, which decodes and never calls the encode of
    an audio descriptor, terminates on every slice of bytes: whatever the
    bytes, the loops of the five decode methods, the nested UPIDs of a
    MID included, end with a value or with an exception. *)
Theorem X20_splice_descriptor_terminates (bites : list Z) :
  splice_descriptor bites <> OutOfFuel.
Proof.
  unfold splice_descriptor.
  apply bind_in_time; [apply getitem_in_time | intros t].
  destruct (descriptor_map t) as [c|]; [|discriminate].
  apply bind_in_time.
  { destruct c; unfold construct, AvailDescriptor_init, DtmfDescriptor_init,
      SegmentationDescriptor_init, TimeDescriptor_init, AudioDescriptor_init,
      SpliceDescriptor_init;
      destruct bites as [|b0 [|b1 payload]]; discriminate. }
  intros spliced.
  apply bind_in_time; [ | intros [d e]; discriminate ].
  destruct spliced as [d|d|d|d|d]; cbn [decode];
    (apply bind_in_time; [ | intros [d' e']; discriminate ]).
  - unfold AvailDescriptor_decode, BitBin_of, parse_id, the, BitBin.asdecodedhex.
    apply bind_in_time; [in_time | intros bitbin].
    apply bind_in_time; [in_time | intros [[base b1] e1]].
    apply bind_in_time; [in_time | intros [v b2]].
    apply bind_in_time; [ | intros [[r s] e2]; discriminate ].
    unfold AvailDescriptor_encode.
    apply bind_in_time; [apply base_encode_in_time | intros [nbin base']].
    discriminate.
  - unfold DtmfDescriptor_decode, BitBin_of, parse_id, the, BitBin.asdecodedhex.
    apply bind_in_time; [in_time | intros bitbin].
    apply bind_in_time; [in_time | intros [[base b1] e1]].
    apply bind_in_time; [in_time | intros [p b2]].
    apply bind_in_time; [in_time | intros [d_c b3]].
    apply bind_in_time; [apply Dtmf_decode_loop_in_time | intros [chars b4]].
    apply bind_in_time; [ | intros [[r s] e2]; discriminate ].
    unfold DtmfDescriptor_encode.
    apply bind_in_time; [apply base_encode_in_time | intros [nbin base']].
    cbn [preroll dtmf_count dtmf_chars the bind].
    apply bind_in_time; [apply Dtmf_encode_loop_in_time | intros nb; discriminate].
  - unfold SegmentationDescriptor_decode.
    apply bind_in_time; [apply decode_body_in_time | intros [[s b] e]; discriminate].
  - unfold TimeDescriptor_decode, BitBin_of, parse_id, the, BitBin.asdecodedhex.
    in_time.
  - unfold AudioDescriptor_decode, BitBin_of, parse_id, the, BitBin.asdecodedhex.
    apply bind_in_time; [in_time | intros bitbin].
    apply bind_in_time; [in_time | intros [[base b1] e1]].
    apply bind_in_time; [in_time | intros [a_c b2]].
    apply bind_in_time; [apply Audio_decode_loop_in_time | intros [comps b3]].
    discriminate.
Qed.

End Descriptors.

(** ** The properties on the example descriptors *)

(** C1: on the audio descriptor [audio_one_component], which decodes to
    one component, encode never returns: whatever the fuel, the loop
    while a_c < self.audio_count is still running, because its body
    leaves a_c at 0.  No byte sequence is produced. *)
Theorem C1_audio_encode_never_returns :
  exists d0 d e,
    AudioDescriptor_init (Some audio_one_component) = Ok d0 /\
    AudioDescriptor_decode ascii_decoder d0 = Ok (d, e) /\
    audio_count d = Some 1 /\
    forall fuel, AudioDescriptor_encode fuel d = OutOfFuel.
Proof.
  do 3 eexists.
  split; [cbv; reflexivity|].
  split; [cbv; reflexivity|].
  split; [reflexivity|].
  eapply (Audio_encode_never_returns ascii_decoder (Some audio_one_component));
    [reflexivity | cbv; reflexivity | reflexivity | lia].
Qed.

(** C2, the claim as stated fails: [seg_program_start] decodes with the
    cancel indicator false and the type id 0x10, which table22 knows and
    which is not one of the four sub-segment-bearing codes; the two
    sub-segment attributes are then None, not 0. *)
Lemma C2_counterexample :
  exists self self' e,
    SegmentationDescriptor_init (Some seg_program_start) = Ok self /\
    SegmentationDescriptor_decode ascii_decoder table20_sample table22_sample self
    = Ok (self', e) /\
    segmentation_event_cancel_indicator self' = Some false /\
    segmentation_type_id self' = Some 0x10 /\
    table22_sample 0x10 <> None /\
    existsb (Z.eqb 0x10) sub_segment_types = false /\
    sub_segment_num self' <> Some 0 /\
    sub_segments_expected self' <> Some 0.
Proof.
  do 3 eexists.
  split; [cbv; reflexivity|].
  split; [cbv; reflexivity|].
  cbn. repeat split; discriminate.
Qed.

(** The theorem of C2 on [seg_sub_segments]: type id 0x34 with 16 bits
    left, the sub-segment numbers are read. *)
Lemma C2_witness :
  exists self self' bitbin e sn se ssn sse,
    SegmentationDescriptor_init (Some seg_sub_segments) = Ok self /\
    SegmentationDescriptor_decode_body ascii_decoder table20_sample table22_sample self
    = Ok (self', bitbin, e) /\
    segment_num self' = Some sn /\ segments_expected self' = Some se /\
    sub_segment_num self' = Some ssn /\ sub_segments_expected self' = Some sse.
Proof.
  destruct (C2_sub_segments ascii_decoder table20_sample table22_sample
              (Some seg_sub_segments)
              (mkSegmentationDescriptor
                 (mkSpliceDescriptor (Some 2) (Some 17) None
                    (Some (skipn 2 seg_sub_segments)))
                 "Segmentation Descriptor"
                 None None None [] None None None None None None None None None
                 None None None None None None None None)
              (mkSegmentationDescriptor
                 (mkSpliceDescriptor (Some 2) (Some 17) (Some "CUEI"%string)
                    (Some (skipn 2 seg_sub_segments)))
                 "Segmentation Descriptor"
                 (Some "0x1"%string) (Some false) None [] (Some true) (Some false)
                 (Some true) None None None None None
                 (Some "Provider Placement Opportunity Start"%string)
                 (Some 0x0F) (Some 0) (Some (UStr "URI:None")) (Some 0x34)
                 (Some 1) (Some 2) (Some 3) (Some 4))
              (BitBin.forward 136 (BitBin.new (skipn 2 seg_sub_segments)))
              [] 0x34)
    as (sn & se & b0 & b1 & at_point & R1 & R2 & N1 & N2 & Hsub).
  - reflexivity.
  - vm_compute. reflexivity.
  - reflexivity.
  - reflexivity.
  - discriminate.
  - change (existsb (Z.eqb 52) sub_segment_types) with true in Hsub.
    cbv iota in Hsub.
    destruct (16 <=? BitBin.idx at_point).
    + destruct Hsub as (ssn & sse & b2 & _ & _ & S1 & S2).
      do 4 eexists. exists sn, se, ssn, sse.
      split; [reflexivity|]. split; [vm_compute; reflexivity|].
      repeat split; assumption.
    + destruct Hsub as (S1 & S2 & _).
      do 4 eexists. exists sn, se, 0, 0.
      split; [reflexivity|]. split; [vm_compute; reflexivity|].
      repeat split; assumption.
Defined.



(** C4, the claim as stated fails: after the decode of [time_bytes] the
    identifier holds the text read, "CUEI"; after encode it holds the str
    "0x43554549". *)
Lemma C4_counterexample :
  exists d0 d e r d' e',
    TimeDescriptor_init (Some time_bytes) = Ok d0 /\
    TimeDescriptor_decode ascii_decoder d0 = Ok (d, e) /\
    TimeDescriptor_encode d = Ok (r, d', e') /\
    identifier (time_base d) = Some "CUEI"%string /\
    identifier (time_base d') <> identifier (time_base d).
Proof.
  do 6 eexists.
  split; [cbv; reflexivity|].
  split; [cbv; reflexivity|].
  split; [cbv; reflexivity|].
  split; [reflexivity|]. cbn. discriminate.
Qed.

(** The theorem of C4 on the decoded [time_bytes]. *)
Lemma C4_witness :
  exists d r d' e',
    TimeDescriptor_encode d = Ok (r, d', e') /\
    tai_seconds d' = tai_seconds d /\
    identifier (time_base d') = Some "0x43554549"%string.
Proof.
  exists (mkTimeDescriptor
            (mkSpliceDescriptor (Some 3) (Some 16) (Some "CUEI"%string)
               (Some (skipn 2 time_bytes)))
            "Time Descriptor" (Some 1) (Some 2) (Some 3)).
  do 3 eexists.
  split; [vm_compute; reflexivity|].
  match goal with
  | |- tai_seconds ?d' = tai_seconds ?d /\ _ =>
      rewrite (proj1 (proj2 (proj2 C4_encode_overwrites_identifier_only))
                 d None d'
                 [DescriptorBytes
                    [3; 16; 0x43; 0x55; 0x45; 0x49; 0; 0; 0; 0; 0; 1; 0; 0; 0; 2; 0; 3]])
  end.
  - split; reflexivity.
  - vm_compute. reflexivity.
Defined.

(** The theorem of C5 on [seg_cancelled]. *)
Lemma C5_witness :
  exists self self' bitbin e,
    SegmentationDescriptor_init (Some seg_cancelled) = Ok self /\
    SegmentationDescriptor_decode_body ascii_decoder table20_sample table22_sample self
    = Ok (self', bitbin, e) /\
    segmentation_event_cancel_indicator self' = Some true /\
    BitBin.idx bitbin = BitBin.bitsize bitbin - 72 /\
    segmentation_type_id self' = None.
Proof.
  exists (mkSegmentationDescriptor
            (mkSpliceDescriptor (Some 2) (Some 9) None (Some (skipn 2 seg_cancelled)))
            "Segmentation Descriptor"
            None None None [] None None None None None None None None None
            None None None None None None None None).
  exists (mkSegmentationDescriptor
            (mkSpliceDescriptor (Some 2) (Some 9) (Some "CUEI"%string)
               (Some (skipn 2 seg_cancelled)))
            "Segmentation Descriptor"
            (Some "0x1"%string) (Some true) None [] None None None None None None
            None None None None None None None None None None None).
  exists (BitBin.forward 72 (BitBin.new (skipn 2 seg_cancelled))), [].
  split; [reflexivity|].
  split; [vm_compute; reflexivity|].
  split; [reflexivity|].
  match goal with
  | |- BitBin.idx ?b = _ /\ segmentation_type_id ?s' = None =>
      destruct (C5_cancel_stops_decode ascii_decoder table20_sample table22_sample
                  (Some seg_cancelled) _ s' b [] eq_refl)
        as (Hidx & Hrest)
  end.
  - vm_compute. reflexivity.
  - reflexivity.
  - split; [exact Hidx|]. apply Hrest.
Defined.

(** The theorem of C6 on [seg_program_start], delivery not restricted,
    and on the flag byte of [seg_restricted]. *)
Lemma C6_witness :
  (exists self self' bitbin e,
     SegmentationDescriptor_init (Some seg_program_start) = Ok self /\
     SegmentationDescriptor_decode_body ascii_decoder table20_sample table22_sample self
     = Ok (self', bitbin, e) /\
     delivery_not_restricted_flag self' = Some true /\
     web_delivery_allowed_flag self' = None /\
     device_restrictions self' = None) /\
  (exists self self' bitbin bitbin',
     SegmentationDescriptor_init (Some seg_restricted) = Ok self /\
     bitbin = BitBin.forward 72 (BitBin.new (skipn 2 seg_restricted)) /\
     _set_flags table20_sample self bitbin = Ok (self', bitbin') /\
     delivery_not_restricted_flag self' = Some false /\
     device_restrictions self' = Some "No Restrictions"%string /\
     3 <= BitBin.idx bitbin).
Proof.
  split.
  - exists (mkSegmentationDescriptor
              (mkSpliceDescriptor (Some 2) (Some 15) None
                 (Some (skipn 2 seg_program_start)))
              "Segmentation Descriptor"
              None None None [] None None None None None None None None None
              None None None None None None None None).
    exists (mkSegmentationDescriptor
              (mkSpliceDescriptor (Some 2) (Some 15) (Some "CUEI"%string)
                 (Some (skipn 2 seg_program_start)))
              "Segmentation Descriptor"
              (Some "0x1"%string) (Some false) None [] (Some true) (Some false)
              (Some true) None None None None None
              (Some "Program Start"%string)
              (Some 0x0F) (Some 0) (Some (UStr "URI:None")) (Some 0x10)
              (Some 1) (Some 2) None None).
    exists (BitBin.forward 120 (BitBin.new (skipn 2 seg_program_start))), [].
    split; [reflexivity|].
    split; [vm_compute; reflexivity|].
    split; [reflexivity|].
    match goal with
    | |- web_delivery_allowed_flag ?s' = None /\ _ =>
        destruct (proj2 (C6_delivery_flags ascii_decoder table20_sample table22_sample)
                    (Some seg_program_start) _ s'
                    (BitBin.forward 120 (BitBin.new (skipn 2 seg_program_start)))
                    [] eq_refl)
          as (Hweb & _ & _ & Hdev)
    end.
    + vm_compute. reflexivity.
    + reflexivity.
    + split; assumption.
  - exists (mkSegmentationDescriptor
              (mkSpliceDescriptor (Some 2) (Some 15) None
                 (Some (skipn 2 seg_restricted)))
              "Segmentation Descriptor"
              None None None [] None None None None None None None None None
              None None None None None None None None).
    exists (mkSegmentationDescriptor
              (mkSpliceDescriptor (Some 2) (Some 15) None
                 (Some (skipn 2 seg_restricted)))
              "Segmentation Descriptor"
              None None None [] (Some true) (Some false) (Some false)
              (Some true) (Some true) (Some true) (Some "No Restrictions"%string)
              None None None None None None None None None None).
    exists (BitBin.forward 72 (BitBin.new (skipn 2 seg_restricted))).
    exists (BitBin.forward 80 (BitBin.new (skipn 2 seg_restricted))).
    split; [reflexivity|]. split; [reflexivity|].
    assert (Hrun : _set_flags table20_sample
                     (mkSegmentationDescriptor
                        (mkSpliceDescriptor (Some 2) (Some 15) None
                           (Some (skipn 2 seg_restricted)))
                        "Segmentation Descriptor"
                        None None None [] None None None None None None None None None
                        None None None None None None None None)
                     (BitBin.forward 72 (BitBin.new (skipn 2 seg_restricted)))
                   = Ok (mkSegmentationDescriptor
                           (mkSpliceDescriptor (Some 2) (Some 15) None
                              (Some (skipn 2 seg_restricted)))
                           "Segmentation Descriptor"
                           None None None [] (Some true) (Some false) (Some false)
                           (Some true) (Some true) (Some true)
                           (Some "No Restrictions"%string)
                           None None None None None None None None None None,
                         BitBin.forward 80 (BitBin.new (skipn 2 seg_restricted))))
      by (vm_compute; reflexivity).
    split; [exact Hrun|]. split; [reflexivity|]. split; [reflexivity|].
    destruct (proj1 (C6_delivery_flags ascii_decoder table20_sample table22_sample)
                _ _ _ _ Hrun) as (dnrf & _ & Hidx & _).
    exact Hidx.
Defined.

(** The theorem of C7 on the entries "ab" and "c". *)
Lemma C7_witness :
  _mid ascii_decoder 3
    (cursor_at [0x0D; 7] [0x0F; 2; 0x61; 0x62; 0x0F; 1; 0x63; 0x10])
    (2 + 1 + 4)
  = Ok (UList [UStr "URI:ab"; UStr "URI:c"],
        BitBin.forward (8 * (2 + 1 + 4))
          (cursor_at [0x0D; 7] [0x0F; 2; 0x61; 0x62; 0x0F; 1; 0x63; 0x10])).
Proof.
  apply (C7_mid_two_uris ascii_decoder 3 [0x0D; 7] [0x61; 0x62] [0x63] [0x10]).
  - repeat constructor; unfold byte_ok; lia.
  - cbn. lia.
  - cbn. lia.
  - lia.
Defined.

(** The theorem of C8 on a nested length that overruns the buffer. *)
Lemma C8_witness :
  exists r,
    mid_loop ascii_decoder 100 (BitBin.new [0x0F; 9; 0x61; 0x62]) 16 [] = r /\
    ((exists upids' bitbin', r = Ok (upids', bitbin', 0)) \/ r = Raise BufferUnderrun).
Proof.
  destruct (C8_mid_loop_terminates ascii_decoder (BitBin.new [0x0F; 9; 0x61; 0x62]) 16 [])
    as (r & Hr & Hcase).
  exists r. split; [|exact Hcase].
  apply Hr. vm_compute. lia.
Defined.

(** C9, the claim as stated fails: [avail_header_only] starts with the
    tag 0, and splice_descriptor returns no instance: the decode of the
    empty payload fails on the read of the identifier. *)
Lemma C9_counterexample :
  descriptor_map 0 = Some AvailDescriptor_class /\
  splice_descriptor ascii_decoder table20_sample table22_sample avail_header_only
  = Raise BufferUnderrun /\
  ~ exists d e,
      splice_descriptor ascii_decoder table20_sample table22_sample avail_header_only
      = Ok (Spliced d, e).
Proof.
  split; [reflexivity|]. split; [reflexivity|].
  intros (d & e & H). vm_compute in H. discriminate.
Qed.

(** The theorem of C9 on a slice that starts with the tag 7. *)
Lemma C9_witness :
  ~ 0 <= 7 <= 4 /\
  splice_descriptor ascii_decoder table20_sample table22_sample (7 :: [1; 2])
  = Ok (PyFalse, []).
Proof.
  assert (H : ~ 0 <= 7 <= 4) by lia.
  split; [exact H|].
  apply (C9_splice_descriptor_dispatch ascii_decoder table20_sample table22_sample [1; 2]).
  exact H.
Defined.

(** C10, the claim as stated fails: an AvailDescriptor built over
    [avail_bytes] and not yet decoded has no provider_avail_id, and its
    encode raises instead of returning None. *)
Lemma C10_counterexample :
  exists d,
    AvailDescriptor_init (Some avail_bytes) = Ok d /\
    AvailDescriptor_encode d = Raise TypeError /\
    ~ exists d' e, AvailDescriptor_encode d = Ok (None, d', e).
Proof.
  eexists. split; [cbv; reflexivity|]. split; [reflexivity|].
  intros (d' & e & H). vm_compute in H. discriminate.
Qed.

(** The theorem of C10 on the decoded [time_bytes], and on an avail
    descriptor built over [avail_bytes] and not decoded. *)
Lemma C10_witness :
  (exists d0 d e d' e',
     TimeDescriptor_init (Some time_bytes) = Ok d0 /\
     TimeDescriptor_decode ascii_decoder d0 = Ok (d, e) /\
     TimeDescriptor_encode d = Ok (None, d', e')) /\
  (exists d0,
     AvailDescriptor_init (Some avail_bytes) = Ok d0 /\
     provider_avail_id d0 = None /\
     AvailDescriptor_encode d0 = Raise TypeError).
Proof.
  split.
  - exists (mkTimeDescriptor
              (mkSpliceDescriptor (Some 3) (Some 16) None (Some (skipn 2 time_bytes)))
              "Time Descriptor" None None None).
    exists (mkTimeDescriptor
              (mkSpliceDescriptor (Some 3) (Some 16) (Some "CUEI"%string)
                 (Some (skipn 2 time_bytes)))
              "Time Descriptor" (Some 1) (Some 2) (Some 3)).
    exists [].
    match goal with
    | |- exists d' e', ?i = Ok ?d0 /\ TimeDescriptor_decode _ _ = Ok (?d, ?e) /\ _ =>
        destruct (proj1 (proj2 (proj2 (proj2 (proj2 (proj2 (proj2
                    (C10_variant_encode_returns_None ascii_decoder)))))))
                  (Some time_bytes) d0 d e) as (d' & e' & Henc)
    end.
    + reflexivity.
    + vm_compute. reflexivity.
    + exists d', e'. split; [reflexivity|]. split; [vm_compute; reflexivity|]. exact Henc.
  - eexists. split; [reflexivity|]. split; [reflexivity|].
    apply (proj1 (proj2 (proj2 (proj2 (proj2 (proj2 (proj2 (proj2 (proj2 (proj2
             (C10_variant_encode_returns_None ascii_decoder))))))))))).
    reflexivity.
Defined.

(** ** The further properties, on concrete descriptors *)

(** Proves the first component of a conjunction by evaluation and keeps
    it as [H] for the second. *)
Ltac run_first H :=
  match goal with
  | |- ?first_call /\ _ =>
      assert (H : first_call) by (vm_compute; reflexivity); split; [exact H|]
  end.

Ltac bytes_ok :=
  repeat (apply Forall_cons; [unfold byte_ok, dtmf_char_ok; lia|]); apply Forall_nil.

(** The round trip of the avail descriptor [avail_bytes]. *)
Lemma Avail_round_trip_witness :
  exists d0 d e,
    AvailDescriptor_init (Some (avail_wire 0 8 cuei [0; 0; 0; 1])) = Ok d0 /\
    AvailDescriptor_decode ascii_decoder d0
    = Ok (d, e ++ [DescriptorBytes (avail_wire 0 8 cuei [0; 0; 0; 1])]) /\
    AvailDescriptor_encode d
    = Ok (None, d, [DescriptorBytes (avail_wire 0 8 cuei [0; 0; 0; 1])]).
Proof.
  apply (Avail_round_trip ascii_decoder 0 8 cuei [0; 0; 0; 1]).
  - unfold byte_ok; lia.
  - unfold byte_ok; lia.
  - reflexivity.
  - reflexivity.
  - bytes_ok.
Defined.

(** The round trip of a time descriptor whose identifier is not CUEI:
    the bytes come back with CUEI in its place. *)
Lemma Time_round_trip_witness :
  exists d0 d e d',
    TimeDescriptor_init
      (Some (time_wire 3 16 [0x41; 0x42; 0x43; 0x44] [0; 0; 0; 0; 0; 1]
               [0; 0; 0; 2] [0; 3])) = Ok d0 /\
    TimeDescriptor_decode ascii_decoder d0 = Ok (d, e) /\
    TimeDescriptor_encode d
    = Ok (None, d',
          [DescriptorBytes (time_wire 3 16 cuei [0; 0; 0; 0; 0; 1] [0; 0; 0; 2] [0; 3])]).
Proof.
  apply (Time_round_trip ascii_decoder 3 16 [0x41; 0x42; 0x43; 0x44]
           [0; 0; 0; 0; 0; 1] [0; 0; 0; 2] [0; 3]).
  - unfold byte_ok; lia.
  - unfold byte_ok; lia.
  - reflexivity.
  - reflexivity.
  - reflexivity.
  - reflexivity.
  - bytes_ok.
Defined.

(** The round trip of a DTMF descriptor with the three characters 1, 2
    and the star. *)
Lemma Dtmf_round_trip_witness :
  exists d0 d e,
    DtmfDescriptor_init (Some (dtmf_wire 1 9 cuei 5 [0x31; 0x32; 0x2A])) = Ok d0 /\
    DtmfDescriptor_decode ascii_decoder d0
    = Ok (d, e ++ [DescriptorBytes (dtmf_wire 1 9 cuei 5 [0x31; 0x32; 0x2A])]) /\
    DtmfDescriptor_encode d
    = Ok (None, d, [DescriptorBytes (dtmf_wire 1 9 cuei 5 [0x31; 0x32; 0x2A])]).
Proof.
  apply (Dtmf_round_trip ascii_decoder 1 9 cuei 5 [0x31; 0x32; 0x2A]).
  - unfold byte_ok; lia.
  - unfold byte_ok; lia.
  - unfold byte_ok; lia.
  - reflexivity.
  - bytes_ok.
  - cbn; lia.
  - bytes_ok.
Defined.

(** X4 on [avail_bytes], whose payload has 8 bytes, and on
    [avail_header_only], whose payload is empty. *)
Lemma X4_witness :
  (exists d0,
     AvailDescriptor_init (Some (0 :: 8 :: skipn 2 avail_bytes)) = Ok d0 /\
     exists d e v,
       AvailDescriptor_decode ascii_decoder d0 = Ok (d, e) /\
       provider_avail_id d = Some v /\ 0 <= v < 2 ^ 32 /\
       tag (avail_base d) = Some 0 /\ descriptor_length (avail_base d) = Some 8) /\
  (exists d0,
     AvailDescriptor_init (Some (0 :: 0 :: [])) = Ok d0 /\
     AvailDescriptor_decode ascii_decoder d0 = Raise BufferUnderrun).
Proof.
  split.
  - eexists. split; [reflexivity|].
    apply (proj1 (proj1 (X4_avail_time_decode_length ascii_decoder)
                    0 8 (skipn 2 avail_bytes) _ eq_refl)).
    cbn. lia.
  - eexists. split; [reflexivity|].
    apply (proj2 (proj1 (X4_avail_time_decode_length ascii_decoder)
                    0 0 [] _ eq_refl)).
    cbn. lia.
Defined.

(** X5 on a segmentation header without payload. *)
Lemma X5_witness :
  splice_descriptor ascii_decoder table20_sample table22_sample [2; 0]
  = Raise BufferUnderrun /\
  splice_descriptor ascii_decoder table20_sample table22_sample [2]
  = Raise IndexError /\
  splice_descriptor ascii_decoder table20_sample table22_sample []
  = Raise IndexError.
Proof.
  apply (X5_short_slices ascii_decoder table20_sample table22_sample 2 0). lia.
Defined.

(** X6 on [avail_bytes] and on [time_bytes]. *)
Lemma X6_witness :
  (exists d0 d e,
     AvailDescriptor_init (Some avail_bytes) = Ok d0 /\
     AvailDescriptor_decode ascii_decoder d0 = Ok (d, e) /\
     identifier (avail_base d) = Some "0x43554549"%string) /\
  (exists d0 d e,
     TimeDescriptor_init (Some time_bytes) = Ok d0 /\
     TimeDescriptor_decode ascii_decoder d0 = Ok (d, e) /\
     exists payload s bitbin',
       bites (time_base d0) = Some payload /\
       BitBin.asdecodedhex ascii_decoder 32 (BitBin.new payload) = Ok (s, bitbin') /\
       identifier (time_base d) = Some s /\
       e = if String.eqb s "CUEI" then [] else [IdentifierWarning]).
Proof.
  split.
  - do 3 eexists. split; [reflexivity|]. run_first Hd.
    exact (proj1 (X6_identifier_after_decode ascii_decoder table20_sample
                    table22_sample) _ _ _ Hd).
  - do 3 eexists. split; [reflexivity|]. run_first Hd.
    exact (proj1 (proj2 (proj2 (X6_identifier_after_decode ascii_decoder
                                  table20_sample table22_sample))) _ _ _ Hd).
Defined.

(** X7 on a DTMF descriptor whose second character is the byte 0x80. *)
Lemma X7_witness :
  exists d0,
    DtmfDescriptor_init (Some (dtmf_wire 1 8 cuei 5 ([0x31] ++ 0x80 :: []))) = Ok d0 /\
    DtmfDescriptor_decode ascii_decoder d0 = Raise UnicodeDecodeError.
Proof.
  eexists. split; [reflexivity|].
  apply (X7_dtmf_non_ascii ascii_decoder 1 8 cuei 5 [0x31] [] 0x80).
  - unfold byte_ok; lia.
  - reflexivity.
  - bytes_ok.
  - bytes_ok.
  - lia.
  - bytes_ok.
  - cbn; lia.
  - reflexivity.
Defined.

(** X8 on a DTMF descriptor with two characters. *)
Lemma X8_witness :
  exists d0 d e,
    DtmfDescriptor_init (Some (dtmf_wire 1 8 cuei 5 [0x31; 0x32])) = Ok d0 /\
    DtmfDescriptor_decode ascii_decoder d0 = Ok (d, e) /\
    exists p n,
      preroll d = Some p /\ 0 <= p <= 255 /\
      dtmf_count d = Some n /\ 0 <= n <= 7 /\
      Z.of_nat (List.length (dtmf_chars d)) = n /\
      Forall (fun c => ord c < 128) (dtmf_chars d).
Proof.
  do 3 eexists. split; [reflexivity|]. run_first Hd.
  exact (X8_dtmf_decode_invariant ascii_decoder
           (Some (dtmf_wire 1 8 cuei 5 [0x31; 0x32])) _ _ _ eq_refl Hd).
Defined.

(** X9 on [audio_one_component]. *)
Lemma X9_witness :
  exists d0 d e,
    AudioDescriptor_init (Some audio_one_component) = Ok d0 /\
    AudioDescriptor_decode ascii_decoder d0 = Ok (d, e) /\
    exists n,
      audio_count d = Some n /\ 0 <= n <= 15 /\
      Z.of_nat (List.length (audio_components d)) = n /\
      Forall audio_comp_ok (audio_components d).
Proof.
  do 3 eexists. split; [reflexivity|]. run_first Hd.
  exact (X9_audio_decode_invariant ascii_decoder (Some audio_one_component)
           _ _ _ eq_refl Hd).
Defined.

(** X10 on [audio_one_component]: a second decode leaves two components
    for a count of one. *)
Lemma X10_witness :
  exists d0 d e,
    AudioDescriptor_init (Some audio_one_component) = Ok d0 /\
    AudioDescriptor_decode ascii_decoder d0 = Ok (d, e) /\
    exists new,
      audio_components d = audio_components d0 ++ new /\
      AudioDescriptor_decode ascii_decoder d
      = Ok (mkAudioDescriptor (audio_base d) (audio_name d)
              (audio_components d ++ new) (audio_count d), e).
Proof.
  do 3 eexists. split; [reflexivity|]. run_first Hd.
  exact (X10_audio_decode_twice ascii_decoder _ _ _ Hd).
Defined.

(** X11 on the flag byte 0x9F, with the sample of table20. *)
Lemma X11_witness :
  exists self,
    SegmentationDescriptor_init None = Ok self /\
    exists self',
      _set_flags table20_sample self (BitBin.new [0x9F])
      = Ok (self', BitBin.forward 8 (BitBin.new [0x9F])).
Proof.
  eexists. split; [reflexivity|].
  apply (proj1 (proj2 (X11_set_flags_one_byte table20_sample))).
  - cbn. lia.
  - intros k Hk.
    assert (Hcases : k = 0 \/ k = 1 \/ k = 2 \/ k = 3) by lia.
    destruct Hcases as [-> | [-> | [-> | ->]]]; discriminate.
Defined.

(** X12 on a count of one and the six bytes of its component. *)
Lemma X12_witness :
  exists self,
    SegmentationDescriptor_init None = Ok self /\
    exists new,
      _set_components self (BitBin.new [1; 7; 0; 0; 0; 0; 1])
      = Ok (with_components 1 (seg_components self ++ new) self,
            BitBin.forward (48 * 1)
              (BitBin.forward 8 (BitBin.new [1; 7; 0; 0; 0; 0; 1]))) /\
      Z.of_nat (List.length new) = 1 /\ Forall seg_comp_ok new.
Proof.
  eexists. split; [reflexivity|].
  refine (proj1 (X12_set_components _ (BitBin.new [1; 7; 0; 0; 0; 0; 1])
                   (BitBin.forward 8 (BitBin.new [1; 7; 0; 0; 0; 0; 1])) 1 _) _).
  - vm_compute. reflexivity.
  - cbn. lia.
Defined.

(** X13 on [seg_program_start]. *)
Lemma X13_witness :
  exists self self' e,
    SegmentationDescriptor_init (Some seg_program_start) = Ok self /\
    SegmentationDescriptor_decode ascii_decoder table20_sample table22_sample self
    = Ok (self', e) /\
    exists p s r,
      program_segmentation_flag self' = Some p /\
      segmentation_duration_flag self' = Some s /\
      delivery_not_restricted_flag self' = Some r /\
      (if p then component_count self' = None /\ seg_components self' = []
       else exists c,
           component_count self' = Some c /\
           Z.of_nat (List.length (seg_components self')) = c /\
           Forall seg_comp_ok (seg_components self')) /\
      (if s then exists d, segmentation_duration self' = Some d
       else segmentation_duration self' = None).
Proof.
  do 3 eexists. split; [reflexivity|]. run_first Hd.
  exact (X13_flags_govern_presence ascii_decoder table20_sample table22_sample
           (Some seg_program_start) _ _ _ eq_refl Hd eq_refl).
Defined.

(** X14 on [seg_program_start]. *)
Lemma X14_witness :
  exists self self' e,
    SegmentationDescriptor_init (Some seg_program_start) = Ok self /\
    SegmentationDescriptor_decode ascii_decoder table20_sample table22_sample self
    = Ok (self', e) /\
    exists ty len upid tid,
      segmentation_upid_type self' = Some ty /\ 0 <= ty < 256 /\
      segmentation_upid_length self' = Some len /\ 0 <= len < 256 /\
      segmentation_upid self' = Some upid /\
      segmentation_type_id self' = Some tid /\ 0 <= tid < 256 /\
      segmentation_message self' = table22_sample tid /\
      match table22_sample tid with
      | Some _ =>
          exists sn se,
            segment_num self' = Some sn /\ 0 <= sn < 256 /\
            segments_expected self' = Some se /\ 0 <= se < 256
      | None =>
          segment_num self' = None /\ segments_expected self' = None /\
          sub_segment_num self' = None /\ sub_segments_expected self' = None
      end.
Proof.
  do 3 eexists. split; [reflexivity|]. run_first Hd.
  exact (X14_type_id_governs_segments ascii_decoder table20_sample table22_sample
           (Some seg_program_start) _ _ _ eq_refl Hd eq_refl).
Defined.

(** X15 on a MID of declared length 1 over an empty URI entry. *)
Lemma X15_witness :
  _mid ascii_decoder 100 (BitBin.new [0x0F; 0]) 1 = Raise BufferUnderrun /\
  mid_loop ascii_decoder 100 (BitBin.new [0x0F; 0; 0x0F; 0]) (-8) []
  = Raise BufferUnderrun.
Proof.
  split.
  - apply (proj2 (X15_mid_overrun_fails ascii_decoder)). cbn. lia.
  - apply (proj1 (X15_mid_overrun_fails ascii_decoder)); [cbn; lia | lia].
Defined.

(** X16 on three URI entries, the second one empty, before one more
    byte. *)
Lemma X16_witness :
  _mid ascii_decoder 4
    (cursor_at [] (uri_entries_wire [[0x61; 0x62]; []; [0x63]] ++ [0x10]))
    (Z.of_nat (List.length (uri_entries_wire [[0x61; 0x62]; []; [0x63]])))
  = Ok (UList (map (uri_entry ascii_decoder) [[0x61; 0x62]; []; [0x63]]),
        cursor_at ([] ++ uri_entries_wire [[0x61; 0x62]; []; [0x63]]) [0x10]).
Proof.
  apply (X16_mid_uri_entries ascii_decoder [[0x61; 0x62]; []; [0x63]] 4 [] [0x10]).
  - repeat (apply Forall_cons; [split; [bytes_ok | cbn; lia]|]). apply Forall_nil.
  - bytes_ok.
  - cbn. lia.
Defined.

(** X17 on the decoded [time_bytes]. *)
Lemma X17_witness :
  exists r d' e,
    TimeDescriptor_encode
      (mkTimeDescriptor
         (mkSpliceDescriptor (Some 3) (Some 16) (Some "CUEI"%string)
            (Some (skipn 2 time_bytes)))
         "Time Descriptor" (Some 1) (Some 2) (Some 3))
    = Ok (r, d', e) /\
    TimeDescriptor_encode d' = Ok (r, d', e).
Proof.
  do 3 eexists. run_first He.
  exact (proj1 (proj2 (proj2 X17_encode_idempotent)) _ _ _ _ He).
Defined.

(** X18 on an empty URI before one byte. *)
Lemma X18_witness :
  _set_segmentation_upid ascii_decoder 0 (BitBin.new [1]) 0x0F 0
  = Ok (UStr ("URI" ++ ":None"), BitBin.new [1]).
Proof.
  apply (proj1 (X18_empty_upid ascii_decoder 0 (BitBin.new [1]))).
  do 4 right. left. reflexivity.
Defined.

(** X19 on an MPU UPID of five bytes. *)
Lemma X19_witness :
  exists v b',
    _set_segmentation_upid ascii_decoder 0 (BitBin.new [0; 0; 0; 1; 0xAB]) 0x0C 5
    = Ok (v, b') /\
    exists fid pd,
      v = ULabelled "MPU" (UMpu fid pd) /\
      0 <= fid < 2 ^ 32 /\ 0 <= pd < 2 ^ (8 * 5 - 32) /\ 4 <= 5.
Proof.
  do 2 eexists. run_first Hd.
  exact (proj2 (X19_atsc_mpu_fields ascii_decoder 0 _ _ 5 _) Hd).
Defined.

(** X21 on a UMID of eight bytes. *)
Lemma X21_witness :
  exists v b',
    _umid (BitBin.new [0x12; 0x34; 0x56; 0x78; 0x9A; 0xBC; 0xDE; 0xF0]) 8 = Ok (v, b') /\
    exists h groups digits,
      BitBin.ashex (Z.shiftl 8 3)
        (BitBin.new [0x12; 0x34; 0x56; 0x78; 0x9A; 0xBC; 0xDE; 0xF0]) = Ok (h, b') /\
      v = UStr (String.concat "." groups) /\
      String.concat "" groups = drop_first_x h /\
      Forall (fun g => (String.length g <= 8)%nat) groups /\
      h = String "0" (String "x" digits) /\
      drop_first_x h = String "0" digits.
Proof.
  do 2 eexists. run_first Hd.
  exact (X21_umid_groups _ _ 8 _ Hd).
Defined.
